(** * Acquisition pipeline of the request fulfiller (utils.py, main.py)

    A shallow embedding of the per-request pipeline: identifier resolution,
    candidate discovery, availability filtering, ranking, selection and
    commit.  Python values that come out of [response.json()] are kept as
    JSON trees, exceptions are explicit results, and every outbound call is
    threaded through an abstract world and recorded in a trace.

    Left out: logging, the [@sleep_and_retry @limits] decorators (they
    delay a call, they never change its arguments or its result), and the
    queue and worker threads of [start_processing_queue], which run
    [process_overseerr_request] once per request. *)

From stdpp Require Import gmap strings list.
From Stdlib Require Import ZArith Permutation Sorted.

Set Warnings "-register-all".
Open Scope string_scope.
Open Scope list_scope.
Open Scope nat_scope.

(** ** Python values *)

(** What [response.json()] returns.  Numbers are the integers of the
    payloads at hand (identifiers, indices, sizes).  A [JDict] lists the
    items of the dict in iteration order. *)
Inductive json : Type :=
| JNull
| JBool (b : bool)
| JNum (n : Z)
| JStr (s : string)
| JList (items : list json)
| JDict (items : list (string * json)).

(** The exceptions the pipeline can meet. *)
Inductive exn : Type :=
| RequestException
| GarbageTorrent
| TypeError
| KeyError
| AttributeError
| ValueError
| IndexError.

Inductive result (A : Type) : Type :=
| Ok (a : A)
| Raise (e : exn).
Arguments Ok {A} a.
Arguments Raise {A} e.

Global Instance exn_eq_dec : EqDecision exn.
Proof. solve_decision. Defined.

(** [bool(v)] *)
Definition truthy (v : json) : bool :=
  match v with
  | JNull => false
  | JBool b => b
  | JNum n => negb (n =? 0)%Z
  | JStr s => match s with EmptyString => false | _ => true end
  | JList l => match l with [] => false | _ => true end
  | JDict l => match l with [] => false | _ => true end
  end.

(** [v == s] for a string literal [s] *)
Definition py_eq_str (v : json) (s : string) : bool :=
  match v with
  | JStr s' => String.eqb s' s
  | _ => false
  end.

Fixpoint assoc (k : string) (kvs : list (string * json)) : option json :=
  match kvs with
  | [] => None
  | (k', v) :: rest => if String.eqb k' k then Some v else assoc k rest
  end.

(** [d.get(k, default)] *)
Definition py_get (d : json) (k : string) (default : json) : result json :=
  match d with
  | JDict kvs => Ok (match assoc k kvs with Some v => v | None => default end)
  | _ => Raise AttributeError
  end.

(** [d[k]] for a string key *)
Definition py_item (d : json) (k : string) : result json :=
  match d with
  | JDict kvs => match assoc k kvs with Some v => Ok v | None => Raise KeyError end
  | _ => Raise TypeError
  end.

(** [len(v)] *)
Definition py_len (v : json) : result nat :=
  match v with
  | JList l => Ok (length l)
  | JDict l => Ok (length l)
  | JStr s => Ok (String.length s)
  | _ => Raise TypeError
  end.

Fixpoint chars (s : string) : list json :=
  match s with
  | EmptyString => []
  | String c s' => JStr (String c EmptyString) :: chars s'
  end.

(** [for x in v] *)
Definition py_iter (v : json) : result (list json) :=
  match v with
  | JList l => Ok l
  | JDict kvs => Ok (map (λ kv, JStr (fst kv)) kvs)
  | JStr s => Ok (chars s)
  | _ => Raise TypeError
  end.

(** [v[i]] for an index [0 <= i < len(v)] *)
Definition py_index (v : json) (i : nat) : result json :=
  match v with
  | JList l => match l !! i with Some x => Ok x | None => Raise IndexError end
  | JStr s => match chars s !! i with Some x => Ok x | None => Raise IndexError end
  | JDict _ => Raise KeyError
  | _ => Raise TypeError
  end.

Fixpoint substring_of (needle s : string) : bool :=
  String.prefix needle s ||
  match s with
  | EmptyString => false
  | String _ s' => substring_of needle s'
  end.

(** [s in v] for a string literal [s] *)
Definition py_contains_str (s : string) (v : json) : result bool :=
  match v with
  | JDict kvs => Ok (bool_decide (is_Some (assoc s kvs)))
  | JList l => Ok (existsb (λ x, py_eq_str x s) l)
  | JStr s' => Ok (substring_of s s')
  | _ => Raise TypeError
  end.

Definition result_bind {A B} (r : result A) (f : A → result B) : result B :=
  match r with
  | Ok a => f a
  | Raise e => Raise e
  end.

Notation "x <~ r ;; k" := (result_bind r (λ x, k))
  (at level 100, r at next level, right associativity).

(** The integer an order comparison with an [int] sees: [bool] is a
    subclass of [int]; any other operand makes [<] raise. *)
Definition py_as_int (v : json) : result Z :=
  match v with
  | JNum n => Ok n
  | JBool b => Ok (if b then 1 else 0)%Z
  | _ => Raise TypeError
  end.

(** ** The ranking library's verdict (RTN.Torrent) *)

Record Torrent : Type := {
  infohash : string;
  parsed_title : string;   (* torrent.data.parsed_title *)
  fetch : bool;
  rank : Z
}.

(** ** Outbound calls *)

(** One constructor per call site of [session.get] / [session.post]; the
    arguments are the values the source formats into the URL or the body. *)
Inductive call : Type :=
| GetTraktSearch (tmdb_id : json) (type : string)
    (* https://api.trakt.tv/search/tmdb/{tmdb_id}?type={type} *)
| GetTorrentio (kind : string) (imdb_id : json)
    (* .../stream/movie/{imdb_id}.json, .../stream/series/{imdb_id}:1:1.json *)
| GetInstantAvailability (hashes : list string)
    (* .../torrents/instantAvailability/{"/".join(hashes)} *)
| PostAddMagnet (info_hash torrent_name : string)
    (* magnet:?xt=urn:btih:{info_hash}&dn={torrent_name} *)
| GetTorrentInfo (torrent_id : json)
| PostSelectFiles (torrent_id : json) (files : list json)
    (* data = {'files': ",".join(str(id) ...)} *)
| PostMarkAvailable (media_id : json).

(** A call gives a response (status code and decoded body) or raises a
    [requests.exceptions.RequestException]. *)
Inductive http_outcome : Type :=
| Response (status_code : Z) (body : json)
| NoResponse.

Inductive event : Type :=
| EvHttp (c : call) (o : http_outcome)
| EvRank (title : json) (info_hash : string) (r : result Torrent).

(** ** The pipeline monad: world passing, exceptions, trace *)

Section Pipeline.

Context {World : Type}.

(** The services behind [session]: answer and next state of the world. *)
Variable network : call → World → http_outcome * World.
(** [rtn.rank(title, info_hash)]: a torrent, [GarbageTorrent], or another
    exception of the library. *)
Variable rtn_rank : json → string → result Torrent.
(** [mimetypes.guess_type(path)[0]] *)
Variable guess_type : string → option string.
(** [int(k)] on a string; [None] stands for [ValueError]. *)
Variable py_int : string → option Z.

Definition M (A : Type) : Type := World → result A * World * list event.

Definition ret {A} (a : A) : M A := λ w, (Ok a, w, []).

Definition raise {A} (e : exn) : M A := λ w, (Raise e, w, []).

Definition bind {A B} (m : M A) (f : A → M B) : M B := λ w,
  match m w with
  | (Ok a, w1, t1) =>
      match f a w1 with
      | (r, w2, t2) => (r, w2, t1 ++ t2)
      end
  | (Raise e, w1, t1) => (Raise e, w1, t1)
  end.

Definition lift {A} (r : result A) : M A := λ w, (r, w, []).

(** [try: m except e: handler] *)
Definition try_except {A} (m : M A) (e : exn) (handler : M A) : M A := λ w,
  match m w with
  | (Raise e', w1, t1) =>
      if decide (e' = e) then
        match handler w1 with
        | (r, w2, t2) => (r, w2, t1 ++ t2)
        end
      else (Raise e', w1, t1)
  | ok => ok
  end.

(** [try: m except Exception: handler] *)
Definition try_except_all {A} (m : M A) (handler : exn → M A) : M A := λ w,
  match m w with
  | (Raise e, w1, t1) =>
      match handler e w1 with
      | (r, w2, t2) => (r, w2, t1 ++ t2)
      end
  | ok => ok
  end.

Notation "x <- m ;; k" := (bind m (λ x, k))
  (at level 100, m at next level, right associativity).

(** [session.get] / [session.post] *)
Definition session (c : call) : M (Z * json) := λ w,
  match network c w with
  | (Response st body, w') => (Ok (st, body), w', [EvHttp c (Response st body)])
  | (NoResponse, w') => (Raise RequestException, w', [EvHttp c NoResponse])
  end.

Definition rtn_rank_call (title : json) (info_hash : string) : M Torrent := λ w,
  (rtn_rank title info_hash, w, [EvRank title info_hash (rtn_rank title info_hash)]).

(** ** Identifier Resolver: get_imdb_id_from_trakt *)

Definition trakt_extract (media_type data : json) : result json :=
  if truthy data then
    match data with
    | JList items =>
        match items with
        | first :: _ =>
            let key := if py_eq_str media_type "tv" then "show" else "movie" in
            match py_item first key with
            | Ok entry =>
                match py_item entry "ids" with
                | Ok ids => py_item ids "imdb"
                | Raise e => Raise e
                end
            | Raise e => Raise e
            end
        | [] => Ok JNull
        end
    | _ => Ok JNull
    end
  else Ok JNull.

(** The body of [for attempt in range(5)], from [attempt] on; [remaining]
    is [5 - attempt]. *)
Fixpoint trakt_attempts (c : call) (media_type : json) (attempt remaining : nat)
  : M json :=
  match remaining with
  | 0 => ret JNull
  | S remaining' =>
      try_except
        (resp <- session c ;;
         if (fst resp =? 200)%Z then lift (trakt_extract media_type (snd resp))
         else ret JNull)
        RequestException
        (if Nat.eqb attempt 4 then ret JNull
         else trakt_attempts c media_type (S attempt) remaining')
  end.

Definition get_imdb_id_from_trakt (tmdb_id media_type : json) : M json :=
  let type := if py_eq_str media_type "tv" then "show" else "movie" in
  trakt_attempts (GetTraktSearch tmdb_id type) media_type 0 5.

(** ** Candidate Discovery: query_torrentio *)

Fixpoint torrentio_attempts (c : call) (attempt remaining : nat) : M json :=
  match remaining with
  | 0 => ret JNull
  | S remaining' =>
      try_except
        (resp <- session c ;;
         if (fst resp =? 200)%Z then ret (snd resp) else ret JNull)
        RequestException
        (if Nat.eqb attempt 4 then ret JNull
         else torrentio_attempts c (S attempt) remaining')
  end.

Definition query_torrentio (imdb_id media_type : json) : M json :=
  let kind := if py_eq_str media_type "tv" then "series" else "movie" in
  torrentio_attempts (GetTorrentio kind imdb_id) 0 5.

(** ** Availability Filter: get_instant_availability, check_rd_availability *)

(** [{"filename": v["filename"], "filesize": v["filesize"]}] *)
Definition file_info : Type := json * json.

(** [{hash: {} for hash in hashes}] *)
Definition empty_records (hashes : list string) : gmap string (gmap Z file_info) :=
  foldl (λ acc h, <[h := ∅]> acc) ∅ hashes.

(** [for k, v in container.items()] of the comprehension *)
Fixpoint container_entries (kvs : list (string * json)) (acc : gmap Z file_info)
  : result (gmap Z file_info) :=
  match kvs with
  | [] => Ok acc
  | (k, v) :: rest =>
      match py_int k with
      | None => Raise ValueError
      | Some i =>
          filename <~ py_item v "filename" ;;
          filesize <~ py_item v "filesize" ;;
          container_entries rest (<[i := (filename, filesize)]> acc)
      end
  end.

(** [for container in values["rd"]] of the comprehension *)
Fixpoint rd_entries (containers : list json) (acc : gmap Z file_info)
  : result (gmap Z file_info) :=
  match containers with
  | [] => Ok acc
  | container :: rest =>
      match container with
      | JDict kvs =>
          acc' <~ container_entries kvs acc ;;
          rd_entries rest acc'
      | _ => Raise AttributeError
      end
  end.

(** The record stored under one hash of the response body. *)
Definition rd_record (values : json) : result (gmap Z file_info) :=
  has_rd <~ py_contains_str "rd" values ;;
  if has_rd : bool then
    rd <~ py_item values "rd" ;;
    if truthy rd then
      containers <~ py_iter rd ;;
      rd_entries containers ∅
    else Ok ∅
  else Ok ∅.

(** [for hash, values in data.items()] *)
Fixpoint availability_results (items : list (string * json))
    (results : gmap string (gmap Z file_info))
  : result (gmap string (gmap Z file_info)) :=
  match items with
  | [] => Ok results
  | (hash, values) :: rest =>
      record <~ rd_record values ;;
      availability_results rest (<[hash := record]> results)
  end.

(** What [get_instant_availability] makes of the response it got. *)
Definition normalize_availability (hashes : list string) (response : Z * json)
  : result (gmap string (gmap Z file_info)) :=
  if negb (fst response =? 200)%Z then Ok (empty_records hashes)
  else
    match snd response with
    | JList _ => Ok (empty_records hashes)
    | JDict items => availability_results items ∅
    | _ => Raise AttributeError
    end.

Definition get_instant_availability (hashes : list string)
  : M (gmap string (gmap Z file_info)) :=
  response <- session (GetInstantAvailability hashes) ;;
  lift (normalize_availability hashes response).

(** The decision of [check_rd_availability] on the normalized mapping:
    the record when the hash is a key with a non-empty record, else [None]. *)
Definition available_record (info_hash : string)
    (availability : gmap string (gmap Z file_info)) : option (gmap Z file_info) :=
  match availability !! info_hash with
  | Some record => if Nat.eqb (size record) 0 then None else Some record
  | None => None
  end.

Definition check_rd_availability (info_hash : string)
  : M (option (gmap Z file_info)) :=
  availability <- get_instant_availability [info_hash] ;;
  ret (available_record info_hash availability).

(** ** Commit Stage: select_files_in_rd, add_torrent_and_select_files *)

(** [file_idx < 0 or file_idx >= len(files)] *)
Definition index_out_of_range (file_idx files : json) : result bool :=
  i <~ py_as_int file_idx ;;
  if (i <? 0)%Z then Ok true
  else
    n <~ py_len files ;;
    Ok (Z.of_nat n <=? i)%Z.

(** [mimetypes.guess_type(path)[0] and
     mimetypes.guess_type(path)[0].startswith('video')] *)
Definition is_video (path : json) : result bool :=
  match path with
  | JStr p =>
      match guess_type p with
      | Some mime => Ok (String.prefix "video" mime)
      | None => Ok false
      end
  | _ => Raise TypeError
  end.

(** [[str(file['id']) for file in files if <is_video file.get('path', '')>]] *)
Fixpoint playable_files (files : list json) : result (list json) :=
  match files with
  | [] => Ok []
  | file :: rest =>
      path <~ py_get file "path" (JStr "") ;;
      video <~ is_video path ;;
      if video : bool then
        id <~ py_item file "id" ;;
        ids <~ playable_files rest ;;
        Ok (id :: ids)
      else playable_files rest
  end.

(** The value of [data['files']] per media type: the identifiers to select,
    or [None] where the source returns [False] without selecting. *)
Definition files_to_select (file_idx media_type files : json)
  : result (option (list json)) :=
  if py_eq_str media_type "movie" then
    i <~ py_as_int file_idx ;;
    file <~ py_index files (Z.to_nat i) ;;
    selected_file_id <~ py_item file "id" ;;
    Ok (Some [selected_file_id])
  else if py_eq_str media_type "tv" then
    items <~ py_iter files ;;
    playable <~ playable_files items ;;
    match playable with
    | [] => Ok None
    | _ => Ok (Some playable)
    end
  else Ok None.

Definition select_files_in_rd (torrent_id file_idx media_type : json) : M bool :=
  files_response <- session (GetTorrentInfo torrent_id) ;;
  if negb (fst files_response =? 200)%Z then ret false
  else
    files <- lift (py_get (snd files_response) "files" (JList [])) ;;
    out_of_range <- lift (index_out_of_range file_idx files) ;;
    if out_of_range : bool then ret false
    else
      data <- lift (files_to_select file_idx media_type files) ;;
      match data with
      | None => ret false
      | Some ids =>
          response <- session (PostSelectFiles torrent_id ids) ;;
          ret (fst response =? 204)%Z
      end.

Definition commit_result (success : bool) (message : string)
    (extra : list (string * json)) : json :=
  JDict ([("success", JBool success); ("message", JStr message)] ++ extra).

Definition add_torrent_and_select_files (info_hash torrent_name : string)
    (file_idx media_type : json) : M json :=
  response <- session (PostAddMagnet info_hash torrent_name) ;;
  if (fst response =? 201)%Z then
    torrent_id <- lift (py_get (snd response) "id" JNull) ;;
    if truthy torrent_id then
      selected <- select_files_in_rd torrent_id file_idx media_type ;;
      if selected : bool then
        ret (commit_result true "Torrent added and files selected."
               [("torrent_id", torrent_id)])
      else ret (commit_result false "Failed to select files in the torrent." [])
    else ret (commit_result false "Torrent added, but torrent ID not found." [])
  else ret JNull.

(** ** Acknowledgement: mark_completed *)

Definition mark_completed (media_id : json) : M bool :=
  try_except_all
    (response <- session (PostMarkAvailable media_id) ;;
     ret (fst response =? 200)%Z)
    (λ _, ret false).

(** ** Selection, poll path: process_overseerr_request *)

Record loop_state : Type := {
  ranked_torrents : list Torrent;
  checked_hashes : gset string;
  garbage_count : nat
}.

Definition max_hashes_to_check : nat := 5.

Definition add_garbage (st : loop_state) : loop_state :=
  {| ranked_torrents := ranked_torrents st;
     checked_hashes := checked_hashes st;
     garbage_count := S (garbage_count st) |}.

Definition add_ranked (torrent : Torrent) (st : loop_state) : loop_state :=
  {| ranked_torrents := ranked_torrents st ++ [torrent];
     checked_hashes := checked_hashes st;
     garbage_count := garbage_count st |}.

Definition add_checked (info_hash : string) (st : loop_state) : loop_state :=
  {| ranked_torrents := ranked_torrents st;
     checked_hashes := {[info_hash]} ∪ checked_hashes st;
     garbage_count := garbage_count st |}.

(** The [try: ... except GarbageTorrent: ...] block of the loop. *)
Definition rank_checked (title : json) (info_hash : string) (st : loop_state)
  : M loop_state :=
  try_except
    (torrent <- rtn_rank_call title info_hash ;;
     if fetch torrent then ret (add_ranked torrent st)
     else ret (add_garbage st))
    GarbageTorrent
    (ret (add_garbage st)).

(** One pass through the body of [for stream in torrentio_results['streams']];
    the boolean is [true] when the pass ends in [break]. *)
Definition poll_iteration (stream : json) (st : loop_state) : M (bool * loop_state) :=
  info_hash <- lift (py_get stream "infoHash" JNull) ;;
  title <- lift (py_get stream "title" JNull) ;;
  if truthy info_hash && truthy title then
    match info_hash with
    | JStr h =>
        if bool_decide (h ∈ checked_hashes st) then ret (false, st)
        else
          let st1 := add_checked h st in
          rd_availability <- check_rd_availability h ;;
          st2 <- match rd_availability with
                 | Some _ => rank_checked title h st1
                 | None => ret st1
                 end ;;
          if Nat.leb max_hashes_to_check (size (checked_hashes st2))
             && Nat.eqb (garbage_count st2) max_hashes_to_check
          then ret (true, st2)
          else ret (false, st2)
    | _ =>
        (* a list or dict is unhashable in [info_hash not in checked_hashes];
           any other value is refused by ["/".join(hashes)] *)
        raise TypeError
    end
  else ret (false, st).

Fixpoint rank_streams (streams : list json) (st : loop_state) : M loop_state :=
  match streams with
  | [] => ret st
  | stream :: rest =>
      step <- poll_iteration stream st ;;
      if fst step : bool then ret (snd step)
      else rank_streams rest (snd step)
  end.

(** [sorted(ranked_torrents, key=lambda x: x.rank, reverse=True)]: the
    builtin sort is stable, and with [reverse=True] torrents of equal rank
    keep the order they had in [ranked_torrents]. *)
Fixpoint insert_by_rank (t : Torrent) (l : list Torrent) : list Torrent :=
  match l with
  | [] => [t]
  | u :: l' => if (rank t <? rank u)%Z then u :: insert_by_rank t l' else t :: l
  end.

Definition sorted_torrents (ranked : list Torrent) : list Torrent :=
  foldr insert_by_rank [] ranked.

(** [sorted_torrents[:5]] *)
Definition top_torrents (ranked : list Torrent) : list Torrent :=
  take 5 (sorted_torrents ranked).

(** The return points of [process_overseerr_request], named after what is
    logged there. *)
Inductive poll_outcome : Type :=
| ImdbNotFound          (* "IMDb ID not found" *)
| NoTorrentsFound       (* "No torrents found on Torrentio" *)
| NoValidTorrents       (* "No valid torrents found after ranking" *)
| Completed             (* mark_completed was called *)
| AddFailed             (* "Failed to add torrent to Real-Debrid" *)
| Errored (e : exn).    (* "Error processing Overseerr request" *)

Definition initial_state : loop_state :=
  {| ranked_torrents := []; checked_hashes := ∅; garbage_count := 0 |}.

Definition process_body (request : json) : M poll_outcome :=
  media <- lift (py_item request "media") ;;
  media_id <- lift (py_item media "id") ;;
  tmdb_id <- lift (py_item media "tmdbId") ;;
  media_type <- lift (py_item media "mediaType") ;;
  imdb_id <- get_imdb_id_from_trakt tmdb_id media_type ;;
  if negb (truthy imdb_id) then ret ImdbNotFound
  else
    torrentio_results <- query_torrentio imdb_id media_type ;;
    if negb (truthy torrentio_results) then ret NoTorrentsFound
    else
      streams <- lift (py_get torrentio_results "streams" JNull) ;;
      if negb (truthy streams) then ret NoTorrentsFound
      else
        items <- lift (py_iter streams) ;;
        st <- rank_streams items initial_state ;;
        match top_torrents (ranked_torrents st) with
        | [] => ret NoValidTorrents
        | best_torrent :: _ =>
            result <- add_torrent_and_select_files (infohash best_torrent)
                        (parsed_title best_torrent) (JStr "1") media_type ;;
            success <- lift (py_get result "success" JNull) ;;
            if truthy success then
              _ <- mark_completed media_id ;;
              ret Completed
            else ret AddFailed
        end.

Definition process_overseerr_request (request : json) : M poll_outcome :=
  try_except_all (process_body request) (λ e, ret (Errored e)).

(** ** Selection, push path: jellyseer_webhook *)

(** The fields of the validated payload the handler reads
    ([req.media.tmdbId], [req.media.media_type]). *)
Record Media : Type := {
  media_tmdbId : Z;
  media_media_type : string
}.

(** [OverseerrWebhook.model_validate(response)]; [None] stands for a
    validation error. *)
Variable model_validate : json → option Media.

Inductive reply_message : Type :=
| Text (s : string)
| ExceptionText (e : option exn).   (* str(e); [None]: the validation error *)

(** [{"success": ..., "message": ...}] *)
Record reply : Type := {
  success : bool;
  message : reply_message
}.

(** The [try: ... except GarbageTorrent: continue] block of the handler's
    loop; [None] stands for [continue]. *)
Definition rank_and_add (title : json) (h : string) (file_idx media_type : json)
  : M (option reply) :=
  try_except
    (torrent <- rtn_rank_call title h ;;
     if fetch torrent then
       result <- add_torrent_and_select_files (infohash torrent)
                   (parsed_title torrent) file_idx media_type ;;
       ok <- lift (py_get result "success" JNull) ;;
       if truthy ok then
         ret (Some {| success := true; message := Text "Torrent added" |})
       else
         ret (Some {| success := false;
                      message := Text "Failed to add torrent to Real-Debrid" |})
     else ret None)
    GarbageTorrent
    (ret None).

Fixpoint push_streams (media_type : json) (streams : list json) : M reply :=
  match streams with
  | [] =>
      ret {| success := false;
             message := Text "No torrents available on Real-Debrid" |}
  | stream :: rest =>
      info_hash <- lift (py_get stream "infoHash" JNull) ;;
      title <- lift (py_get stream "title" JNull) ;;
      file_idx <- lift (py_get stream "fileIdx" JNull) ;;
      if truthy info_hash && truthy title
         && negb (match file_idx with JNull => true | _ => false end)
      then
        match info_hash with
        | JStr h =>
            rd_availability <- check_rd_availability h ;;
            match rd_availability with
            | Some _ =>
                done <- rank_and_add title h file_idx media_type ;;
                match done with
                | Some r => ret r
                | None => push_streams media_type rest
                end
            | None => push_streams media_type rest
            end
        | _ => raise TypeError   (* refused by ["/".join(hashes)] *)
        end
      else push_streams media_type rest
  end.

Definition webhook_body (req : Media) : M reply :=
  let tmdb_id := JNum (media_tmdbId req) in
  let media_type := JStr (media_media_type req) in
  imdb_id <- get_imdb_id_from_trakt tmdb_id media_type ;;
  if negb (truthy imdb_id) then
    ret {| success := false; message := Text "IMDb ID not found" |}
  else
    torrentio_results <- query_torrentio imdb_id media_type ;;
    if negb (truthy torrentio_results) then
      ret {| success := false; message := Text "No torrents found" |}
    else
      streams <- lift (py_get torrentio_results "streams" JNull) ;;
      if negb (truthy streams) then
        ret {| success := false; message := Text "No torrents found" |}
      else
        items <- lift (py_iter streams) ;;
        push_streams media_type items.

Definition jellyseer_webhook (response : json) : M reply :=
  match py_get response "subject" JNull with
  | Raise e => ret {| success := false; message := ExceptionText (Some e) |}
  | Ok subject =>
      if py_eq_str subject "Test Notification" then
        ret {| success := true;
               message := Text "Test notification received successfully" |}
      else
        match model_validate response with
        | None => ret {| success := false; message := ExceptionText None |}
        | Some req =>
            try_except_all (webhook_body req)
              (λ e, ret {| success := false; message := ExceptionText (Some e) |})
        end
  end.

End Pipeline.

(** ** Request intake: get_overseerr_media_requests *)

(** [v == n] for an integer literal [n] ([True == 1] and [False == 0]). *)
Definition py_eq_int (v : json) (n : Z) : bool :=
  match v with
  | JNum m => (m =? n)%Z
  | JBool b => ((if b then 1 else 0) =? n)%Z
  | _ => false
  end.

(** [item['status'] == 2 and item['media']['status'] == 3] *)
Definition is_processing (item : json) : result bool :=
  status <~ py_item item "status" ;;
  if py_eq_int status 2 then
    media <~ py_item item "media" ;;
    media_status <~ py_item media "status" ;;
    Ok (py_eq_int media_status 3)
  else Ok false.

(** [[item for item in data['results'] if <is_processing item>]] *)
Fixpoint processing_requests (items : list json) : result (list json) :=
  match items with
  | [] => Ok []
  | item :: rest =>
      keep <~ is_processing item ;;
      kept <~ processing_requests rest ;;
      Ok (if keep : bool then item :: kept else kept)
  end.

(** What [get_overseerr_media_requests] makes of the response it got. *)
Definition overseerr_requests (response : Z * json) : result (list json) :=
  if negb (fst response =? 200)%Z then Ok []
  else
    results <~ py_get (snd response) "results" JNull ;;
    if negb (truthy results) then Ok []
    else
      items <~ py_iter results ;;
      processing_requests items.

Section Intake.

Context {World : Type}.

(** The request-tracking service behind
    [/api/v1/request?take=1000&filter=approved&sort=added]. *)
Variable overseerr : World → http_outcome * World.

(** The call is outside any [try]: a transport failure raises. *)
Definition get_overseerr_media_requests (w : World) : result (list json) * World :=
  match overseerr w with
  | (Response st body, w') => (overseerr_requests (st, body), w')
  | (NoResponse, w') => (Raise RequestException, w')
  end.

End Intake.

(** ** Payload validation: Media.validate_ids (models.py) *)

Section Validators.

(** [str.isdigit] and [int] on a string ([None] stands for [ValueError]). *)
Variable py_isdigit : string → bool.
Variable py_int : string → option Z.

(** The "before" validator of [tvdbId] and [tmdbId]. *)
Definition validate_ids (value : json) : result json :=
  match value with
  | JNull => Ok JNull
  | JStr s =>
      if String.eqb s "" then Ok JNull
      else if py_isdigit s then
        match py_int s with
        | Some n => Ok (JNum n)
        | None => Raise ValueError
        end
      else Ok value
  | _ => Ok value
  end.

End Validators.

(** ** Reading a trace *)

(** The hash of an availability check. *)
Definition checked_hash (e : event) : option string :=
  match e with
  | EvHttp (GetInstantAvailability [h]) _ => Some h
  | _ => None
  end.

(** A ranking verdict that rejects: [GarbageTorrent], or [fetch] false. *)
Definition is_rejection (e : event) : bool :=
  match e with
  | EvRank _ _ (Ok t) => negb (fetch t)
  | EvRank _ _ (Raise GarbageTorrent) => true
  | _ => false
  end.

(** The torrent of a ranking verdict that accepts. *)
Definition accepted_torrent (e : event) : option Torrent :=
  match e with
  | EvRank _ _ (Ok t) => if fetch t then Some t else None
  | _ => None
  end.

(** The magnet of a commit call. *)
Definition committed (e : event) : option (string * string) :=
  match e with
  | EvHttp (PostAddMagnet info_hash name) _ => Some (info_hash, name)
  | _ => None
  end.

(** The file set of a selection call. *)
Definition selected (e : event) : option (list json) :=
  match e with
  | EvHttp (PostSelectFiles _ ids) _ => Some ids
  | _ => None
  end.

Definition is_acknowledgement (e : event) : bool :=
  match e with
  | EvHttp (PostMarkAvailable _) _ => true
  | _ => false
  end.

Definition is_resolution (e : event) : bool :=
  match e with
  | EvHttp (GetTraktSearch _ _) _ => true
  | _ => false
  end.

(** A call of the candidate loop: an availability check or a ranking. *)
Definition is_check (e : event) : bool :=
  match e with
  | EvHttp (GetInstantAvailability _) _ => true
  | EvRank _ _ _ => true
  | _ => false
  end.

(** A call of the commit stage after the submission: the file listing or
    the file selection. *)
Definition is_file_call (e : event) : bool :=
  match e with
  | EvHttp (GetTorrentInfo _) _ => true
  | EvHttp (PostSelectFiles _ _) _ => true
  | _ => false
  end.

Definition is_discovery (e : event) : bool :=
  match e with
  | EvHttp (GetTorrentio _ _) _ => true
  | _ => false
  end.

(** [result.get('success')] as the callers of the commit stage test it. *)
Definition commit_succeeded (r : result json) : bool :=
  match r with
  | Ok v =>
      match py_get v "success" JNull with
      | Ok flag => truthy flag
      | Raise _ => false
      end
  | Raise _ => false
  end.

Definition checks (tr : list event) : list string := omap checked_hash tr.
Definition rejections (tr : list event) : nat := length (List.filter is_rejection tr).
Definition accepted (tr : list event) : list Torrent := omap accepted_torrent tr.
Definition commits (tr : list event) : list (string * string) := omap committed tr.
Definition selections (tr : list event) : list (list json) := omap selected tr.
Definition acknowledgements (tr : list event) : nat :=
  length (List.filter is_acknowledgement tr).
Definition discoveries (tr : list event) : nat :=
  length (List.filter is_discovery tr).

(** ** Vocabulary of the properties *)

(** A nested record counts as empty when the entry has no ["rd"] or a
    falsy one. *)
Definition nested_record_empty (values : json) : Prop :=
  py_contains_str "rd" values = Ok false
  ∨ ∃ rd, py_contains_str "rd" values = Ok true
          ∧ py_item values "rd" = Ok rd ∧ truthy rd = false.

Section Vocabulary.

Variable rtn_rank : json → string → result Torrent.
Variable guess_type : string → option string.
Variable py_int : string → option Z.

(** A file of the listing whose guessed MIME type starts with "video". *)
Definition video_file (file : json) : Prop :=
  ∃ p mime, py_get file "path" (JStr "") = Ok (JStr p) ∧
            guess_type p = Some mime ∧ String.prefix "video" mime = true.

(** The answer to the availability check of [h] carries a non-empty
    record for [h]. *)
Definition available (h : string) (o : http_outcome) : Prop :=
  ∃ st body availability record,
    o = Response st body ∧
    normalize_availability py_int [h] (st, body) = Ok availability ∧
    availability !! h = Some record ∧ size record ≠ 0.

(** The answer to the availability check of [h] is read as "not available". *)
Definition unavailable (h : string) (o : http_outcome) : Prop :=
  ∃ st body availability,
    o = Response st body ∧
    normalize_availability py_int [h] (st, body) = Ok availability ∧
    available_record h availability = None.

(** The answer makes the check itself raise. *)
Definition check_raises (h : string) (o : http_outcome) (e : exn) : Prop :=
  (o = NoResponse ∧ e = RequestException)
  ∨ ∃ st body, o = Response st body ∧
               normalize_availability py_int [h] (st, body) = Raise e.

(** The loop's [break] test on a state. *)
Definition stops (st : loop_state) : bool :=
  Nat.leb max_hashes_to_check (size (checked_hashes st))
  && Nat.eqb (garbage_count st) max_hashes_to_check.

(** What one pass through the loop body can do, from state [st]: its
    result (break flag and next state, or an exception) and its calls. *)
Inductive iteration (st : loop_state)
  : result (bool * loop_state) → list event → Prop :=
| it_skip :
    iteration st (Ok (false, st)) []
| it_malformed e :
    iteration st (Raise e) []
| it_unavailable h o :
    h ∉ checked_hashes st → unavailable h o →
    iteration st (Ok (stops (add_checked h st), add_checked h st))
      [EvHttp (GetInstantAvailability [h]) o]
| it_check_raises h o e :
    h ∉ checked_hashes st → check_raises h o e →
    iteration st (Raise e) [EvHttp (GetInstantAvailability [h]) o]
| it_rejected h o title :
    h ∉ checked_hashes st → available h o →
    is_rejection (EvRank title h (rtn_rank title h)) = true →
    iteration st
      (Ok (stops (add_garbage (add_checked h st)), add_garbage (add_checked h st)))
      [EvHttp (GetInstantAvailability [h]) o; EvRank title h (rtn_rank title h)]
| it_accepted h o title t :
    h ∉ checked_hashes st → available h o →
    rtn_rank title h = Ok t → fetch t = true →
    iteration st
      (Ok (stops (add_ranked t (add_checked h st)), add_ranked t (add_checked h st)))
      [EvHttp (GetInstantAvailability [h]) o; EvRank title h (Ok t)]
| it_rank_raises h o title e :
    h ∉ checked_hashes st → available h o →
    rtn_rank title h = Raise e → e ≠ GarbageTorrent →
    iteration st (Raise e)
      [EvHttp (GetInstantAvailability [h]) o; EvRank title h (Raise e)].

(** Torrent [t] was accepted in [tr]: an accepting verdict on a hash, right
    after the check that found a non-empty record for that hash. *)
Definition eligible_in (tr : list event) (t : Torrent) : Prop :=
  ∃ pre post h o title,
    tr = pre ++ [EvHttp (GetInstantAvailability [h]) o; EvRank title h (Ok t)]
            ++ post ∧
    available h o ∧ rtn_rank title h = Ok t ∧ fetch t = true.

(** Every commit call of [tr] is for a torrent accepted before it. *)
Definition commits_eligible (tr : list event) : Prop :=
  ∀ pre info_hash name o post,
    tr = pre ++ EvHttp (PostAddMagnet info_hash name) o :: post →
    ∃ t, eligible_in pre t ∧ info_hash = infohash t ∧ name = parsed_title t.

(** The poll run went through the selection: with nothing accepted it ends
    at "No valid torrents found after ranking" with no further call;
    otherwise [back], the calls after the loop, starts with the commit of
    the head of [top_torrents] and holds no other commit. *)
Definition selection_made (front back : list event) (r : result poll_outcome)
  : Prop :=
  match top_torrents (accepted front) with
  | [] => back = [] ∧ r = Ok NoValidTorrents
  | best_torrent :: _ =>
      ∃ o rest,
        back = EvHttp (PostAddMagnet (infohash best_torrent)
                         (parsed_title best_torrent)) o :: rest ∧
        commits rest = [] ∧ r ≠ Ok NoValidTorrents
  end.

End Vocabulary.

(** ** Scenarios: canned services to run the pipeline on *)

Module Scenario.

(** [int] on a string of decimal digits. *)
Fixpoint digits (s : string) (acc : Z) : option Z :=
  match s with
  | EmptyString => Some acc
  | String c s' =>
      let n := Ascii.nat_of_ascii c in
      if Nat.leb 48 n && Nat.leb n 57
      then digits s' (10 * acc + Z.of_nat (n - 48))%Z
      else None
  end.

Definition int_of_digits (s : string) : option Z :=
  match s with
  | EmptyString => None
  | _ => digits s 0%Z
  end.

(** The MIME type by extension, for the paths of the scenarios. *)
Definition guess_by_extension (path : string) : option string :=
  if substring_of ".mkv" path then Some "video/x-matroska"
  else if substring_of ".mp4" path then Some "video/mp4"
  else if substring_of ".txt" path then Some "text/plain"
  else None.

(** A ranking given as a table from titles to [(fetch, rank)]; a title
    outside the table is garbage. *)
Fixpoint verdict_of (table : list (string * (bool * Z))) (title : string)
  : option (bool * Z) :=
  match table with
  | [] => None
  | (t, v) :: rest => if String.eqb t title then Some v else verdict_of rest title
  end.

Definition rank_by_table (table : list (string * (bool * Z)))
    (title : json) (info_hash : string) : result Torrent :=
  match title with
  | JStr s =>
      match verdict_of table s with
      | Some (f, r) =>
          Ok {| infohash := info_hash; parsed_title := s; fetch := f; rank := r |}
      | None => Raise GarbageTorrent
      end
  | _ => Raise TypeError
  end.

Definition stream (info_hash title : string) (file_idx : Z) : json :=
  JDict [("infoHash", JStr info_hash); ("title", JStr title);
         ("fileIdx", JNum file_idx)].

Definition file (id : Z) (path : string) : json :=
  JDict [("id", JNum id); ("path", JStr path)].

(** The entry of the availability body for a cached hash, and for one that
    is not cached. *)
Definition cached_entry : json :=
  JDict [("rd", JList [JDict [("1", JDict [("filename", JStr "movie.mkv");
                                           ("filesize", JNum 2176618694)])]])].
Definition uncached_entry : json := JList [].

(** Services that always answer: the resolution finds [tt0111161], the
    discovery returns [streams], the hashes of [cached] are instantly
    available, a submitted magnet becomes job [JOB1] with the listing
    [files], selection and acknowledgement succeed. *)
Definition network (streams : list json) (cached : list string)
    (files : json) (c : call) (w : unit) : http_outcome * unit :=
  (match c with
   | GetTraktSearch _ type =>
       Response 200
         (JList [JDict [(if String.eqb type "show" then "show" else "movie",
                         JDict [("ids", JDict [("imdb", JStr "tt0111161")])])]])
   | GetTorrentio _ _ => Response 200 (JDict [("streams", JList streams)])
   | GetInstantAvailability hashes =>
       Response 200
         (JDict (map (λ h, (h, if bool_decide (h ∈ cached) then cached_entry
                               else uncached_entry)) hashes))
   | PostAddMagnet _ _ => Response 201 (JDict [("id", JStr "JOB1")])
   | GetTorrentInfo _ => Response 200 (JDict [("files", files)])
   | PostSelectFiles _ _ => Response 204 JNull
   | PostMarkAvailable _ => Response 200 JNull
   end, w).

Definition request (media_type : string) : json :=
  JDict [("media", JDict [("id", JNum 42); ("tmdbId", JNum 278);
                          ("mediaType", JStr media_type)])].

Definition six_hashes : list string := ["h1"; "h2"; "h3"; "h4"; "h5"; "h6"].

Definition six_streams : list json :=
  [stream "h1" "A" 0; stream "h2" "B" 0; stream "h3" "C" 0;
   stream "h4" "D" 0; stream "h5" "E" 0; stream "h6" "F" 0].

(** Ranks 10, 30, 20, 5, 25 for the first five titles, all accepted. *)
Definition five_ranks : list (string * (bool * Z)) :=
  [("A", (true, 10%Z)); ("B", (true, 30%Z)); ("C", (true, 20%Z));
   ("D", (true, 5%Z)); ("E", (true, 25%Z))].

Definition all_accepted : list (string * (bool * Z)) :=
  five_ranks ++ [("F", (true, 1%Z))].

Definition episode_files : json :=
  JList [file 1 "Show.S01E01.mkv"; file 2 "readme.txt"; file 3 "Show.S01E02.mp4"].

(** A resolution service that is unreachable [failures] times (the world
    counts the calls) and then answers 200 with an empty result set. *)
Definition flaky_trakt (failures : nat) (c : call) (w : nat) : http_outcome * nat :=
  (match c with
   | GetTraktSearch _ _ =>
       if Nat.ltb w failures then NoResponse else Response 200 (JList [])
   | _ => NoResponse
   end, S w).

(** An availability service that knows only the hashes of [known]: its
    body has one entry per known hash and none for any other hash. *)
Definition partial_availability (known : list (string * json))
    (c : call) (w : unit) : http_outcome * unit :=
  (match c with
   | GetInstantAvailability _ => Response 200 (JDict known)
   | _ => NoResponse
   end, w).

(** A poll run for a movie over [streams], all of them cached, ranked by
    [table]. *)
Definition poll_run (streams : list json) (table : list (string * (bool * Z))) :=
  process_overseerr_request (network streams six_hashes episode_files)
    (rank_by_table table) guess_by_extension int_of_digits (request "movie") tt.

(** A commit of hash [h1] with file index [i] on a job with three files. *)
Definition commit_run (media_type : string) (i : Z) :=
  add_torrent_and_select_files (network [] [] episode_files) guess_by_extension
    "h1" "A" (JNum i) (JStr media_type) tt.

(** A push notification for a movie over [streams], of which the hashes
    of [cached] are available, ranked by [table]; a payload whose subject
    is not the test subject validates to the movie 278. *)
Definition push_run (streams : list json) (cached : list string)
    (table : list (string * (bool * Z))) (payload : json) :=
  jellyseer_webhook (network streams cached episode_files)
    (rank_by_table table) guess_by_extension int_of_digits
    (λ _, Some {| media_tmdbId := 278; media_media_type := "movie" |})
    payload tt.

End Scenario.

(** ** Vocabulary of the further properties *)

Section FurtherVocabulary.

Variable rtn_rank : json → string → result Torrent.
Variable py_int : string → option Z.

(** Every ranking of [tr] comes right after an availability check of the
    same hash that found a non-empty record, and logs the verdict of the
    ranking library. *)
Definition rank_follows_check (tr : list event) : Prop :=
  ∀ pre title h r post,
    tr = pre ++ EvRank title h r :: post →
    r = rtn_rank title h ∧
    ∃ pre' o, pre = pre' ++ [EvHttp (GetInstantAvailability [h]) o] ∧
              available py_int h o.

End FurtherVocabulary.

Section StageVocabulary.

Context {World : Type}.
Variable network : call → World → http_outcome * World.

(** The poll run of [request] from [w] gets through the resolution and
    the discovery: the request has its media fields, the resolver finds an
    identifier, the discovery returns a body with a truthy ["streams"],
    whose elements are [items].  [head] is what was called so far and [w2]
    the world the candidate loop starts in. *)
Definition reaches_the_loop (request : json) (w : World) (media_type : json)
    (items : list json) (head : list event) (w2 : World) : Prop :=
  ∃ media media_id tmdb_id imdb_id w1 t1 results t2 streams,
    py_item request "media" = Ok media ∧
    py_item media "id" = Ok media_id ∧
    py_item media "tmdbId" = Ok tmdb_id ∧
    py_item media "mediaType" = Ok media_type ∧
    get_imdb_id_from_trakt network tmdb_id media_type w = (Ok imdb_id, w1, t1) ∧
    truthy imdb_id = true ∧
    query_torrentio network imdb_id media_type w1 = (Ok results, w2, t2) ∧
    truthy results = true ∧
    py_get results "streams" JNull = Ok streams ∧
    truthy streams = true ∧
    py_iter streams = Ok items ∧
    head = t1 ++ t2.

End StageVocabulary.

(** The guessed MIME type of the path [p] starts with "video". *)
Definition video_path (guess_type : string → option string) (p : string) : bool :=
  match guess_type p with
  | Some mime => String.prefix "video" mime
  | None => false
  end.

(** [files] is a listing of file objects: each has an ["id"] and a string
    ["path"], given in [described]. *)
Definition listing_of (files : list json) (described : list (json * string))
  : Prop :=
  Forall2 (λ file d, py_item file "id" = Ok d.1 ∧
                     py_get file "path" (JStr "") = Ok (JStr d.2))
    files described.

Global Instance result_eq_dec {A} `{EqDecision A} : EqDecision (result A).
Proof. solve_decision. Defined.

(** [stream] is a candidate the poll loop can check under hash [h]: its
    ["infoHash"] is the non-empty string [h] and its ["title"] is truthy. *)
Definition poll_candidate (stream : json) (h : string) : Prop :=
  py_get stream "infoHash" JNull = Ok (JStr h) ∧ h ≠ "" ∧
  ∃ title, py_get stream "title" JNull = Ok title ∧ truthy title = true.

(** [stream] is a candidate the push loop can check under hash [h]: a
    candidate of the poll loop whose ["fileIdx"] is not [None]. *)
Definition push_candidate (stream : json) (h : string) : Prop :=
  poll_candidate stream h ∧
  ∃ file_idx, py_get stream "fileIdx" JNull = Ok file_idx ∧ file_idx ≠ JNull.

(** Further canned services. *)
Module Cases.

(** A request-tracking service with four requests, two of them approved
    (status 2) with media in processing (media status 3). *)
Definition tracked (status media_status : Z) (id : Z) : json :=
  JDict [("id", JNum id); ("status", JNum status);
         ("media", JDict [("id", JNum id); ("status", JNum media_status)])].

Definition requests : list json :=
  [tracked 2 3 1; tracked 1 3 2; tracked 2 5 3; tracked 2 3 4].

Definition overseerr (w : unit) : http_outcome * unit :=
  (Response 200 (JDict [("results", JList requests)]), w).

(** An availability entry whose only container is empty. *)
Definition hollow_entry : json := JDict [("rd", JList [JDict []])].

(** A download service that refuses every magnet with a 503. *)
Definition refusing (streams : list json) (c : call) (w : unit)
  : http_outcome * unit :=
  match c with
  | PostAddMagnet _ _ => (Response 503 JNull, w)
  | _ => Scenario.network streams Scenario.six_hashes Scenario.episode_files c w
  end.

(** A download service whose availability endpoint is unreachable from the
    [n]-th call of the run on (the world counts the calls). *)
Definition failing_availability (streams : list json) (n : nat)
    (c : call) (w : nat) : http_outcome * nat :=
  match c with
  | GetInstantAvailability _ =>
      if Nat.leb n w then (NoResponse, S w)
      else ((Scenario.network streams Scenario.six_hashes
               Scenario.episode_files c tt).1, S w)
  | _ => ((Scenario.network streams Scenario.six_hashes
             Scenario.episode_files c tt).1, S w)
  end.

(** A poll run over six cached and accepted streams whose second
    availability check gets no answer. *)
Definition unreachable_run :=
  process_overseerr_request (failing_availability Scenario.six_streams 3)
    (Scenario.rank_by_table Scenario.all_accepted) Scenario.guess_by_extension
    Scenario.int_of_digits (Scenario.request "movie") 0.

(** A poll run over six cached and accepted streams whose magnet is
    refused. *)
Definition refused_run :=
  process_overseerr_request (refusing Scenario.six_streams)
    (Scenario.rank_by_table Scenario.all_accepted) Scenario.guess_by_extension
    Scenario.int_of_digits (Scenario.request "movie") tt.

(** The candidate loop of the best-of-batch example: five streams, all
    cached, accepted with ranks 10, 30, 20, 5, 25. *)
Definition batch_network : call → unit → http_outcome * unit :=
  Scenario.network (take 5 Scenario.six_streams) Scenario.six_hashes
    Scenario.episode_files.

Definition batch_loop :=
  rank_streams batch_network (Scenario.rank_by_table Scenario.five_ranks)
    Scenario.int_of_digits (take 5 Scenario.six_streams) initial_state tt.

(** The containers and the record of [Scenario.cached_entry]. *)
Definition cached_containers : list json :=
  [JDict [("1", JDict [("filename", JStr "movie.mkv");
                       ("filesize", JNum 2176618694)])]].

Definition cached_record : gmap Z file_info :=
  {[ 1%Z := (JStr "movie.mkv", JNum 2176618694) ]}.

(** [str.isdigit] on ASCII strings. *)
Definition ascii_isdigit (s : string) : bool :=
  match Scenario.int_of_digits s with Some _ => true | None => false end.

End Cases.

(** * Properties *)

Section Properties.

Set Default Proof Using "Type".

Context {World : Type}.
Variable network : call → World → http_outcome * World.
Variable rtn_rank : json → string → result Torrent.
Variable guess_type : string → option string.
Variable py_int : string → option Z.
Variable model_validate : json → option Media.

Local Abbreviation session := (session network).
Local Abbreviation video_file := (video_file guess_type).
Local Abbreviation available := (available py_int).
Local Abbreviation unavailable := (unavailable py_int).
Local Abbreviation check_raises := (check_raises py_int).
Local Abbreviation iteration := (iteration rtn_rank py_int).
Local Abbreviation eligible_in := (eligible_in rtn_rank py_int).
Local Abbreviation commits_eligible := (commits_eligible rtn_rank py_int).
Local Abbreviation rank_and_add := (rank_and_add network rtn_rank guess_type).
Local Abbreviation get_imdb_id_from_trakt := (get_imdb_id_from_trakt network).
Local Abbreviation trakt_attempts := (trakt_attempts network).
Local Abbreviation query_torrentio := (query_torrentio network).
Local Abbreviation torrentio_attempts := (torrentio_attempts network).
Local Abbreviation get_instant_availability := (get_instant_availability network py_int).
Local Abbreviation check_rd_availability := (check_rd_availability network py_int).
Local Abbreviation select_files_in_rd := (select_files_in_rd network guess_type).
Local Abbreviation add_torrent_and_select_files :=
  (add_torrent_and_select_files network guess_type).
Local Abbreviation mark_completed := (mark_completed network).
Local Abbreviation rank_checked := (rank_checked rtn_rank).
Local Abbreviation poll_iteration := (poll_iteration network rtn_rank py_int).
Local Abbreviation rank_streams := (rank_streams network rtn_rank py_int).
Local Abbreviation process_body := (process_body network rtn_rank guess_type py_int).
Local Abbreviation process_overseerr_request :=
  (process_overseerr_request network rtn_rank guess_type py_int).
Local Abbreviation push_streams := (push_streams network rtn_rank guess_type py_int).
Local Abbreviation webhook_body := (webhook_body network rtn_rank guess_type py_int).
Local Abbreviation jellyseer_webhook :=
  (jellyseer_webhook network rtn_rank guess_type py_int model_validate).

(** Drops the services a statement does not mention. *)
Ltac only_needed :=
  try clear model_validate; try clear guess_type; try clear py_int;
  try clear rtn_rank.

(** *** Running the monad *)

Lemma bind_run {A B} (m : M A) (f : A → M B) (w w' : World) r tr :
  bind m f w = (r, w', tr) →
  (∃ a w1 t1 t2, m w = (Ok a, w1, t1) ∧ f a w1 = (r, w', t2) ∧ tr = t1 ++ t2)
  ∨ (∃ e, m w = (Raise e, w', tr) ∧ r = Raise e).
Proof.
  unfold bind. destruct (m w) as [[[a|e] w1] t1].
  - destruct (f a w1) as [[r2 w2] t2] eqn:Hf. intros [= <- <- <-].
    left. by exists a, w1, t1, t2.
  - intros [= <- <- <-]. right. by exists e.
Qed.

Lemma lift_run {A} (x : result A) (w w' : World) r tr :
  lift x w = (r, w', tr) → r = x ∧ w' = w ∧ tr = [].
Proof. by intros [= <- <- <-]. Qed.

Lemma ret_run {A} (a : A) (w w' : World) r tr :
  ret a w = (r, w', tr) → r = Ok a ∧ w' = w ∧ tr = [].
Proof. by intros [= <- <- <-]. Qed.

Lemma session_run c (w w' : World) r tr :
  session c w = (r, w', tr) →
  ∃ o, tr = [EvHttp c o] ∧ network c w = (o, w') ∧
       r = match o with
           | Response st body => Ok (st, body)
           | NoResponse => Raise RequestException
           end.
Proof.
  unfold session. destruct (network c w) as [[st body|] w1].
  - intros [= <- <- <-]. by eexists.
  - intros [= <- <- <-]. by eexists.
Qed.

Lemma try_except_run {A} (m handler : M A) e0 (w w' : World) r tr :
  try_except m e0 handler w = (r, w', tr) →
  (m w = (r, w', tr) ∧ r ≠ Raise e0)
  ∨ (∃ w1 t1 t2, m w = (Raise e0, w1, t1) ∧ handler w1 = (r, w', t2) ∧
                 tr = t1 ++ t2).
Proof.
  unfold try_except. destruct (m w) as [[[a|e] w1] t1].
  - intros [= <- <- <-]. by left.
  - destruct (decide (e = e0)) as [->|Hne].
    + destruct (handler w1) as [[r2 w2] t2] eqn:Hh. intros [= <- <- <-].
      right. by exists w1, t1, t2.
    + intros [= <- <- <-]. left. split; [done|congruence].
Qed.

Lemma try_except_all_run {A} (m : M A) (handler : exn → M A) (w w' : World) r tr :
  try_except_all m handler w = (r, w', tr) →
  (∃ a, m w = (Ok a, w', tr) ∧ r = Ok a)
  ∨ (∃ e w1 t1 t2, m w = (Raise e, w1, t1) ∧ handler e w1 = (r, w', t2) ∧
                   tr = t1 ++ t2).
Proof.
  unfold try_except_all. destruct (m w) as [[[a|e] w1] t1].
  - intros [= <- <- <-]. left. by exists a.
  - destruct (handler e w1) as [[r2 w2] t2] eqn:Hh. intros [= <- <- <-].
    right. by exists e, w1, t1, t2.
Qed.

(** Opens one layer of a run found among the hypotheses. *)
Ltac run_step :=
  match goal with
  | H : bind _ _ _ = (_, _, _) |- _ =>
      apply bind_run in H as [(? & ? & ? & ? & ? & H & ->)|(? & H & ->)]
  | H : lift _ _ = (_, _, _) |- _ => apply lift_run in H as (? & -> & ->)
  | H : ret _ _ = (_, _, _) |- _ => apply ret_run in H as (-> & -> & ->)
  | H : raise _ _ = (_, _, _) |- _ => injection H as <- <- <-
  end.

(** *** Identifier Resolver *)

Lemma trakt_extract_empty media_type data :
  truthy data = false → trakt_extract media_type data = Ok JNull.
Proof. unfold trakt_extract. by intros ->. Qed.

Lemma py_item_raise d k e :
  py_item d k = Raise e → e = KeyError ∨ e = TypeError.
Proof.
  destruct d; simpl; try (intros [= <-]; by right).
  destruct (assoc k items); [done|]. intros [= <-]. by left.
Qed.

Lemma trakt_extract_raise media_type data e :
  trakt_extract media_type data = Raise e → e = KeyError ∨ e = TypeError.
Proof.
  unfold trakt_extract. destruct (truthy data); [|done].
  destruct data as [| | | |[|first rest]|]; try done.
  destruct (py_item first _) as [entry|e1] eqn:H1.
  - destruct (py_item entry "ids") as [ids|e2] eqn:H2.
    + apply py_item_raise.
    + intros [= <-]. by eapply py_item_raise.
  - intros [= <-]. by eapply py_item_raise.
Qed.

(** One attempt of the resolver, by what the service answers. *)
Lemma trakt_attempts_step c media_type attempt k (w : World) :
  trakt_attempts c media_type attempt (S k) w =
  match network c w with
  | (Response st body, w1) =>
      (if (st =? 200)%Z then trakt_extract media_type body else Ok JNull,
       w1, [EvHttp c (Response st body)])
  | (NoResponse, w1) =>
      if (attempt =? 4)%nat then (Ok JNull, w1, [EvHttp c NoResponse])
      else
        match trakt_attempts c media_type (S attempt) k w1 with
        | (r, w2, t2) => (r, w2, EvHttp c NoResponse :: t2)
        end
  end.
Proof.
  simpl. unfold try_except, bind, session.
  destruct (network c w) as [[st body|] w1]; simpl.
  - destruct (st =? 200)%Z; simpl; [|done].
    destruct (trakt_extract media_type body) as [v|e] eqn:He; [done|].
    destruct (decide (e = RequestException)) as [->|]; [|done].
    by apply trakt_extract_raise in He as [|].
  - by destruct (attempt =? 4)%nat.
Qed.

Lemma trakt_attempts_run c media_type remaining : ∀ attempt (w w' : World) r tr,
  trakt_attempts c media_type attempt remaining w = (r, w', tr) →
  Forall (λ e, ∃ o, e = EvHttp c o) tr ∧
  ∀ pre c' body,
    tr = pre ++ [EvHttp c' (Response 200 body)] →
    r = trakt_extract media_type body.
Proof.
  induction remaining as [|k IH]; intros attempt w w' r tr.
  - intros [= <- <- <-]. split; [constructor|]. by intros [|].
  - rewrite trakt_attempts_step.
    destruct (network c w) as [[st body|] w1].
    + intros [= <- <- <-]. split; [repeat constructor; by eexists|].
      intros [|e [|e' pre]] c' body' Heq; simplify_eq/=. done.
    + destruct (attempt =? 4)%nat.
      * intros [= <- <- <-]. split; [repeat constructor; by eexists|].
        intros [|e [|e' pre]] c' body' Heq; simplify_eq/=.
      * destruct (trakt_attempts c media_type (S attempt) k w1)
          as [[r2 w2] t2] eqn:Hrec.
        intros [= <- <- <-]. apply IH in Hrec as [Hall Hlast].
        split; [constructor; [by eexists|done]|].
        intros [|e pre] c' body' Heq; simplify_eq/=.
        by eapply Hlast.
Qed.

Lemma resolution_only tr :
  Forall (λ e, is_resolution e = true) tr →
  discoveries tr = 0 ∧ commits tr = [] ∧ acknowledgements tr = 0.
Proof.
  unfold discoveries, commits, acknowledgements.
  induction 1 as [|e tr He _ (IH1 & IH2 & IH3)]; [done|].
  destruct e as [[] ?|]; try discriminate; simpl; by rewrite ?IH1, ?IH2, ?IH3.
Qed.

(** C8.  The resolver returns [None] (it does not raise) whenever the last
    answer of the resolution service is a 200 with an empty result set; and
    a polled request whose resolution gives nothing ends at "IMDb ID not
    found" having called the resolution service only: no discovery call, no
    commit call, no acknowledgement. *)
Theorem resolver_not_found_skips_request :
  (∀ tmdb_id media_type (w : World) pre c body,
     (get_imdb_id_from_trakt tmdb_id media_type w).2
       = pre ++ [EvHttp c (Response 200 body)] →
     truthy body = false →
     (get_imdb_id_from_trakt tmdb_id media_type w).1.1 = Ok JNull)
  ∧
  (∀ request media media_id tmdb_id media_type (w w1 : World) imdb_id tr,
     py_item request "media" = Ok media →
     py_item media "id" = Ok media_id →
     py_item media "tmdbId" = Ok tmdb_id →
     py_item media "mediaType" = Ok media_type →
     get_imdb_id_from_trakt tmdb_id media_type w = (Ok imdb_id, w1, tr) →
     truthy imdb_id = false →
     process_overseerr_request request w = (Ok ImdbNotFound, w1, tr) ∧
     Forall (λ e, is_resolution e = true) tr ∧
     discoveries tr = 0 ∧ commits tr = [] ∧ acknowledgements tr = 0).
Proof.
  split.
  - intros tmdb_id media_type w pre c body Htr Hempty.
    destruct (get_imdb_id_from_trakt tmdb_id media_type w) as [[r w1] tr] eqn:Hrun.
    simpl in *. apply trakt_attempts_run in Hrun as [_ Hlast].
    rewrite (Hlast _ _ _ Htr). by apply trakt_extract_empty.
  - intros request media media_id tmdb_id media_type w w1 imdb_id tr
      Hmedia Hid Htmdb Htype Hrun Hempty.
    assert (Forall (λ e, is_resolution e = true) tr) as Hres.
    { apply trakt_attempts_run in Hrun as [Hall _].
      eapply Forall_impl; [exact Hall|]. by intros e [o ->]. }
    split; [|split; [done|by apply resolution_only]].
    unfold process_overseerr_request, try_except_all, process_body, bind, lift.
    rewrite Hmedia, Hid, Htmdb, Htype. simpl. rewrite Hrun, Hempty. simpl.
    by rewrite app_nil_r.
Qed.

(** *** Availability Filter *)

Lemma empty_records_lookup hashes h :
  empty_records hashes !! h = if bool_decide (h ∈ hashes) then Some ∅ else None.
Proof.
  unfold empty_records.
  assert (∀ acc : gmap string (gmap Z file_info),
    foldl (λ acc h, <[h := ∅]> acc) acc hashes !! h
    = if bool_decide (h ∈ hashes) then Some ∅ else acc !! h) as Hgen.
  { induction hashes as [|h' hashes IH]; intros acc.
    - done.
    - cbn [foldl]. rewrite IH. destruct (decide (h = h')) as [->|Hne].
      + rewrite lookup_insert_eq.
        rewrite (bool_decide_eq_true_2 (h' ∈ h' :: hashes)) by (by left).
        by destruct (bool_decide _).
      + rewrite lookup_insert_ne by done.
        rewrite (bool_decide_ext (h ∈ h' :: hashes) (h ∈ hashes)); [done|].
        rewrite elem_of_cons. split; [by intros [->|?]|by right]. }
  rewrite Hgen. by case_bool_decide.
Qed.

Lemma availability_results_absent items : ∀ acc results h,
  availability_results py_int items acc = Ok results →
  h ∉ items.*1 → results !! h = acc !! h.
Proof.
  induction items as [|[k values] items IH]; intros acc results h; simpl.
  - by intros [= <-].
  - destruct (rd_record py_int values) as [record|e]; simpl; [|done].
    intros Hrun [Hne Hnotin]%not_elem_of_cons.
    rewrite (IH _ _ _ Hrun Hnotin). by rewrite lookup_insert_ne.
Qed.

Lemma availability_results_present items : ∀ acc results h values,
  availability_results py_int items acc = Ok results →
  NoDup items.*1 → (h, values) ∈ items →
  ∃ record, rd_record py_int values = Ok record ∧ results !! h = Some record.
Proof.
  induction items as [|[k v] items IH]; intros acc results h values; simpl.
  - intros _ _ Hin. by apply elem_of_nil in Hin.
  - destruct (rd_record py_int v) as [record|e] eqn:Hrec; simpl; [|done].
    intros Hrun [Hk Hnd]%NoDup_cons [Heq|Hin]%elem_of_cons.
    + injection Heq as -> ->. exists record. split; [done|].
      rewrite (availability_results_absent _ _ _ _ Hrun Hk).
      apply lookup_insert_eq.
    + by eapply IH.
Qed.

Lemma availability_results_keys items : ∀ acc results h,
  availability_results py_int items acc = Ok results →
  h ∈ items.*1 → is_Some (results !! h).
Proof.
  induction items as [|[k v] items IH]; intros acc results h; simpl.
  - intros _ Hin. by apply elem_of_nil in Hin.
  - destruct (rd_record py_int v) as [record|e] eqn:Hrec; simpl; [|done].
    intros Hrun Hin. destruct (decide (h ∈ items.*1)) as [Hin'|Hnotin].
    + by eapply IH.
    + apply elem_of_cons in Hin as [->|]; [|done].
      rewrite (availability_results_absent _ _ _ _ Hrun Hnotin).
      rewrite lookup_insert_eq. by eexists.
Qed.

Lemma rd_record_empty values :
  nested_record_empty values → rd_record py_int values = Ok ∅.
Proof.
  unfold rd_record. intros [->|(rd & -> & -> & Hrd)]; simpl; [done|].
  by rewrite Hrd.
Qed.

Lemma get_instant_availability_run hashes (w w' : World) response_status body :
  network (GetInstantAvailability hashes) w = (Response response_status body, w') →
  get_instant_availability hashes w
  = (normalize_availability py_int hashes (response_status, body), w',
     [EvHttp (GetInstantAvailability hashes) (Response response_status body)]).
Proof.
  intros Hnet. unfold get_instant_availability, bind, session, lift.
  rewrite Hnet. by destruct (normalize_availability _ _ _).
Qed.

Lemma check_rd_availability_run h (w w' : World) response_status body :
  network (GetInstantAvailability [h]) w = (Response response_status body, w') →
  check_rd_availability h w
  = (availability <~ normalize_availability py_int [h] (response_status, body) ;;
     Ok (available_record h availability),
     w', [EvHttp (GetInstantAvailability [h]) (Response response_status body)]).
Proof.
  intros Hnet. unfold check_rd_availability, bind.
  rewrite (get_instant_availability_run _ _ _ _ _ Hnet).
  by destruct (normalize_availability _ _ _).
Qed.

Lemma available_record_empty h (results : gmap string (gmap Z file_info)) :
  results !! h = None ∨ results !! h = Some ∅ → available_record h results = None.
Proof. unfold available_record. by intros [->| ->]. Qed.

(** C6 (amended).  When the availability call is answered with a non-200
    status, or with a list-shaped body, every requested hash maps to an
    empty record.  On a 200 with a dict body the result has the keys of
    the body: a hash whose entry has no (or an empty) nested record maps to
    an empty record, while a requested hash absent from the body is absent
    from the result, it maps to no record at all.  The single-hash check
    answers [None] (unavailable) in each of these cases. *)
Theorem availability_degrades_to_unavailable
    hashes (w w' : World) response_status body :
  network (GetInstantAvailability hashes) w = (Response response_status body, w') →
  ((response_status ≠ 200%Z ∨ ∃ l, body = JList l) →
     ∃ results,
       (get_instant_availability hashes w).1.1 = Ok results ∧
       ∀ h, h ∈ hashes →
         results !! h = Some ∅ ∧ available_record h results = None)
  ∧
  (∀ items results,
     response_status = 200%Z → body = JDict items →
     (get_instant_availability hashes w).1.1 = Ok results →
     (∀ h, h ∈ items.*1 → is_Some (results !! h)) ∧
     (∀ h, h ∉ items.*1 →
        results !! h = None ∧ available_record h results = None) ∧
     (∀ h values,
        NoDup items.*1 → (h, values) ∈ items → nested_record_empty values →
        results !! h = Some ∅ ∧ available_record h results = None))
  ∧
  (∀ h results,
     hashes = [h] →
     (get_instant_availability hashes w).1.1 = Ok results →
     results !! h = None ∨ results !! h = Some ∅ →
     (check_rd_availability h w).1.1 = Ok None).
Proof.
  intros Hnet. rewrite (get_instant_availability_run _ _ _ _ _ Hnet). simpl.
  split; [|split].
  - intros Hfail. exists (empty_records hashes). split.
    + unfold normalize_availability. simpl.
      destruct Hfail as [Hst|[l ->]].
      * apply Z.eqb_neq in Hst. by rewrite Hst.
      * by destruct (response_status =? 200)%Z.
    + intros h Hin.
      assert (empty_records hashes !! h = Some ∅) as Hlook.
      { rewrite empty_records_lookup. by rewrite bool_decide_eq_true_2. }
      split; [done|]. apply available_record_empty. by right.
  - intros items results -> ->. unfold normalize_availability. simpl.
    intros Hrun. split; [|split].
    + intros h Hin. by eapply availability_results_keys.
    + intros h Hnotin.
      assert (results !! h = None) as Hlook.
      { by rewrite (availability_results_absent _ _ _ _ Hrun Hnotin). }
      split; [done|]. apply available_record_empty. by left.
    + intros h values Hnd Hin Hempty.
      destruct (availability_results_present _ _ _ _ _ Hrun Hnd Hin)
        as (record & Hrec & Hlook).
      rewrite (rd_record_empty _ Hempty) in Hrec. injection Hrec as <-.
      split; [done|]. apply available_record_empty. by right.
  - intros h results -> Hrun Hlook.
    rewrite (check_rd_availability_run _ _ _ _ _ Hnet). simpl.
    rewrite Hrun. simpl. by rewrite available_record_empty.
Qed.

(** *** Commit Stage *)

(** The runs of [select_files_in_rd], by what the service answers. *)
Lemma select_files_in_rd_run torrent_id file_idx media_type (w : World) :
  select_files_in_rd torrent_id file_idx media_type w =
  match network (GetTorrentInfo torrent_id) w with
  | (NoResponse, w1) =>
      (Raise RequestException, w1, [EvHttp (GetTorrentInfo torrent_id) NoResponse])
  | (Response st body, w1) =>
      let info := EvHttp (GetTorrentInfo torrent_id) (Response st body) in
      if negb (st =? 200)%Z then (Ok false, w1, [info])
      else
        match py_get body "files" (JList []) with
        | Raise e => (Raise e, w1, [info])
        | Ok files =>
            match index_out_of_range file_idx files with
            | Raise e => (Raise e, w1, [info])
            | Ok true => (Ok false, w1, [info])
            | Ok false =>
                match files_to_select guess_type file_idx media_type files with
                | Raise e => (Raise e, w1, [info])
                | Ok None => (Ok false, w1, [info])
                | Ok (Some ids) =>
                    match network (PostSelectFiles torrent_id ids) w1 with
                    | (Response st2 body2, w2) =>
                        (Ok (st2 =? 204)%Z, w2,
                         [info; EvHttp (PostSelectFiles torrent_id ids)
                                  (Response st2 body2)])
                    | (NoResponse, w2) =>
                        (Raise RequestException, w2,
                         [info; EvHttp (PostSelectFiles torrent_id ids) NoResponse])
                    end
                end
            end
        end
  end.
Proof.
  unfold select_files_in_rd, bind, session, lift, ret.
  destruct (network (GetTorrentInfo torrent_id) w) as [[st body|] w1]; [|done].
  simpl. destruct (st =? 200)%Z; simpl; [|done].
  destruct (py_get body "files" (JList [])) as [files|e]; simpl; [|done].
  destruct (index_out_of_range file_idx files) as [[|]|e]; simpl; try done.
  destruct (files_to_select _ _ _ _) as [[ids|]|e]; simpl; try done.
  by destruct (network (PostSelectFiles torrent_id ids) w1) as [[st2 body2|] w2].
Qed.

(** The runs of [add_torrent_and_select_files]. *)
Lemma add_torrent_and_select_files_run info_hash name file_idx media_type (w : World) :
  add_torrent_and_select_files info_hash name file_idx media_type w =
  match network (PostAddMagnet info_hash name) w with
  | (NoResponse, w1) =>
      (Raise RequestException, w1, [EvHttp (PostAddMagnet info_hash name) NoResponse])
  | (Response st body, w1) =>
      let added := EvHttp (PostAddMagnet info_hash name) (Response st body) in
      if (st =? 201)%Z then
        match py_get body "id" JNull with
        | Raise e => (Raise e, w1, [added])
        | Ok torrent_id =>
            if truthy torrent_id then
              match select_files_in_rd torrent_id file_idx media_type w1 with
              | (Ok true, w2, t2) =>
                  (Ok (commit_result true "Torrent added and files selected."
                         [("torrent_id", torrent_id)]), w2, added :: t2)
              | (Ok false, w2, t2) =>
                  (Ok (commit_result false "Failed to select files in the torrent." []),
                   w2, added :: t2)
              | (Raise e, w2, t2) => (Raise e, w2, added :: t2)
              end
            else
              (Ok (commit_result false "Torrent added, but torrent ID not found." []),
               w1, [added])
        end
      else (Ok JNull, w1, [added])
  end.
Proof.
  unfold add_torrent_and_select_files, bind, session, lift, ret.
  destruct (network (PostAddMagnet info_hash name) w) as [[st body|] w1]; [|done].
  simpl. destruct (st =? 201)%Z; simpl; [|done].
  destruct (py_get body "id" JNull) as [torrent_id|e]; simpl; [|done].
  destruct (truthy torrent_id); simpl; [|done].
  destruct (select_files_in_rd torrent_id file_idx media_type w1)
    as [[[[|]|e] w2] t2]; simpl; by rewrite ?app_nil_r.
Qed.

Lemma index_out_of_range_int i files n :
  py_len files = Ok n →
  index_out_of_range (JNum i) files = Ok (bool_decide (i < 0 ∨ Z.of_nat n ≤ i)%Z).
Proof.
  intros Hlen. unfold index_out_of_range. simpl. rewrite Hlen. simpl.
  destruct (i <? 0)%Z eqn:Hneg.
  - apply Z.ltb_lt in Hneg. rewrite bool_decide_eq_true_2; [done|by left].
  - apply Z.ltb_ge in Hneg. f_equal.
    destruct (Z.of_nat n <=? i)%Z eqn:Hle.
    + apply Z.leb_le in Hle. rewrite bool_decide_eq_true_2; [done|by right].
    + apply Z.leb_gt in Hle. rewrite bool_decide_eq_false_2; [done|lia].
Qed.


(** Membership in the short traces of the commit stage. *)
Ltac trace_mem :=
  repeat match goal with
  | H : _ ∈ [] |- _ => by apply elem_of_nil in H
  | H : _ ∈ _ :: _ |- _ => apply elem_of_cons in H as [H|H]; simplify_eq
  end.

(** A commit answers success = true only after one selection call. *)
Lemma successful_commit_selects_once
    info_hash name file_idx media_type (w w' : World) r tr :
  add_torrent_and_select_files info_hash name file_idx media_type w
    = (r, w', tr) →
  commit_succeeded r = true → length (selections tr) = 1.
Proof.
  rewrite add_torrent_and_select_files_run.
  destruct (network (PostAddMagnet info_hash name) w) as [[st body|] w1];
    [|by intros [= <- <- <-]].
  cbv zeta. destruct (st =? 201)%Z; [|by intros [= <- <- <-]].
  destruct (py_get body "id" JNull) as [tid|e]; [|by intros [= <- <- <-]].
  destruct (truthy tid); [|by intros [= <- <- <-]].
  rewrite select_files_in_rd_run.
  destruct (network (GetTorrentInfo tid) w1) as [[st1 body1|] w2];
    [|by intros [= <- <- <-]].
  cbv zeta. destruct (negb _); [by intros [= <- <- <-]|].
  destruct (py_get body1 "files" (JList [])) as [files|e];
    [|by intros [= <- <- <-]].
  destruct (index_out_of_range file_idx files) as [[|]|e];
    try by intros [= <- <- <-].
  destruct (files_to_select _ _ _ _) as [[ids|]|e];
    try by intros [= <- <- <-].
  destruct (network (PostSelectFiles tid ids) w2) as [[st2 body2|] w3];
    [destruct (st2 =? 204)%Z|]; by intros [= <- <- <-].
Qed.




Lemma is_video_true path :
  is_video guess_type path = Ok true ↔
  ∃ p mime, path = JStr p ∧ guess_type p = Some mime ∧
            String.prefix "video" mime = true.
Proof.
  unfold is_video. split.
  - destruct path as [| | |p| |]; try done.
    destruct (guess_type p) as [mime|] eqn:Hg; [|done].
    intros [= Hv]. by exists p, mime.
  - intros (p & mime & -> & -> & ->). done.
Qed.

Lemma playable_files_exact files : ∀ ids,
  playable_files guess_type files = Ok ids →
  (∀ id, id ∈ ids →
     ∃ file, file ∈ files ∧ video_file file ∧ py_item file "id" = Ok id) ∧
  (∀ file, file ∈ files → video_file file →
     ∃ id, py_item file "id" = Ok id ∧ id ∈ ids).
Proof.
  induction files as [|file files IH]; intros ids; simpl.
  - intros [= <-]. split; intros ? Hin; by apply elem_of_nil in Hin.
  - destruct (py_get file "path" (JStr "")) as [path|e] eqn:Hpath; simpl; [|done].
    destruct (is_video guess_type path) as [[|]|e] eqn:Hvid; simpl; [| |done].
    + destruct (py_item file "id") as [id|e] eqn:Hid; simpl; [|done].
      destruct (playable_files guess_type files) as [ids'|e] eqn:Hrest; simpl; [|done].
      intros [= <-]. destruct (IH ids' eq_refl) as [IH1 IH2].
      apply is_video_true in Hvid as (p & mime & -> & Hg & Hv).
      split.
      * intros id' [->|Hin]%elem_of_cons.
        -- exists file. split_and!; [by left| |done]. by exists p, mime.
        -- destruct (IH1 _ Hin) as (f & ? & ? & ?). exists f.
           split_and!; [by right|done|done].
      * intros f [->|Hin]%elem_of_cons Hf.
        -- exists id. split; [done|by left].
        -- destruct (IH2 _ Hin Hf) as (id' & ? & ?). exists id'.
           split; [done|by right].
    + intros Hrest. destruct (IH ids Hrest) as [IH1 IH2]. split.
      * intros id' Hin. destruct (IH1 _ Hin) as (f & ? & ? & ?). exists f.
        split_and!; [by right|done|done].
      * intros f [->|Hin]%elem_of_cons Hf; [|by apply IH2].
        exfalso. destruct Hf as (p & mime & Hp & Hg & Hv).
        rewrite Hp in Hpath. injection Hpath as <-.
        assert (is_video guess_type (JStr p) = Ok true) as Hcontra
          by (apply is_video_true; by exists p, mime).
        congruence.
Qed.

Lemma series_commit_selection
    info_hash name (i : Z) (w w' : World) r tr :
  add_torrent_and_select_files info_hash name (JNum i) (JStr "tv") w
    = (r, w', tr) →
  (∀ torrent_id ids o,
     EvHttp (PostSelectFiles torrent_id ids) o ∈ tr →
     ∃ body files items,
       EvHttp (GetTorrentInfo torrent_id) (Response 200 body) ∈ tr ∧
       py_get body "files" (JList []) = Ok files ∧
       index_out_of_range (JNum i) files = Ok false ∧
       py_iter files = Ok items ∧
       (∀ id, id ∈ ids →
          ∃ file, file ∈ items ∧ video_file file ∧ py_item file "id" = Ok id) ∧
       (∀ file, file ∈ items → video_file file →
          ∃ id, py_item file "id" = Ok id ∧ id ∈ ids))
  ∧ length (selections tr) ≤ 1
  ∧ (∀ torrent_id body files,
       EvHttp (GetTorrentInfo torrent_id) (Response 200 body) ∈ tr →
       py_get body "files" (JList []) = Ok (JList files) →
       (i < 0 ∨ Z.of_nat (length files) ≤ i)%Z ∨ (∀ file, file ∈ files → ¬ video_file file) →
       commit_succeeded r = false ∧ selections tr = [])
  ∧ (∀ hint hint' files,
       files_to_select guess_type hint (JStr "tv") files
       = files_to_select guess_type hint' (JStr "tv") files).
Proof.
  intros Hrun. split_and!; [| | |done]; revert Hrun.
  all: rewrite add_torrent_and_select_files_run.
  all: destruct (network (PostAddMagnet info_hash name) w) as [[st body|] w1];
    [|intros [= <- <- <-]; first [intros; by trace_mem|simpl; lia]].
  all: cbv zeta.
  all: destruct (st =? 201)%Z;
    [|intros [= <- <- <-]; first [intros; by trace_mem|simpl; lia]].
  all: destruct (py_get body "id" JNull) as [tid|e];
    [|intros [= <- <- <-]; first [intros; by trace_mem|simpl; lia]].
  all: destruct (truthy tid);
    [|intros [= <- <- <-]; first [intros; by trace_mem|simpl; lia]].
  all: rewrite select_files_in_rd_run.
  all: destruct (network (GetTorrentInfo tid) w1) as [[st1 body1|] w2];
    [|intros [= <- <- <-]; first [intros; by trace_mem|simpl; lia]].
  all: cbv zeta.
  all: destruct (st1 =? 200)%Z eqn:Hst1; simpl negb; cbv iota;
    [|intros [= <- <- <-]; first [intros; by trace_mem|simpl; lia]].
  all: apply Z.eqb_eq in Hst1 as ->.
  all: destruct (py_get body1 "files" (JList [])) as [files|e] eqn:Hfiles;
    [|intros [= <- <- <-]; first [intros; trace_mem; congruence|simpl; lia]].
  all: destruct (index_out_of_range (JNum i) files) as [[|]|e] eqn:Hrange;
    [intros [= <- <- <-]; first [intros; by trace_mem|simpl; lia]| |
     intros [= <- <- <-]; first [intros; by trace_mem|simpl; lia]].
  all: unfold files_to_select; simpl.
  - destruct (py_iter files) as [items|e] eqn:Hitems; simpl;
      [|intros [= <- <- <-]; intros; by trace_mem].
    destruct (playable_files guess_type items) as [[|id ids]|e] eqn:Hplay; simpl;
      [intros [= <- <- <-]; intros; by trace_mem| |
       intros [= <- <- <-]; intros; by trace_mem].
    apply playable_files_exact in Hplay as [Hsound Hcomplete].
    destruct (network (PostSelectFiles tid (id :: ids)) w2) as [[st2 body2|] w3].
    + destruct (st2 =? 204)%Z; intros [= <- <- <-].
      all: intros; trace_mem; exists body1, files, items;
        split_and!; try done; rewrite !elem_of_cons; auto.
    + intros [= <- <- <-].
      intros; trace_mem; exists body1, files, items;
        split_and!; try done; rewrite !elem_of_cons; auto.
  - destruct (py_iter files) as [items|e]; simpl;
      [|intros [= <- <- <-]; simpl; lia].
    destruct (playable_files guess_type items) as [[|id ids]|e]; simpl;
      [intros [= <- <- <-]; simpl; lia| |intros [= <- <- <-]; simpl; lia].
    destruct (network (PostSelectFiles tid (id :: ids)) w2) as [[st2 body2|] w3];
      [destruct (st2 =? 204)%Z|]; intros [= <- <- <-]; simpl; lia.
  - destruct (py_iter files) as [items|e] eqn:Hitems; simpl;
      [|intros [= <- <- <-]; intros; by trace_mem].
    destruct (playable_files guess_type items) as [[|id ids]|e] eqn:Hplay; simpl;
      [intros [= <- <- <-]; intros; by trace_mem| |
       intros [= <- <- <-]; intros; by trace_mem].
    apply playable_files_exact in Hplay as [Hsound Hcomplete].
    assert (∀ tr0 (r0 : result json),
      (∀ torrent_id body,
         EvHttp (GetTorrentInfo torrent_id) (Response 200 body) ∈ tr0 →
         body = body1) →
      ∀ torrent_id body files',
       EvHttp (GetTorrentInfo torrent_id) (Response 200 body) ∈ tr0 →
       py_get body "files" (JList []) = Ok (JList files') →
       (i < 0 ∨ Z.of_nat (length files') ≤ i)%Z
       ∨ (∀ file, file ∈ files' → ¬ video_file file) →
       commit_succeeded r0 = false ∧ selections tr0 = []) as Hthird.
    { intros tr0 r0 Hbody tid' body' files' Hmem Hf Hout. exfalso.
      apply Hbody in Hmem as ->.
      assert (files = JList files') as -> by congruence.
      destruct Hout as [Hout|Hnone].
      - rewrite (index_out_of_range_int _ _ (length files')) in Hrange by done.
        injection Hrange as Hrange. by apply bool_decide_eq_false in Hrange.
      - simpl in Hitems. injection Hitems as <-.
        destruct (Hsound id) as (file & Hin & Hvid & _); [by left|].
        by apply (Hnone file). }
    destruct (network (PostSelectFiles tid (id :: ids)) w2) as [[st2 body2|] w3].
    + destruct (st2 =? 204)%Z; intros [= <- <- <-].
      all: apply Hthird; intros; by trace_mem.
    + intros [= <- <- <-]. apply Hthird; intros; by trace_mem.
Qed.

(** On a listing of file objects the playable files are the ids of the
    files whose path has a video type, in the order of the listing. *)
Lemma playable_files_described files described :
  listing_of files described →
  playable_files guess_type files
  = Ok (filter (λ d, video_path guess_type d.2 = true) described).*1.
Proof.
  induction 1 as [|file [id p] files described [Hid Hpath] _ IH]; [done|].
  simpl in Hid, Hpath. rewrite filter_cons.
  destruct (decide (video_path guess_type (id, p).2 = true)) as [Hvideo|Hvideo];
    simpl in Hvideo; simpl; rewrite Hpath; simpl; unfold video_path in Hvideo.
  - destruct (guess_type p) as [mime|]; [|done]. rewrite Hvideo. simpl.
    rewrite Hid. simpl. by rewrite IH.
  - destruct (guess_type p) as [mime|]; [|done].
    by destruct (String.prefix "video" mime).
Qed.

(** A commit with an integer index out of range for the listing returns
    success = false without a selection call, whatever the media type. *)
Lemma out_of_range_commit
    info_hash name (i : Z) media_type (w w' : World) r tr :
  add_torrent_and_select_files info_hash name (JNum i) media_type w
    = (r, w', tr) →
  ∀ torrent_id body files,
    EvHttp (GetTorrentInfo torrent_id) (Response 200 body) ∈ tr →
    py_get body "files" (JList []) = Ok (JList files) →
    (i < 0 ∨ Z.of_nat (length files) ≤ i)%Z →
    r = Ok (commit_result false "Failed to select files in the torrent." []) ∧
    selections tr = [].
Proof.
  rewrite add_torrent_and_select_files_run.
  destruct (network (PostAddMagnet info_hash name) w) as [[st body|] w1];
    [|intros [= <- <- <-]; intros; trace_mem].
  cbv zeta.
  destruct (st =? 201)%Z; [|intros [= <- <- <-]; intros; trace_mem].
  destruct (py_get body "id" JNull) as [tid|e];
    [|intros [= <- <- <-]; intros; trace_mem].
  destruct (truthy tid); [|intros [= <- <- <-]; intros; trace_mem].
  rewrite select_files_in_rd_run.
  destruct (network (GetTorrentInfo tid) w1) as [[st1 body1|] w2];
    [|intros [= <- <- <-]; intros; trace_mem].
  cbv zeta.
  destruct (st1 =? 200)%Z eqn:Hst1; simpl negb; cbv iota;
    [|intros [= <- <- <-]; intros; trace_mem; done].
  destruct (py_get body1 "files" (JList [])) as [files|e] eqn:Hfiles;
    [|intros [= <- <- <-]; intros; trace_mem; congruence].
  intros Hrun tid' body' files' Hmem Hf Hout.
  assert (body' = body1) as ->.
  { revert Hrun Hmem.
    destruct (index_out_of_range (JNum i) files) as [[|]|e];
      [intros [= <- <- <-]; intros; by trace_mem| |
       intros [= <- <- <-]; intros; by trace_mem].
    destruct (files_to_select guess_type (JNum i) media_type files)
      as [[ids|]|e];
      [|intros [= <- <- <-]; intros; by trace_mem
       |intros [= <- <- <-]; intros; by trace_mem].
    destruct (network (PostSelectFiles tid ids) w2) as [[st2 body2|] w3];
      [destruct (st2 =? 204)%Z|]; intros [= <- <- <-]; intros; by trace_mem. }
  assert (files = JList files') as -> by congruence.
  rewrite (index_out_of_range_int i (JList files') (length files')) in Hrun
    by done.
  rewrite bool_decide_eq_true_2 in Hrun by done.
  revert Hrun. by intros [= <- <- <-].
Qed.

(** With the submission accepted and the listing returned, a series commit
    with an index inside a listing of file objects makes the selection
    call for the video files of the listing, in their order; with no video
    file it returns success = false after the listing. *)
Lemma series_commit_selects
    info_hash name (i : Z) (w w' : World) r tr
    body torrent_id (w1 w2 : World) body2 files described :
  add_torrent_and_select_files info_hash name (JNum i) (JStr "tv") w
    = (r, w', tr) →
  network (PostAddMagnet info_hash name) w = (Response 201 body, w1) →
  py_get body "id" JNull = Ok torrent_id →
  truthy torrent_id = true →
  network (GetTorrentInfo torrent_id) w1 = (Response 200 body2, w2) →
  py_get body2 "files" (JList []) = Ok (JList files) →
  (0 ≤ i < Z.of_nat (length files))%Z →
  listing_of files described →
  match (filter (λ d, video_path guess_type d.2 = true) described).*1 with
  | [] =>
      tr = [EvHttp (PostAddMagnet info_hash name) (Response 201 body);
            EvHttp (GetTorrentInfo torrent_id) (Response 200 body2)] ∧
      r = Ok (commit_result false "Failed to select files in the torrent." [])
  | (_ :: _) as ids =>
      ∃ o,
        network (PostSelectFiles torrent_id ids) w2 = (o, w') ∧
        tr = [EvHttp (PostAddMagnet info_hash name) (Response 201 body);
              EvHttp (GetTorrentInfo torrent_id) (Response 200 body2);
              EvHttp (PostSelectFiles torrent_id ids) o] ∧
        r = match o with
            | Response st _ =>
                Ok (if (st =? 204)%Z
                    then commit_result true "Torrent added and files selected."
                           [("torrent_id", torrent_id)]
                    else commit_result false
                           "Failed to select files in the torrent." [])
            | NoResponse => Raise RequestException
            end
  end.
Proof.
  intros Hrun Hadd Hid Htid Hinfo Hfiles Hrange Hlisting. revert Hrun.
  rewrite add_torrent_and_select_files_run, Hadd. cbv zeta.
  rewrite Z.eqb_refl, Hid, Htid, select_files_in_rd_run, Hinfo. cbv zeta.
  rewrite Z.eqb_refl. simpl negb. cbv iota. rewrite Hfiles.
  rewrite (index_out_of_range_int i (JList files) (length files)) by done.
  rewrite bool_decide_eq_false_2 by lia.
  unfold files_to_select. simpl.
  rewrite (playable_files_described _ _ Hlisting). simpl.
  destruct ((filter (λ d, video_path guess_type d.2 = true) described).*1)
    as [|id ids]; [by intros [= <- <- <-]|].
  destruct (network (PostSelectFiles torrent_id (id :: ids)) w2)
    as [[st2 body3|] w3].
  - destruct (st2 =? 204)%Z eqn:Hst2; intros [= <- <- <-];
      exists (Response st2 body3); by rewrite Hst2.
  - intros [= <- <- <-]. by exists NoResponse.
Qed.

(** C5 (amended).  A commit for a series with an integer index: once the
    submission is accepted and the listing returned, an index inside a
    listing of file objects makes exactly one selection call, for exactly
    the files of the listing whose MIME type is a video type, in their
    order and whatever the index inside the range is, and the commit
    answers success exactly when that call is answered 204.  Whenever such
    a commit selects at all it selects exactly the video files, and a
    successful commit has made exactly one selection.  With no video file
    in the listing, or with the index out of range for it, the commit
    returns success = false and no selection call is made. *)
Theorem series_commit_selects_the_video_files
    info_hash name (i : Z) (w w' : World) r tr :
  add_torrent_and_select_files info_hash name (JNum i) (JStr "tv") w
    = (r, w', tr) →
  (∀ torrent_id ids o,
     EvHttp (PostSelectFiles torrent_id ids) o ∈ tr →
     ∃ body files items,
       EvHttp (GetTorrentInfo torrent_id) (Response 200 body) ∈ tr ∧
       py_get body "files" (JList []) = Ok files ∧
       index_out_of_range (JNum i) files = Ok false ∧
       py_iter files = Ok items ∧
       (∀ id, id ∈ ids →
          ∃ file, file ∈ items ∧ video_file file ∧ py_item file "id" = Ok id) ∧
       (∀ file, file ∈ items → video_file file →
          ∃ id, py_item file "id" = Ok id ∧ id ∈ ids))
  ∧ length (selections tr) ≤ 1
  ∧ (∀ torrent_id body files,
       EvHttp (GetTorrentInfo torrent_id) (Response 200 body) ∈ tr →
       py_get body "files" (JList []) = Ok (JList files) →
       (i < 0 ∨ Z.of_nat (length files) ≤ i)%Z
       ∨ (∀ file, file ∈ files → ¬ video_file file) →
       commit_succeeded r = false ∧ selections tr = [])
  ∧ (∀ hint hint' files,
       files_to_select guess_type hint (JStr "tv") files
       = files_to_select guess_type hint' (JStr "tv") files)
  ∧ (commit_succeeded r = true → length (selections tr) = 1)
  ∧ (∀ torrent_id body files,
       EvHttp (GetTorrentInfo torrent_id) (Response 200 body) ∈ tr →
       py_get body "files" (JList []) = Ok (JList files) →
       (i < 0 ∨ Z.of_nat (length files) ≤ i)%Z →
       r = Ok (commit_result false "Failed to select files in the torrent." []) ∧
       selections tr = [])
  ∧ (∀ body torrent_id (w1 w2 : World) body2 files described,
       network (PostAddMagnet info_hash name) w = (Response 201 body, w1) →
       py_get body "id" JNull = Ok torrent_id →
       truthy torrent_id = true →
       network (GetTorrentInfo torrent_id) w1 = (Response 200 body2, w2) →
       py_get body2 "files" (JList []) = Ok (JList files) →
       (0 ≤ i < Z.of_nat (length files))%Z →
       listing_of files described →
       match (filter (λ d, video_path guess_type d.2 = true) described).*1 with
       | [] =>
           tr = [EvHttp (PostAddMagnet info_hash name) (Response 201 body);
                 EvHttp (GetTorrentInfo torrent_id) (Response 200 body2)] ∧
           selections tr = [] ∧
           r = Ok (commit_result false
                     "Failed to select files in the torrent." [])
       | (_ :: _) as ids =>
           ∃ o,
             network (PostSelectFiles torrent_id ids) w2 = (o, w') ∧
             tr = [EvHttp (PostAddMagnet info_hash name) (Response 201 body);
                   EvHttp (GetTorrentInfo torrent_id) (Response 200 body2);
                   EvHttp (PostSelectFiles torrent_id ids) o] ∧
             selections tr = [ids] ∧
             (commit_succeeded r = true ↔ ∃ body3, o = Response 204 body3) ∧
             r = match o with
                 | Response st _ =>
                     Ok (if (st =? 204)%Z
                         then commit_result true
                                "Torrent added and files selected."
                                [("torrent_id", torrent_id)]
                         else commit_result false
                                "Failed to select files in the torrent." [])
                 | NoResponse => Raise RequestException
                 end
       end).
Proof.
  intros Hrun.
  destruct (series_commit_selection _ _ _ _ _ _ _ Hrun) as (H1 & H2 & H3 & H4).
  split_and!; [done|done|done|done|by eapply successful_commit_selects_once
               |by eapply out_of_range_commit|].
  intros body torrent_id w1 w2 body2 files described Hadd Hid Htid Hinfo Hfiles
    Hrange Hlisting.
  pose proof (series_commit_selects _ _ _ _ _ _ _ _ _ _ _ _ _ _ Hrun Hadd Hid
                Htid Hinfo Hfiles Hrange Hlisting) as Hsel.
  destruct ((filter (λ d, video_path guess_type d.2 = true) described).*1)
    as [|id ids].
  - by destruct Hsel as [-> ->].
  - destruct Hsel as (o & Ho & -> & ->). exists o.
    split_and!; [done|done|done| |done].
    destruct o as [st body3|]; simpl.
    + destruct (st =? 204)%Z eqn:Hst; simpl.
      * apply Z.eqb_eq in Hst as ->. split; [by eexists|done].
      * split; [done|]. intros [? [= -> _]]. done.
    + split; [done|]. by intros [? ?].
Qed.

(** *** Selection, poll path *)

Lemma available_record_some h (availability : gmap string (gmap Z file_info)) record :
  available_record h availability = Some record →
  availability !! h = Some record ∧ size record ≠ 0.
Proof.
  unfold available_record. destruct (availability !! h) as [record'|]; [|done].
  destruct (size record' =? 0) eqn:Hsize; [done|].
  intros [= ->]. split; [done|]. by apply Nat.eqb_neq.
Qed.

Lemma bind_lift_run {A B} (x : result A) (f : A → M B) (w : World) :
  bind (lift x) f w = match x with Ok a => f a w | Raise e => (Raise e, w, []) end.
Proof. unfold bind, lift. destruct x as [a|e]; [|done]. by destruct (f a w) as [[??]?]. Qed.

Lemma check_rd_availability_cases h (w w' : World) r tr :
  check_rd_availability h w = (r, w', tr) →
  ∃ o, tr = [EvHttp (GetInstantAvailability [h]) o] ∧
       ((∃ e, r = Raise e ∧ check_raises h o e)
        ∨ (r = Ok None ∧ unavailable h o)
        ∨ (∃ record, r = Ok (Some record) ∧ available h o)).
Proof.
  destruct (network (GetInstantAvailability [h]) w) as [[code body|] w1] eqn:Hnet.
  - rewrite (check_rd_availability_run _ _ _ _ _ Hnet).
    destruct (normalize_availability py_int [h] (code, body))
      as [availability|e] eqn:Hnorm; simpl.
    + destruct (available_record h availability) as [record|] eqn:Hrec;
        intros [= <- <- <-]; eexists; (split; [done|]); right.
      * right. exists record. split; [done|].
        apply available_record_some in Hrec as [? ?].
        by exists code, body, availability, record.
      * left. split; [done|]. by exists code, body, availability.
    + intros [= <- <- <-]. eexists. split; [done|]. left. exists e.
      split; [done|]. right. by exists code, body.
  - unfold check_rd_availability, get_instant_availability, bind, session.
    rewrite Hnet. intros [= <- <- <-]. eexists. split; [done|]. left.
    exists RequestException. split; [done|]. by left.
Qed.

Lemma rank_checked_run title h st (w : World) :
  rank_checked title h st w =
  (match rtn_rank title h with
   | Ok t => if fetch t then Ok (add_ranked t st) else Ok (add_garbage st)
   | Raise e => if decide (e = GarbageTorrent) then Ok (add_garbage st) else Raise e
   end, w, [EvRank title h (rtn_rank title h)]).
Proof.
  unfold rank_checked, try_except, bind, rtn_rank_call, ret.
  destruct (rtn_rank title h) as [t|e].
  - by destruct (fetch t).
  - by destruct (decide (e = GarbageTorrent)).
Qed.

Lemma break_test_run (st : loop_state) (w : World) :
  (if Nat.leb max_hashes_to_check (size (checked_hashes st))
      && Nat.eqb (garbage_count st) max_hashes_to_check
   then ret (true, st) else ret (false, st)) w
  = (Ok (stops st, st), w, []).
Proof. unfold stops. by destruct (_ && _). Qed.

Lemma poll_iteration_cases stream st (w w' : World) r tr :
  poll_iteration stream st w = (r, w', tr) → iteration st r tr.
Proof.
  unfold poll_iteration. rewrite bind_lift_run.
  destruct (py_get stream "infoHash" JNull) as [info_hash|e];
    [|intros [= <- <- <-]; constructor].
  rewrite bind_lift_run.
  destruct (py_get stream "title" JNull) as [title|e];
    [|intros [= <- <- <-]; constructor].
  destruct (truthy info_hash && truthy title);
    [|intros [= <- <- <-]; constructor].
  destruct info_hash as [| | |h| |]; try (intros [= <- <- <-]; constructor).
  case_bool_decide as Hchecked; [intros [= <- <- <-]; constructor|].
  intros Hrun.
  apply bind_run in Hrun
    as [(rd & w1 & t1 & t2 & Hcheck & Hrest & ->)|(e & Hcheck & ->)];
    apply check_rd_availability_cases in Hcheck
      as (o & -> & [(e' & He & Hraise)|[[Hnone Hun]|(record & Hsome & Hav)]]);
    simplify_eq.
  - (* unavailable *)
    apply bind_run in Hrest
      as [(st2 & w2 & t3 & t4 & Hst2 & Hbreak & ->)|(e & Hst2 & ->)];
      [|done].
    injection Hst2 as <- <- <-. rewrite break_test_run in Hbreak.
    injection Hbreak as <- <- <-. by apply it_unavailable.
  - (* available: rank *)
    apply bind_run in Hrest
      as [(st2 & w2 & t3 & t4 & Hst2 & Hbreak & ->)|(e & Hst2 & ->)];
      rewrite rank_checked_run in Hst2; injection Hst2 as Hst2 <- <-.
    + rewrite break_test_run in Hbreak. injection Hbreak as <- <- <-.
      destruct (rtn_rank title h) as [t|e] eqn:Hrank.
      * destruct (fetch t) eqn:Hfetch; injection Hst2 as <-.
        -- by eapply it_accepted.
        -- rewrite <- Hrank. apply it_rejected; try done.
           rewrite Hrank. simpl. by rewrite Hfetch.
      * destruct (decide (e = GarbageTorrent)) as [->|Hne]; [|done].
        injection Hst2 as <-. rewrite <- Hrank. apply it_rejected; try done.
        by rewrite Hrank.
    + destruct (rtn_rank title h) as [t|e'] eqn:Hrank.
      * by destruct (fetch t).
      * destruct (decide (e' = GarbageTorrent)) as [->|Hne]; [done|].
        injection Hst2 as ->. by apply it_rank_raises.
  - (* the check raises *)
    by apply it_check_raises.
Qed.

Lemma checks_app tr1 tr2 : checks (tr1 ++ tr2) = checks tr1 ++ checks tr2.
Proof. apply omap_app. Qed.

Lemma accepted_app tr1 tr2 : accepted (tr1 ++ tr2) = accepted tr1 ++ accepted tr2.
Proof. apply omap_app. Qed.

Lemma commits_app tr1 tr2 : commits (tr1 ++ tr2) = commits tr1 ++ commits tr2.
Proof. apply omap_app. Qed.

Lemma selections_app tr1 tr2 :
  selections (tr1 ++ tr2) = selections tr1 ++ selections tr2.
Proof. apply omap_app. Qed.

Lemma rejections_app tr1 tr2 :
  rejections (tr1 ++ tr2) = rejections tr1 + rejections tr2.
Proof. unfold rejections. by rewrite List.filter_app, length_app. Qed.

Lemma acknowledgements_app tr1 tr2 :
  acknowledgements (tr1 ++ tr2) = acknowledgements tr1 + acknowledgements tr2.
Proof. unfold acknowledgements. by rewrite List.filter_app, length_app. Qed.

Lemma discoveries_app tr1 tr2 :
  discoveries (tr1 ++ tr2) = discoveries tr1 + discoveries tr2.
Proof. unfold discoveries. by rewrite List.filter_app, length_app. Qed.

Lemma check_only tr :
  Forall (λ e, is_check e = true) tr →
  discoveries tr = 0 ∧ commits tr = [] ∧ selections tr = [] ∧
  acknowledgements tr = 0.
Proof.
  unfold discoveries, commits, selections, acknowledgements.
  induction 1 as [|e tr He _ (IH1 & IH2 & IH3 & IH4)]; [done|].
  destruct e as [[] ?|]; try discriminate; simpl;
    by rewrite ?IH1, ?IH2, ?IH3, ?IH4.
Qed.

Lemma eligible_in_app tr0 tr1 tr2 t :
  eligible_in tr1 t → eligible_in (tr0 ++ tr1 ++ tr2) t.
Proof.
  intros (pre & post & h & o & title & -> & Hav & Hrank & Hfetch).
  exists (tr0 ++ pre), (post ++ tr2), h, o, title.
  split; [|done]. by rewrite <- !app_assoc.
Qed.

Lemma size_add_checked h st :
  h ∉ checked_hashes st →
  size (checked_hashes (add_checked h st)) = S (size (checked_hashes st)).
Proof.
  intros Hnew. simpl. rewrite size_union by set_solver.
  by rewrite size_singleton.
Qed.

Lemma stops_iff st :
  garbage_count st ≤ size (checked_hashes st) →
  stops st = true ↔ garbage_count st = 5.
Proof.
  intros Hle. unfold stops, max_hashes_to_check.
  rewrite andb_true_iff, Nat.leb_le, Nat.eqb_eq. lia.
Qed.

Lemma rejection_not_accepted e :
  is_rejection e = true → accepted_torrent e = None.
Proof.
  destruct e as [|title h [t|e]]; simpl; try done.
  by destruct (fetch t).
Qed.

Lemma prefix_of_one (e1 : event) pre post :
  [e1] = pre ++ post → is_rejection e1 = false →
  rejections pre ≤ rejections [e1] ∧ (rejections pre = 1 → post = []).
Proof.
  intros Heq H1. destruct pre as [|x [|y pre]]; simplify_eq/=.
  - split; [unfold rejections; simpl; lia|done].
  - unfold rejections; simpl. rewrite H1. done.
Qed.

Lemma prefix_of_two (e1 e2 : event) pre post :
  [e1; e2] = pre ++ post → is_rejection e1 = false →
  rejections pre ≤ rejections [e1; e2] ∧ (rejections pre = 1 → post = []).
Proof.
  intros Heq H1. destruct pre as [|x [|y [|z pre]]]; simplify_eq/=.
  - split; [unfold rejections; simpl; lia|done].
  - unfold rejections; simpl. rewrite H1. simpl. split; [lia|done].
  - done.
Qed.

Lemma accepted_cons e tr :
  accepted (e :: tr)
  = match accepted_torrent e with Some t => t :: accepted tr | None => accepted tr end.
Proof. done. Qed.

Lemma rejections_cons e tr :
  rejections (e :: tr) = (if is_rejection e then 1 else 0) + rejections tr.
Proof. unfold rejections. simpl. by destruct (is_rejection e). Qed.

Ltac solve_fact :=
  first
    [ done
    | by repeat constructor
    | simpl; lia
    | unfold rejections; simpl; lia
    | intros ? Hin; by apply elem_of_nil in Hin
    | intros ? Hin; apply list_elem_of_singleton in Hin as ->; done
    | simpl; by rewrite app_nil_r
    | intros ?; simpl;
      rewrite ?elem_of_union, ?elem_of_singleton, ?list_elem_of_singleton,
        ?elem_of_nil; tauto
    | intros [|??] ? ?; simplify_eq/=;
      split; [unfold rejections; simpl; lia|done] ].

(** What one pass contributes to the readings of the trace. *)
Lemma iteration_facts st r tr :
  iteration st r tr →
  garbage_count st < 5 →
  garbage_count st ≤ size (checked_hashes st) →
  Forall (λ e, is_check e = true) tr ∧
  length (accepted tr) + rejections tr ≤ length (checks tr) ∧
  length (checks tr) ≤ 1 ∧
  (∀ h, h ∈ checks tr → h ∉ checked_hashes st) ∧
  (∀ t, t ∈ accepted tr → eligible_in tr t) ∧
  (∀ pre post, tr = pre ++ post →
     rejections pre ≤ rejections tr ∧ (rejections pre = 1 → post = [])) ∧
  match r with
  | Ok (brk, st') =>
      ranked_torrents st' = ranked_torrents st ++ accepted tr ∧
      garbage_count st' = garbage_count st + rejections tr ∧
      garbage_count st' ≤ size (checked_hashes st') ∧
      size (checked_hashes st') = size (checked_hashes st) + length (checks tr) ∧
      (∀ h, h ∈ checked_hashes st' ↔ h ∈ checks tr ∨ h ∈ checked_hashes st) ∧
      (brk = true ↔ garbage_count st' = 5)
  | Raise _ => rejections tr = 0
  end.
Proof.
  only_needed.
  intros Hit Hlt Hle.
  destruct Hit as [|e|h o Hnew Hun|h o e Hnew Hraise|h o title Hnew Hav Hrej
                  |h o title t Hnew Hav Hrank Hfetch|h o title e Hnew Hav Hrank Hne].
  - (* skipped *)
    split_and!; try solve_fact.
  - (* malformed stream *)
    split_and!; try solve_fact.
  - (* unavailable *)
    pose proof (size_add_checked _ _ Hnew) as Hsize.
    split_and!; try solve_fact.
    + intros pre post Heq. by eapply prefix_of_one.
    + rewrite Hsize. simpl. lia.
    + rewrite Hsize. simpl. lia.
    + apply stops_iff. rewrite Hsize. simpl. lia.
  - (* the check raises *)
    split_and!; try solve_fact.
    + intros pre post Heq. by eapply prefix_of_one.
  - (* rejected *)
    pose proof (size_add_checked _ _ Hnew) as Hsize.
    pose proof (rejection_not_accepted _ Hrej) as Hnot.
    assert (accepted [EvHttp (GetInstantAvailability [h]) o;
                      EvRank title h (rtn_rank title h)] = []) as Hacc.
    { by rewrite !accepted_cons, Hnot. }
    assert (rejections [EvHttp (GetInstantAvailability [h]) o;
                        EvRank title h (rtn_rank title h)] = 1) as Hcount.
    { by rewrite !rejections_cons, Hrej. }
    rewrite Hacc, Hcount.
    split_and!; try solve_fact.
    + intros pre post Heq.
      destruct (prefix_of_two _ _ _ _ Heq eq_refl) as [Hmono Hlast].
      by rewrite Hcount in Hmono.
    + simpl in *. rewrite Hsize. lia.
    + simpl in *. rewrite Hsize. lia.
    + apply stops_iff. simpl in *. rewrite Hsize. lia.
  - (* accepted *)
    pose proof (size_add_checked _ _ Hnew) as Hsize.
    assert (accepted [EvHttp (GetInstantAvailability [h]) o;
                      EvRank title h (Ok t)] = [t]) as Hacc.
    { rewrite !accepted_cons. simpl. by rewrite Hfetch. }
    assert (rejections [EvHttp (GetInstantAvailability [h]) o;
                        EvRank title h (Ok t)] = 0) as Hcount.
    { rewrite !rejections_cons. simpl. by rewrite Hfetch. }
    rewrite Hacc, Hcount.
    split_and!; try solve_fact.
    + intros t' Hin. apply list_elem_of_singleton in Hin as ->.
      by exists [], [], h, o, title.
    + intros pre post Heq.
      destruct (prefix_of_two _ _ _ _ Heq eq_refl) as [Hmono Hlast].
      by rewrite Hcount in Hmono.
    + simpl in *. rewrite Hsize. lia.
    + simpl in *. rewrite Hsize. lia.
    + apply stops_iff. simpl in *. rewrite Hsize. lia.
  - (* the ranking raises *)
    assert (is_rejection (EvRank title h (Raise e)) = false) as Hnot
      by (by destruct e).
    assert (rejections [EvHttp (GetInstantAvailability [h]) o;
                        EvRank title h (Raise e)] = 0) as Hcount.
    { by rewrite !rejections_cons, Hnot. }
    rewrite Hcount.
    split_and!; try solve_fact.
    + intros pre post Heq.
      destruct (prefix_of_two _ _ _ _ Heq eq_refl) as [Hmono Hlast].
      by rewrite Hcount in Hmono.
Qed.

Lemma rejections_prefix pre post : rejections pre ≤ rejections (pre ++ post).
Proof. rewrite rejections_app. lia. Qed.

(** The readings of the trace of the whole loop, from state [st]. *)
Lemma rank_streams_facts streams : ∀ st (w w' : World) r tr,
  rank_streams streams st w = (r, w', tr) →
  garbage_count st < 5 →
  garbage_count st ≤ size (checked_hashes st) →
  Forall (λ e, is_check e = true) tr ∧
  length (accepted tr) + rejections tr ≤ length (checks tr) ∧
  garbage_count st + rejections tr ≤ 5 ∧
  NoDup (checks tr) ∧
  (∀ h, h ∈ checks tr → h ∉ checked_hashes st) ∧
  (∀ t, t ∈ accepted tr → eligible_in tr t) ∧
  (∀ pre post, tr = pre ++ post →
     garbage_count st + rejections pre = 5 →
     post = [] ∧ ∃ st', r = Ok st') ∧
  (∀ st', r = Ok st' →
     ranked_torrents st' = ranked_torrents st ++ accepted tr ∧
     garbage_count st' = garbage_count st + rejections tr ∧
     size (checked_hashes st') = size (checked_hashes st) + length (checks tr)).
Proof.
  induction streams as [|stream rest IH]; intros st w w' r tr Hrun Hlt Hle.
  - injection Hrun as <- <- <-.
    split_and!; try solve_fact.
    + intros [|??] ? ? ?; simplify_eq/=. unfold rejections in *; simpl in *; lia.
    + intros st' [= <-]. rewrite app_nil_r. unfold rejections; simpl.
      split_and!; [done|lia|lia].
  - simpl in Hrun.
    apply bind_run in Hrun
      as [([brk st1] & w1 & t1 & t2 & Hstep & Hrest & ->)|(e & Hstep & ->)];
      apply poll_iteration_cases in Hstep;
      pose proof (iteration_facts _ _ _ Hstep Hlt Hle)
        as (Hc1 & Hc2 & Hc3 & Hc4 & Hc5 & Hc6 & Hc7).
    + destruct Hc7 as (Hr1 & Hr2 & Hr3 & Hr4 & Hr5 & Hr6).
      simpl in Hrest. destruct brk.
      * (* break *)
        injection Hrest as <- <- <-. rewrite app_nil_r.
        assert (garbage_count st1 = 5) as Hfive by (by apply Hr6).
        split_and!; try done.
        -- lia.
        -- destruct (checks t1) as [|h [|h' l]]; simpl in Hc3; try lia;
             repeat constructor; by intros ?%elem_of_nil.
        -- intros pre post Heq Hpre. split; [|by eexists].
           destruct (Hc6 _ _ Heq) as [Hmono Hlast]. apply Hlast. lia.
        -- intros st' [= <-]. done.
      * (* next stream *)
        assert (garbage_count st1 < 5) as Hlt1.
        { assert (garbage_count st1 ≠ 5) by (intros ?; by apply Hr6 in H).
          lia. }
        destruct (IH _ _ _ _ _ Hrest Hlt1 Hr3)
          as (Hi1 & Hi2 & Hi3 & Hi4 & Hi5 & Hi6 & Hi7 & Hi8).
        rewrite checks_app, accepted_app, rejections_app, !length_app.
        split_and!.
        -- by apply Forall_app.
        -- lia.
        -- lia.
        -- apply NoDup_app. split_and!; [|intros h Hin1 Hin2|done].
           ++ destruct (checks t1) as [|h [|h' l]]; simpl in Hc3; try lia;
                repeat constructor; by intros ?%elem_of_nil.
           ++ apply (Hi5 h Hin2). apply Hr5. by left.
        -- intros h [Hin|Hin]%elem_of_app; [by apply Hc4|].
           intros Hst. apply (Hi5 h Hin). apply Hr5. by right.
        -- intros t [Hin|Hin]%elem_of_app.
           ++ apply (eligible_in_app [] t1 t2). by apply Hc5.
           ++ rewrite <- (app_nil_r (t1 ++ t2)), <- app_assoc.
              apply eligible_in_app. by apply Hi6.
        -- intros pre post Heq Hpre.
           apply app_eq_app in Heq as [k [[-> ->]|[-> ->]]].
           ++ pose proof (rejections_prefix pre k). lia.
           ++ rewrite rejections_app in Hpre. apply (Hi7 k post); [done|lia].
        -- intros st' ->. destruct (Hi8 st' eq_refl) as (Hf1 & Hf2 & Hf3).
           rewrite Hf1, Hf2, Hf3, Hr1, Hr2, Hr4. rewrite <- app_assoc.
           split_and!; [done|lia|lia].
    + (* the pass raises *)
      split_and!; try done.
      * lia.
      * destruct (checks tr) as [|h [|h' l]]; simpl in Hc3; try lia;
          repeat constructor; by intros ?%elem_of_nil.
      * intros pre post Heq Hpre. destruct (Hc6 _ _ Heq) as [Hmono _]. lia.
Qed.

Lemma torrentio_attempts_run c remaining : ∀ attempt (w w' : World) r tr,
  torrentio_attempts c attempt remaining w = (r, w', tr) →
  Forall (λ e, ∃ o, e = EvHttp c o) tr.
Proof.
  induction remaining as [|k IH]; intros attempt w w' r tr.
  - intros [= <- <- <-]. constructor.
  - simpl. unfold try_except, bind, session.
    destruct (network c w) as [[st body|] w1]; simpl.
    + destruct (st =? 200)%Z; intros [= <- <- <-]; repeat constructor; by eexists.
    + destruct (attempt =? 4)%nat.
      * intros [= <- <- <-]. repeat constructor; by eexists.
      * destruct (torrentio_attempts c (S attempt) k w1) as [[r2 w2] t2] eqn:Hrec.
        intros [= <- <- <-]. apply IH in Hrec.
        constructor; [by eexists|done].
Qed.

Lemma mark_completed_run media_id (w w' : World) r tr :
  mark_completed media_id w = (r, w', tr) →
  ∃ o ok, tr = [EvHttp (PostMarkAvailable media_id) o] ∧ r = Ok ok.
Proof.
  unfold mark_completed, try_except_all, bind, session, ret.
  destruct (network (PostMarkAvailable media_id) w) as [[st body|] w1];
    intros [= <- <- <-]; by do 2 eexists.
Qed.

(** The shape of a run of the poll pipeline: the resolution and discovery
    calls, then the calls of the candidate loop, then those of the commit
    of the best torrent and of the acknowledgement. *)
Lemma process_body_run request (w w' : World) r tr :
  process_body request w = (r, w', tr) →
  ∃ head loop tail,
    tr = head ++ loop ++ tail ∧
    Forall (λ e, is_resolution e = true ∨ is_discovery e = true) head ∧
    ((loop = [] ∧ tail = [] ∧
      r ≠ Ok Completed ∧ r ≠ Ok NoValidTorrents ∧ r ≠ Ok AddFailed)
     ∨ ∃ items w1 w2 rl media_id media_type,
         rank_streams items initial_state w1 = (rl, w2, loop) ∧
         match rl with
         | Raise e => r = Raise e ∧ tail = []
         | Ok st =>
             match top_torrents (ranked_torrents st) with
             | [] => r = Ok NoValidTorrents ∧ tail = []
             | best :: _ =>
                 ∃ ra w3 t_add t_ack,
                   add_torrent_and_select_files (infohash best)
                     (parsed_title best) (JStr "1") media_type w2
                   = (ra, w3, t_add) ∧
                   tail = t_add ++ t_ack ∧
                   if commit_succeeded ra then
                     r = Ok Completed ∧
                     ∃ o, t_ack = [EvHttp (PostMarkAvailable media_id) o]
                   else
                     t_ack = [] ∧ (r = Ok AddFailed ∨ ∃ e, r = Raise e) ∧
                     ∀ e, ra = Raise e → r = Raise e
             end
         end).
Proof.
  unfold process_body. rewrite bind_lift_run.
  destruct (py_item request "media") as [media|e];
    [|intros [= <- <- <-]; exists [], [], []; split_and!; [done|constructor|by left]].
  rewrite bind_lift_run.
  destruct (py_item media "id") as [media_id|e];
    [|intros [= <- <- <-]; exists [], [], []; split_and!; [done|constructor|by left]].
  rewrite bind_lift_run.
  destruct (py_item media "tmdbId") as [tmdb_id|e];
    [|intros [= <- <- <-]; exists [], [], []; split_and!; [done|constructor|by left]].
  rewrite bind_lift_run.
  destruct (py_item media "mediaType") as [media_type|e];
    [|intros [= <- <- <-]; exists [], [], []; split_and!; [done|constructor|by left]].
  intros Hrun.
  apply bind_run in Hrun
    as [(imdb_id & w1 & t1 & t2 & Himdb & Hrun & ->)|(e & Himdb & ->)];
    apply trakt_attempts_run in Himdb as [Htrakt _].
  2:{ exists tr, [], []. split_and!; [by rewrite !app_nil_r| |by left].
      eapply Forall_impl; [exact Htrakt|]. intros ? [o ->]. by left. }
  assert (Forall (λ e, is_resolution e = true ∨ is_discovery e = true) t1) as Hhead1.
  { eapply Forall_impl; [exact Htrakt|]. intros ? [o ->]. by left. }
  destruct (truthy imdb_id); simpl in Hrun.
  2:{ injection Hrun as <- <- <-. exists t1, [], [].
      split_and!; [done|done|by left]. }
  apply bind_run in Hrun
    as [(results & w2 & t3 & t4 & Hdisc & Hrun & ->)|(e & Hdisc & ->)];
    apply torrentio_attempts_run in Hdisc.
  2:{ exists (t1 ++ t2), [], []. split_and!; [by rewrite !app_nil_r| |by left].
      apply Forall_app. split; [done|].
      eapply Forall_impl; [exact Hdisc|]. intros ? [o ->]. by right. }
  assert (Forall (λ e, is_resolution e = true ∨ is_discovery e = true) (t1 ++ t3))
    as Hhead.
  { apply Forall_app. split; [done|].
    eapply Forall_impl; [exact Hdisc|]. intros ? [o ->]. by right. }
  destruct (truthy results); simpl in Hrun.
  2:{ injection Hrun as <- <- <-. exists (t1 ++ t3), [], [].
      split_and!; [by rewrite !app_nil_r|done|by left]. }
  rewrite bind_lift_run in Hrun.
  destruct (py_get results "streams" JNull) as [streams|e].
  2:{ injection Hrun as <- <- <-. exists (t1 ++ t3), [], [].
      split_and!; [by rewrite !app_nil_r|done|by left]. }
  destruct (truthy streams); simpl in Hrun.
  2:{ injection Hrun as <- <- <-. exists (t1 ++ t3), [], [].
      split_and!; [by rewrite !app_nil_r|done|by left]. }
  rewrite bind_lift_run in Hrun.
  destruct (py_iter streams) as [items|e].
  2:{ injection Hrun as <- <- <-. exists (t1 ++ t3), [], [].
      split_and!; [by rewrite !app_nil_r|done|by left]. }
  apply bind_run in Hrun
    as [(st & w3 & t5 & t6 & Hloop & Hrun & ->)|(e & Hloop & ->)].
  2:{ exists (t1 ++ t3), t4, []. split_and!; [by rewrite !app_nil_r, app_assoc|done|].
      right. exists items, w2, w', (Raise e), media_id, media_type. by split. }
  exists (t1 ++ t3), t5, t6. split_and!; [by rewrite !app_assoc|done|].
  right. exists items, w2, w3, (Ok st), media_id, media_type. split; [done|].
  destruct (top_torrents (ranked_torrents st)) as [|best rest].
  { by injection Hrun as <- <- <-. }
  apply bind_run in Hrun
    as [(result & w4 & t7 & t8 & Hadd & Hrun & ->)|(e & Hadd & ->)].
  2:{ exists (Raise e), w', t6, []. split_and!; [done|by rewrite app_nil_r|].
      simpl. split_and!; [done| |by intros ? [= ->]]. right. by eexists. }
  exists (Ok result), w4, t7, t8. split_and!; [done|done|].
  rewrite bind_lift_run in Hrun. simpl.
  destruct (py_get result "success" JNull) as [flag|e].
  2:{ injection Hrun as <- <- <-. split_and!; [done| |done]. right. by eexists. }
  destruct (truthy flag).
  - apply bind_run in Hrun
      as [(ok & w5 & t9 & t10 & Hmark & Hrun & ->)|(e & Hmark & ->)];
      apply mark_completed_run in Hmark as (o & ok' & -> & Hok); [|done].
    injection Hrun as <- <- <-. split; [done|]. by exists o.
  - injection Hrun as <- <- <-. split_and!; [done| |done]. by left.
Qed.

Lemma process_overseerr_request_run request (w : World) :
  process_overseerr_request request w =
  match process_body request w with
  | (Ok outcome, w', tr) => (Ok outcome, w', tr)
  | (Raise e, w', tr) => (Ok (Errored e), w', tr)
  end.
Proof.
  unfold process_overseerr_request, try_except_all, ret.
  destruct (process_body request w) as [[[outcome|e] w'] tr]; [done|].
  by rewrite app_nil_r.
Qed.

Lemma head_only tr :
  Forall (λ e, is_resolution e = true ∨ is_discovery e = true) tr →
  checks tr = [] ∧ rejections tr = 0 ∧ accepted tr = [] ∧ commits tr = [] ∧
  selections tr = [] ∧ acknowledgements tr = 0.
Proof.
  unfold checks, rejections, accepted, commits, selections, acknowledgements.
  induction 1 as [|e tr He _ (IH1 & IH2 & IH3 & IH4 & IH5 & IH6)]; [done|].
  destruct e as [[] ?|]; destruct He as [He|He]; try discriminate; simpl;
    by rewrite ?IH1, ?IH2, ?IH3, ?IH4, ?IH5, ?IH6.
Qed.

Lemma file_calls_only tr :
  Forall (λ e, is_file_call e = true) tr →
  checks tr = [] ∧ rejections tr = 0 ∧ accepted tr = [] ∧ commits tr = [] ∧
  acknowledgements tr = 0 ∧ discoveries tr = 0.
Proof.
  unfold checks, rejections, accepted, commits, acknowledgements, discoveries.
  induction 1 as [|e tr He _ (IH1 & IH2 & IH3 & IH4 & IH5 & IH6)]; [done|].
  destruct e as [[] ?|]; try discriminate; simpl;
    by rewrite ?IH1, ?IH2, ?IH3, ?IH4, ?IH5, ?IH6.
Qed.

Lemma select_files_in_rd_trace torrent_id file_idx media_type (w w' : World) r tr :
  select_files_in_rd torrent_id file_idx media_type w = (r, w', tr) →
  Forall (λ e, is_file_call e = true) tr.
Proof.
  rewrite select_files_in_rd_run.
  destruct (network (GetTorrentInfo torrent_id) w) as [[st body|] w1];
    [|intros [= <- <- <-]; by repeat constructor].
  cbv zeta. destruct (negb _); [intros [= <- <- <-]; by repeat constructor|].
  destruct (py_get body "files" (JList [])) as [files|e];
    [|intros [= <- <- <-]; by repeat constructor].
  destruct (index_out_of_range file_idx files) as [[|]|e];
    try (intros [= <- <- <-]; by repeat constructor).
  destruct (files_to_select _ _ _ _) as [[ids|]|e];
    try (intros [= <- <- <-]; by repeat constructor).
  destruct (network (PostSelectFiles torrent_id ids) w1) as [[st2 body2|] w2];
    intros [= <- <- <-]; by repeat constructor.
Qed.

(** A commit starts with the submission of the magnet; the listing and the
    selection follow. *)
Lemma add_torrent_and_select_files_trace
    info_hash name file_idx media_type (w w' : World) r tr :
  add_torrent_and_select_files info_hash name file_idx media_type w = (r, w', tr) →
  ∃ o rest, tr = EvHttp (PostAddMagnet info_hash name) o :: rest ∧
            Forall (λ e, is_file_call e = true) rest.
Proof.
  rewrite add_torrent_and_select_files_run.
  destruct (network (PostAddMagnet info_hash name) w) as [[st body|] w1];
    [|intros [= <- <- <-]; do 2 eexists; split; [done|constructor]].
  cbv zeta. destruct (st =? 201)%Z;
    [|intros [= <- <- <-]; do 2 eexists; split; [done|constructor]].
  destruct (py_get body "id" JNull) as [tid|e];
    [|intros [= <- <- <-]; do 2 eexists; split; [done|constructor]].
  destruct (truthy tid);
    [|intros [= <- <- <-]; do 2 eexists; split; [done|constructor]].
  destruct (select_files_in_rd tid file_idx media_type w1)
    as [[rs w2] t2] eqn:Hsel.
  apply select_files_in_rd_trace in Hsel.
  destruct rs as [[|]|e]; intros [= <- <- <-]; by do 2 eexists.
Qed.

Lemma add_trace_readings info_hash name tr :
  (∃ o rest, tr = EvHttp (PostAddMagnet info_hash name) o :: rest ∧
             Forall (λ e, is_file_call e = true) rest) →
  checks tr = [] ∧ rejections tr = 0 ∧ accepted tr = [] ∧
  commits tr = [(info_hash, name)] ∧ acknowledgements tr = 0.
Proof.
  intros (o & rest & -> & Hrest).
  apply file_calls_only in Hrest as (H1 & H2 & H3 & H4 & H5 & _).
  change (EvHttp (PostAddMagnet info_hash name) o :: rest)
    with ([EvHttp (PostAddMagnet info_hash name) o] ++ rest).
  rewrite checks_app, rejections_app, accepted_app, commits_app,
    acknowledgements_app.
  by rewrite H1, H2, H3, H4, H5.
Qed.

(** With a string as the index the range test raises: the commit cannot
    succeed and asks for no selection. *)
Lemma string_index_commit info_hash name s media_type (w w' : World) r tr :
  add_torrent_and_select_files info_hash name (JStr s) media_type w = (r, w', tr) →
  commit_succeeded r = false ∧ selections tr = [] ∧
  ∀ torrent_id body files,
    EvHttp (GetTorrentInfo torrent_id) (Response 200 body) ∈ tr →
    py_get body "files" (JList []) = Ok files →
    r = Raise TypeError.
Proof.
  rewrite add_torrent_and_select_files_run.
  destruct (network (PostAddMagnet info_hash name) w) as [[st body|] w1];
    [|intros [= <- <- <-]; split_and!; [done|done|intros; trace_mem]].
  cbv zeta. destruct (st =? 201)%Z;
    [|intros [= <- <- <-]; split_and!; [done|done|intros; trace_mem]].
  destruct (py_get body "id" JNull) as [tid|e];
    [|intros [= <- <- <-]; split_and!; [done|done|intros; trace_mem]].
  destruct (truthy tid);
    [|intros [= <- <- <-]; split_and!; [done|done|intros; trace_mem]].
  rewrite select_files_in_rd_run.
  destruct (network (GetTorrentInfo tid) w1) as [[st1 body1|] w2];
    [|intros [= <- <- <-]; split_and!; [done|done|intros; trace_mem]].
  cbv zeta. destruct (st1 =? 200)%Z eqn:Hst1; simpl negb; cbv iota;
    [|intros [= <- <- <-]; split_and!; [done|done|intros; trace_mem; done]].
  destruct (py_get body1 "files" (JList [])) as [files|e] eqn:Hfiles;
    [|intros [= <- <- <-]; split_and!; [done|done|intros; trace_mem; congruence]].
  simpl. intros [= <- <- <-]. split_and!; [done|done|intros; by trace_mem].
Qed.

Lemma initial_state_ready :
  garbage_count initial_state < 5 ∧
  garbage_count initial_state ≤ size (checked_hashes initial_state).
Proof. simpl. lia. Qed.

Lemma commit_not_in_head info_hash name o tr :
  Forall (λ e, is_resolution e = true ∨ is_discovery e = true) tr →
  EvHttp (PostAddMagnet info_hash name) o ∉ tr.
Proof.
  intros Hall Hin. rewrite Forall_forall in Hall.
  by destruct (Hall _ Hin).
Qed.

Lemma commit_not_in_loop info_hash name o tr :
  Forall (λ e, is_check e = true) tr →
  EvHttp (PostAddMagnet info_hash name) o ∉ tr.
Proof.
  intros Hall Hin. rewrite Forall_forall in Hall. by apply Hall in Hin.
Qed.

(** C10.  On the poll path the commit is called with the string "1" as
    the file index: the range test on it raises for every listing, so the
    commit never answers success = true and never asks for a selection
    (once the listing is fetched the request ends in a TypeError), and the
    request is never acknowledged.  This holds for every media type, movie
    included. *)
Theorem poll_commit_never_succeeds :
  (∀ files, index_out_of_range (JStr "1") files = Raise TypeError)
  ∧
  (∀ request (w : World),
     acknowledgements (process_overseerr_request request w).2 = 0 ∧
     selections (process_overseerr_request request w).2 = [] ∧
     (process_overseerr_request request w).1.1 ≠ Ok Completed ∧
     ∀ info_hash name o,
       EvHttp (PostAddMagnet info_hash name) o
         ∈ (process_overseerr_request request w).2 →
       ∃ pre media_type (w1 : World),
         (process_overseerr_request request w).2
         = pre ++ (add_torrent_and_select_files info_hash name (JStr "1")
                     media_type w1).2 ∧
         commit_succeeded
           (add_torrent_and_select_files info_hash name (JStr "1")
              media_type w1).1.1 = false ∧
         ∀ torrent_id body files,
           EvHttp (GetTorrentInfo torrent_id) (Response 200 body)
             ∈ (process_overseerr_request request w).2 →
           py_get body "files" (JList []) = Ok files →
           (process_overseerr_request request w).1.1 = Ok (Errored TypeError)).
Proof.
  split; [done|]. intros request w. rewrite process_overseerr_request_run.
  destruct (process_body request w) as [[r w'] tr] eqn:Hrun.
  apply process_body_run in Hrun
    as (head & loop & tail & -> & Hhead & Hcases).
  pose proof (head_only _ Hhead) as (_ & _ & _ & _ & Hhsel & Hhack).
  assert (∀ outcome : result poll_outcome,
            (match outcome with
             | Ok o => (Ok o, w', head ++ loop ++ tail)
             | Raise e => (Ok (Errored e), w', head ++ loop ++ tail)
             end).2 = head ++ loop ++ tail) as Htr by (by intros [|]).
  destruct r as [outcome|e]; simpl.
  all: rewrite !acknowledgements_app, !selections_app, Hhsel, Hhack.
  all: destruct Hcases as [(-> & -> & Hn1 & Hn2 & Hn3)
         |(items & w1 & w2 & rl & media_id & media_type & Hloop & Hrl)].
  all: try (split_and!; [done|done|congruence|];
            intros info_hash name o Hin; exfalso;
            rewrite !app_nil_r in Hin;
            by apply (commit_not_in_head _ _ _ _ Hhead) in Hin).
  all: destruct initial_state_ready as [Hlt Hle].
  all: pose proof (rank_streams_facts _ _ _ _ _ _ Hloop Hlt Hle)
         as (Hchk & _).
  all: pose proof (check_only _ Hchk) as (_ & _ & Hlsel & Hlack).
  all: rewrite Hlsel, Hlack.
  all: destruct rl as [st|e'];
         [destruct (top_torrents (ranked_torrents st)) as [|best rest]|].
  all: try (destruct Hrl as [Hr ->]; split_and!; [done|done|congruence|];
            intros info_hash name o Hin; exfalso;
            rewrite !app_nil_r in Hin;
            apply elem_of_app in Hin as [Hin|Hin];
            [by apply (commit_not_in_head _ _ _ _ Hhead) in Hin
            |by apply (commit_not_in_loop _ _ _ _ Hchk) in Hin]).
  all: destruct Hrl as (ra & w3 & t_add & t_ack & Hadd & -> & Hack).
  all: pose proof (string_index_commit _ _ _ _ _ _ _ _ Hadd)
         as (Hfail & Hsel & Htype).
  all: rewrite Hfail in Hack; destruct Hack as (-> & Hr & Hraise).
  all: pose proof (add_torrent_and_select_files_trace _ _ _ _ _ _ _ _ Hadd)
         as Hshape.
  all: pose proof (add_trace_readings _ _ _ Hshape) as (_ & _ & _ & _ & Haack).
  all: rewrite !app_nil_r, Hsel, Haack.
  all: split_and!; [done|done|destruct Hr as [|[? ?]]; congruence|].
  all: intros info_hash name o Hin.
  all: apply elem_of_app in Hin as [Hin|Hin];
         [by apply (commit_not_in_head _ _ _ _ Hhead) in Hin|].
  all: apply elem_of_app in Hin as [Hin|Hin];
         [by apply (commit_not_in_loop _ _ _ _ Hchk) in Hin|].
  all: destruct Hshape as (o' & rest' & -> & Hfiles).
  all: apply elem_of_cons in Hin as [Hin|Hin];
         [|rewrite Forall_forall in Hfiles; by apply Hfiles in Hin].
  all: injection Hin as -> -> ->.
  all: exists (head ++ loop), media_type, w2.
  all: rewrite Hadd; simpl; rewrite Hfail.
  all: split_and!; [by rewrite app_assoc|done|].
  all: intros tid body files Hin Hf.
  all: apply elem_of_app in Hin as [Hin|Hin];
         [rewrite Forall_forall in Hhead; by destruct (Hhead _ Hin)|].
  all: apply elem_of_app in Hin as [Hin|Hin];
         [rewrite Forall_forall in Hchk; by apply Hchk in Hin|].
  all: specialize (Htype _ _ _ Hin Hf); subst ra.
  all: specialize (Hraise _ eq_refl); congruence.
Qed.

(** The readings of a poll run: [front] holds the calls up to the end of
    the candidate loop, [back] those of the commit and acknowledgement. *)
Lemma poll_run_shape request (w w' : World) r tr :
  process_body request w = (r, w', tr) →
  ∃ front back,
    tr = front ++ back ∧
    (commits front = [] ∧ acknowledgements front = 0 ∧ selections front = []) ∧
    (checks back = [] ∧ rejections back = 0 ∧ accepted back = []) ∧
    NoDup (checks front) ∧
    length (accepted front) + rejections front ≤ length (checks front) ∧
    rejections front ≤ 5 ∧
    (∀ t, t ∈ accepted front → eligible_in front t) ∧
    (∀ pre post, front = pre ++ post → rejections pre = 5 →
       post = [] ∧ selection_made front back r) ∧
    ((back = [] ∧ r ≠ Ok NoValidTorrents ∧ r ≠ Ok AddFailed ∧ r ≠ Ok Completed)
     ∨ selection_made front back r).
Proof.
  intros Hrun. apply process_body_run in Hrun
    as (head & loop & tail & -> & Hhead & Hcases).
  pose proof (head_only _ Hhead) as (Hh1 & Hh2 & Hh3 & Hh4 & Hh5 & Hh6).
  exists (head ++ loop), tail. rewrite app_assoc. split; [done|].
  rewrite commits_app, acknowledgements_app, selections_app, checks_app,
    accepted_app, rejections_app, Hh1, Hh2, Hh3, Hh4, Hh5, Hh6. simpl.
  destruct Hcases as [(-> & -> & Hn1 & Hn2 & Hn3)
    |(items & w1 & w2 & rl & media_id & media_type & Hloop & Hrl)].
  { split_and!; try done; try (unfold rejections; simpl; lia);
      try apply NoDup_nil_2.
    - intros ? Hin. by apply elem_of_nil in Hin.
    - intros pre post Heq Hpre. exfalso.
      rewrite app_nil_r in Heq. subst head.
      rewrite rejections_app in Hh2. lia.
    - by left. }
  destruct initial_state_ready as [Hlt Hle].
  pose proof (rank_streams_facts _ _ _ _ _ _ Hloop Hlt Hle)
    as (Hchk & Hl2 & Hl3 & Hl4 & Hl5 & Hl6 & Hl7 & Hl8).
  pose proof (check_only _ Hchk) as (_ & Hc2 & Hc3 & Hc4).
  simpl in Hl3.
  assert ((∃ st, rl = Ok st) → selection_made (head ++ loop) tail r) as Hdone.
  { intros [st ->]. unfold selection_made.
    destruct (Hl8 st eq_refl) as (Hranked & _). simpl in Hranked.
    rewrite accepted_app, Hh3. simpl. rewrite <- Hranked.
    destruct (top_torrents (ranked_torrents st)) as [|best rest];
      [by destruct Hrl|].
    destruct Hrl as (ra & w3 & t_add & t_ack & Hadd & -> & Hack).
    apply add_torrent_and_select_files_trace in Hadd as Hshape.
    destruct Hshape as (o & rest' & -> & Hfiles).
    exists o, (rest' ++ t_ack). split; [done|].
    apply file_calls_only in Hfiles as (_ & _ & _ & Hf4 & _).
    rewrite commits_app, Hf4. simpl.
    destruct (commit_succeeded ra).
    - destruct Hack as [-> [o' ->]]. done.
    - destruct Hack as (-> & [->|[e ->]] & _); done. }
  assert (checks tail = [] ∧ rejections tail = 0 ∧ accepted tail = []) as Htail.
  { destruct rl as [st|e]; [|by destruct Hrl as [_ ->]].
    destruct (top_torrents (ranked_torrents st)) as [|best rest];
      [by destruct Hrl as [_ ->]|].
    destruct Hrl as (ra & w3 & t_add & t_ack & Hadd & -> & Hack).
    apply add_torrent_and_select_files_trace in Hadd.
    apply add_trace_readings in Hadd as (Ha1 & Ha2 & Ha3 & _).
    rewrite checks_app, rejections_app, accepted_app, Ha1, Ha2, Ha3. simpl.
    destruct (commit_succeeded ra).
    - by destruct Hack as [_ [o' ->]].
    - by destruct Hack as (-> & _). }
  destruct Htail as (Ht1 & Ht2 & Ht3).
  split_and!; try done; try lia.
  - intros t Hin. apply Hl6 in Hin.
    apply (eligible_in_app head loop []) in Hin.
    by rewrite app_nil_r in Hin.
  - intros pre post Heq Hpre.
    apply app_eq_app in Heq as [k [[-> ->]|[-> ->]]].
    + rewrite rejections_app in Hh2. lia.
    + rewrite rejections_app, Hh2 in Hpre.
      destruct (Hl7 k post eq_refl Hpre) as [-> Hok]. split; [done|].
      by apply Hdone.
  - destruct rl as [st|e].
    + right. apply Hdone. by eexists.
    + left. destruct Hrl as [-> ->]. done.
Qed.

(** *** The sort and the choice of the best torrent *)

Lemma insert_by_rank_split t l :
  ∃ before after,
    l = before ++ after ∧ insert_by_rank t l = before ++ t :: after ∧
    (∀ u, u ∈ before → (rank t < rank u)%Z) ∧
    match after with
    | [] => True
    | u :: _ => (rank u ≤ rank t)%Z
    end.
Proof.
  induction l as [|u l (before & after & -> & Hins & Hbefore & Hafter)]; simpl.
  - exists [], []. split_and!; try done. intros u Hin. by apply elem_of_nil in Hin.
  - destruct (rank t <? rank u)%Z eqn:Hlt.
    + apply Z.ltb_lt in Hlt. exists (u :: before), after.
      rewrite Hins. split_and!; try done.
      intros u' [->|Hin]%elem_of_cons; [done|by apply Hbefore].
    + apply Z.ltb_ge in Hlt. exists [], (u :: before ++ after).
      split_and!; try done. intros u' Hin. by apply elem_of_nil in Hin.
Qed.

Lemma sorted_torrents_permutation ranked :
  Permutation (sorted_torrents ranked) ranked.
Proof.
  induction ranked as [|t ranked IH]; simpl; [done|].
  destruct (insert_by_rank_split t (sorted_torrents ranked))
    as (before & after & Hl & -> & _).
  rewrite <- Permutation_middle. constructor. by rewrite <- Hl.
Qed.

Lemma insert_by_rank_sorted t l :
  StronglySorted (λ a b, (rank b ≤ rank a)%Z) l →
  StronglySorted (λ a b, (rank b ≤ rank a)%Z) (insert_by_rank t l).
Proof.
  induction 1 as [|u l Hsorted IH Hall]; simpl.
  - repeat constructor.
  - destruct (rank t <? rank u)%Z eqn:Hlt.
    + apply Z.ltb_lt in Hlt. constructor; [done|].
      destruct (insert_by_rank_split t l) as (before & after & -> & -> & _).
      apply Forall_app in Hall as [Hb Ha].
      apply Forall_app. split; [done|]. constructor; [lia|done].
    + apply Z.ltb_ge in Hlt. constructor; [by constructor|].
      constructor; [done|]. eapply Forall_impl; [exact Hall|].
      simpl. intros; lia.
Qed.

Lemma sorted_torrents_sorted ranked :
  StronglySorted (λ a b, (rank b ≤ rank a)%Z) (sorted_torrents ranked).
Proof.
  induction ranked as [|t ranked IH]; simpl; [constructor|].
  by apply insert_by_rank_sorted.
Qed.

Lemma filter_rank_none (k : Z) (l : list Torrent) :
  (∀ u, u ∈ l → rank u ≠ k) → filter (λ t, rank t = k) l = [].
Proof.
  induction l as [|u l IH]; intros Hall; [done|].
  rewrite filter_cons_False by (apply Hall; by left).
  apply IH. intros u' Hin. apply Hall. by right.
Qed.

(** Stability: torrents of one rank keep the order of [ranked_torrents]. *)
Lemma sorted_torrents_stable ranked (k : Z) :
  filter (λ t, rank t = k) (sorted_torrents ranked)
  = filter (λ t, rank t = k) ranked.
Proof.
  induction ranked as [|t ranked IH]; simpl; [done|].
  destruct (insert_by_rank_split t (sorted_torrents ranked))
    as (before & after & Hl & -> & Hbefore & _).
  rewrite filter_cons, <- IH, Hl, !filter_app, filter_cons.
  destruct (decide (rank t = k)) as [Hk|Hk]; [|done].
  assert (filter (λ t0, rank t0 = k) before = []) as ->; [|done].
  apply filter_rank_none. intros u Hin Hu. apply Hbefore in Hin. lia.
Qed.

(** The head of the sorted list is the earliest torrent of the highest
    rank. *)
Lemma sorted_torrents_head ranked : ∀ best rest,
  sorted_torrents ranked = best :: rest →
  ∃ earlier later,
    ranked = earlier ++ best :: later ∧
    (∀ t, t ∈ earlier → (rank t < rank best)%Z) ∧
    (∀ t, t ∈ later → (rank t ≤ rank best)%Z).
Proof.
  induction ranked as [|x ranked IH]; intros best rest; simpl; [done|].
  destruct (sorted_torrents ranked) as [|b r] eqn:Hsorted; simpl.
  - intros [= <- <-].
    pose proof (sorted_torrents_permutation ranked) as Hperm.
    rewrite Hsorted in Hperm. apply Permutation_nil in Hperm as ->.
    exists [], []. split_and!; [done| |]; intros t Hin; by apply elem_of_nil in Hin.
  - destruct (IH b r eq_refl) as (earlier & later & -> & Hearlier & Hlater).
    destruct (rank x <? rank b)%Z eqn:Hlt.
    + apply Z.ltb_lt in Hlt. intros [= <- <-].
      exists (x :: earlier), later. split_and!; [done| |done].
      intros t [->|Hin]%elem_of_cons; [done|by apply Hearlier].
    + apply Z.ltb_ge in Hlt. intros [= <- <-].
      exists [], (earlier ++ b :: later). split_and!; [done| |].
      * intros t Hin. by apply elem_of_nil in Hin.
      * intros t [Hin|[->|Hin]%elem_of_cons]%elem_of_app.
        -- apply Hearlier in Hin. lia.
        -- done.
        -- apply Hlater in Hin. lia.
Qed.

Lemma top_torrents_head ranked best rest :
  top_torrents ranked = best :: rest →
  ∃ rest', sorted_torrents ranked = best :: rest'.
Proof.
  unfold top_torrents. destruct (sorted_torrents ranked) as [|b r]; [done|].
  simpl. intros [= -> _]. by eexists.
Qed.

(** *** The poll run as a whole *)

Lemma process_overseerr_request_body request (w w' : World) r tr :
  process_body request w = (r, w', tr) →
  (process_overseerr_request request w).2 = tr ∧
  (process_overseerr_request request w).1.1
  = Ok (match r with Ok outcome => outcome | Raise e => Errored e end).
Proof.
  intros Hbody. rewrite process_overseerr_request_run, Hbody. by destruct r.
Qed.

(** C2 (amended).  In a poll run no hash is checked twice, and the loop
    stops with the check at which the fifth ranking rejection falls: at
    most 5 rejected hashes are ever checked and nothing is checked after
    the fifth rejection.  Hashes found unavailable or accepted do not count
    towards the cap of 5, so the number of checked hashes is bounded by 5
    only when every checked hash is rejected. *)
Theorem poll_checks_stop_at_the_fifth_rejection request (w : World) :
  NoDup (checks (process_overseerr_request request w).2) ∧
  rejections (process_overseerr_request request w).2 ≤ 5 ∧
  length (accepted (process_overseerr_request request w).2)
    + rejections (process_overseerr_request request w).2
    ≤ length (checks (process_overseerr_request request w).2) ∧
  (∀ pre post,
     (process_overseerr_request request w).2 = pre ++ post →
     rejections pre = 5 → checks post = []) ∧
  (rejections (process_overseerr_request request w).2
     = length (checks (process_overseerr_request request w).2) →
   length (checks (process_overseerr_request request w).2) ≤ 5).
Proof.
  destruct (process_body request w) as [[r w'] tr] eqn:Hbody.
  destruct (process_overseerr_request_body _ _ _ _ _ Hbody) as [-> _].
  apply poll_run_shape in Hbody
    as (front & back & -> & _ & (Hb1 & Hb2 & Hb3) & Hnd & Hle & Hfive & _
        & Hstop & _).
  rewrite checks_app, accepted_app, rejections_app, Hb1, Hb2, Hb3, !app_nil_r.
  split_and!; [done|lia|lia| |lia].
  intros pre post Heq Hpre.
  apply app_eq_app in Heq as [k [[-> ->]|[-> ->]]].
  - destruct (Hstop pre k eq_refl Hpre) as [-> _]. done.
  - rewrite checks_app in Hb1. by apply app_eq_nil in Hb1 as [_ ?].
Qed.

(** C3.  When the first five hashes checked in a poll run have all been
    rejected by the ranking, nothing is checked after them, and the request
    ends at "No valid torrents found after ranking": no commit call and no
    acknowledgement. *)
Theorem five_rejections_end_the_request request (w : World) pre post :
  (process_overseerr_request request w).2 = pre ++ post →
  length (checks pre) = 5 →
  rejections pre = 5 →
  checks post = [] ∧
  length (checks (process_overseerr_request request w).2) = 5 ∧
  (process_overseerr_request request w).1.1 = Ok NoValidTorrents ∧
  commits (process_overseerr_request request w).2 = [] ∧
  acknowledgements (process_overseerr_request request w).2 = 0.
Proof.
  destruct (process_body request w) as [[r w'] tr] eqn:Hbody.
  destruct (process_overseerr_request_body _ _ _ _ _ Hbody) as [-> ->].
  apply poll_run_shape in Hbody
    as (front & back & -> & (Hf1 & Hf2 & Hf3) & (Hb1 & Hb2 & Hb3) & Hnd & Hle
        & Hfive & _ & Hstop & _).
  intros Heq Hchecks Hpre.
  assert (front = pre ++ [] ∨ ∃ k, pre = front ++ k ∧ back = k ++ post) as Hsplit.
  { apply app_eq_app in Heq as [k [[-> ->]|[-> ->]]].
    - left. destruct (Hstop pre k eq_refl Hpre) as [-> _]. done.
    - right. by exists k. }
  assert (rejections front = 5 ∧ length (checks front) = 5 ∧ checks post = [])
    as (Hrej & Hlen & Hpost).
  { destruct Hsplit as [->|(k & -> & ->)].
    - rewrite app_nil_r in *. split_and!; [done|done|].
      apply app_inv_head in Heq. by subst post.
    - rewrite checks_app in Hb1. apply app_eq_nil in Hb1 as [Hk1 Hk2].
      rewrite rejections_app in Hb2.
      rewrite checks_app, Hk1, app_nil_r in Hchecks.
      rewrite rejections_app in Hpre. split_and!; [lia|done|done]. }
  destruct (Hstop front [] (eq_sym (app_nil_r _)) Hrej) as [_ Hmade].
  unfold selection_made in Hmade.
  assert (accepted front = []) as Hacc.
  { destruct (accepted front); [done|]. simpl in Hle. lia. }
  rewrite Hacc in Hmade. destruct Hmade as [-> ->].
  rewrite !app_nil_r. by split_and!.
Qed.

(** The commit of a poll run, read off its trace. *)
Lemma poll_commit request (w w' : World) r tr :
  process_body request w = (r, w', tr) →
  (∀ t, t ∈ accepted tr → eligible_in tr t) ∧
  ((commits tr = [] ∧
    r ≠ Ok NoValidTorrents ∧ r ≠ Ok AddFailed ∧ r ≠ Ok Completed)
   ∨ match top_torrents (accepted tr) with
     | [] => commits tr = [] ∧ r = Ok NoValidTorrents
     | best_torrent :: _ =>
         commits tr = [(infohash best_torrent, parsed_title best_torrent)]
     end).
Proof.
  intros Hbody. apply poll_run_shape in Hbody
    as (front & back & -> & (Hf1 & Hf2 & Hf3) & (Hb1 & Hb2 & Hb3) & _ & _ & _
        & Helig & _ & Hcases).
  rewrite accepted_app, commits_app, Hb3, Hf1, app_nil_r. simpl. split.
  - intros t Hin. apply Helig in Hin.
    apply (eligible_in_app [] front back) in Hin. done.
  - destruct Hcases as [(-> & Hn1 & Hn2 & Hn3)|Hmade]; [by left|right].
    unfold selection_made in Hmade.
    destruct (top_torrents (accepted front)) as [|best rest].
    + by destruct Hmade as [-> ->].
    + destruct Hmade as (o & rest' & -> & Hrest & _). simpl. by rewrite Hrest.
Qed.

Lemma top_torrents_of_the_example (acc : list Torrent) :
  map rank acc = [10; 30; 20; 5; 25]%Z →
  map rank (top_torrents acc) = [30; 25; 20; 10; 5]%Z ∧
  ∃ best rest, top_torrents acc = best :: rest ∧
               acc !! 1 = Some best ∧ rank best = 30%Z.
Proof.
  destruct acc as [|t1 [|t2 [|t3 [|t4 [|t5 [|t6 acc]]]]]]; try done.
  intros [= H1 H2 H3 H4 H5].
  unfold top_torrents, sorted_torrents.
  repeat (progress (simpl; rewrite ?H1, ?H2, ?H3, ?H4, ?H5)).
  split; [done|].
  exists t2, [t5; t3; t1; t4]. by split_and!.
Qed.

(** A poll run that gets through the resolution and the discovery, and
    whose candidate loop comes to its end with something accepted, commits
    the head of [top_torrents] over what the loop accepted: the commit
    stage is called for it right after the loop, and for nothing else. *)
Lemma poll_run_commits_the_best
    request (w w2 w3 : World) media_type items head st loop best rest :
  reaches_the_loop network request w media_type items head w2 →
  rank_streams items initial_state w2 = (Ok st, w3, loop) →
  top_torrents (accepted loop) = best :: rest →
  (process_overseerr_request request w).2
  = head ++ loop
    ++ (add_torrent_and_select_files (infohash best) (parsed_title best)
          (JStr "1") media_type w3).2 ∧
  accepted (process_overseerr_request request w).2 = accepted loop ∧
  commits (process_overseerr_request request w).2
  = [(infohash best, parsed_title best)].
Proof.
  intros (media & media_id & tmdb_id & imdb_id & w1 & t1 & results & t2 & streams
          & Hm & Hid & Htm & Hmt & Himdb & Hti & Hdisc & Htr & Hs & Hts & Hit
          & ->) Hloop Htop.
  pose proof Hloop as Hfacts.
  apply rank_streams_facts in Hfacts
    as (Hchecks & _ & _ & _ & _ & _ & _ & Hst); [|simpl; lia|simpl; lia].
  destruct (Hst st eq_refl) as (Hranked & _). simpl in Hranked.
  pose proof Himdb as Hhead1. apply trakt_attempts_run in Hhead1 as [Hhead1 _].
  pose proof Hdisc as Hhead2. apply torrentio_attempts_run in Hhead2.
  assert (Forall (λ e, is_resolution e = true ∨ is_discovery e = true) (t1 ++ t2))
    as Hhead.
  { apply Forall_app. split.
    - eapply Forall_impl; [exact Hhead1|]. intros ? [o ->]. by left.
    - eapply Forall_impl; [exact Hhead2|]. intros ? [o ->]. by right. }
  apply head_only in Hhead as (_ & _ & Hah & Hch & _).
  pose proof (check_only _ Hchecks) as (_ & Hcl & _).
  destruct (add_torrent_and_select_files (infohash best) (parsed_title best)
              (JStr "1") media_type w3) as [[ra w4] t_add] eqn:Hadd.
  pose proof Hadd as Hshape.
  apply add_torrent_and_select_files_trace, add_trace_readings in Hshape
    as (_ & _ & Haa & Hca & _).
  pose proof (string_index_commit _ _ _ _ _ _ _ _ Hadd) as (Hfailed & _).
  assert ((process_overseerr_request request w).2 = (t1 ++ t2) ++ loop ++ t_add)
    as Htrace.
  { destruct (process_body request w) as [[r w'] tr] eqn:Hbody.
    destruct (process_overseerr_request_body _ _ _ _ _ Hbody) as [-> _].
    revert Hbody. unfold process_body.
    rewrite bind_lift_run, Hm, bind_lift_run, Hid, bind_lift_run, Htm,
      bind_lift_run, Hmt.
    intros Hrun.
    apply bind_run in Hrun
      as [(imdb' & w1' & t1' & t2' & Himdb' & Hrun & ->)|(e & Himdb' & _)];
      rewrite Himdb in Himdb'; [|done].
    injection Himdb' as <- <- <-. rewrite Hti in Hrun. simpl in Hrun.
    apply bind_run in Hrun
      as [(results' & w2' & t3' & t4' & Hdisc' & Hrun & ->)|(e & Hdisc' & _)];
      rewrite Hdisc in Hdisc'; [|done].
    injection Hdisc' as <- <- <-. rewrite Htr in Hrun. simpl in Hrun.
    rewrite bind_lift_run, Hs, Hts in Hrun. simpl in Hrun.
    rewrite bind_lift_run, Hit in Hrun.
    apply bind_run in Hrun
      as [(st' & w3' & t5' & t6' & Hloop' & Hrun & ->)|(e & Hloop' & _)];
      rewrite Hloop in Hloop'; [|done].
    injection Hloop' as <- <- <-. rewrite Hranked, Htop in Hrun.
    apply bind_run in Hrun
      as [(result & w4' & t7 & t8 & Hadd' & Hrun & ->)|(e & Hadd' & _)];
      rewrite Hadd in Hadd'; injection Hadd' as -> <- <-;
      [|by rewrite app_assoc].
    simpl in Hfailed. rewrite bind_lift_run in Hrun.
    destruct (py_get result "success" JNull) as [flag|e].
    - rewrite Hfailed in Hrun. injection Hrun as <- <- <-.
      by rewrite app_nil_r, app_assoc.
    - injection Hrun as <- <- <-. by rewrite app_nil_r, app_assoc. }
  rewrite Htrace. split; [done|].
  rewrite accepted_app, (accepted_app loop), commits_app, (commits_app loop),
    Hah, Hch, Hcl, Haa, Hca.
  split; [by rewrite app_nil_r|done].
Qed.

(** C1.  [sorted_torrents] is a stable sort by descending rank, of which
    [top_torrents] keeps the first 5 at most; its head is the earliest of
    the torrents of the highest rank.  In a poll run, every accepted
    torrent was found available and accept-flagged, and either the run
    ended before the selection (nothing discovered, or an exception in the
    loop) with no commit, or the selection was made over the torrents
    accepted in the run: with none nothing is committed, otherwise exactly
    the head of [top_torrents] is.  A run that gets through the resolution
    and the discovery and whose candidate loop comes to its end with
    something accepted does commit that head: the commit stage is called
    for it right after the loop, and it is the only commit.  For accepted
    torrents of ranks 10, 30, 20, 5, 25 the retained ranks are
    30, 25, 20, 10, 5, any commit is of the torrent of rank 30, and such
    a run commits it. *)
Theorem poll_commits_the_best_of_the_batch :
  (∀ ranked,
     Permutation (sorted_torrents ranked) ranked ∧
     StronglySorted (λ a b, (rank b ≤ rank a)%Z) (sorted_torrents ranked) ∧
     (∀ k : Z, filter (λ t, rank t = k) (sorted_torrents ranked)
               = filter (λ t, rank t = k) ranked) ∧
     top_torrents ranked = take 5 (sorted_torrents ranked) ∧
     length (top_torrents ranked) ≤ 5)
  ∧
  (∀ ranked best rest,
     top_torrents ranked = best :: rest →
     ∃ earlier later,
       ranked = earlier ++ best :: later ∧
       (∀ t, t ∈ earlier → (rank t < rank best)%Z) ∧
       (∀ t, t ∈ later → (rank t ≤ rank best)%Z))
  ∧
  (∀ request (w : World),
     (∀ t, t ∈ accepted (process_overseerr_request request w).2 →
           eligible_in (process_overseerr_request request w).2 t) ∧
     ((commits (process_overseerr_request request w).2 = [] ∧
       (process_overseerr_request request w).1.1 ≠ Ok NoValidTorrents ∧
       (process_overseerr_request request w).1.1 ≠ Ok AddFailed ∧
       (process_overseerr_request request w).1.1 ≠ Ok Completed)
      ∨ match top_torrents (accepted (process_overseerr_request request w).2) with
        | [] =>
            commits (process_overseerr_request request w).2 = [] ∧
            (process_overseerr_request request w).1.1 = Ok NoValidTorrents
        | best_torrent :: _ =>
            commits (process_overseerr_request request w).2
            = [(infohash best_torrent, parsed_title best_torrent)]
        end))
  ∧
  (∀ request (w : World),
     map rank (accepted (process_overseerr_request request w).2)
       = [10; 30; 20; 5; 25]%Z →
     map rank (top_torrents (accepted (process_overseerr_request request w).2))
       = [30; 25; 20; 10; 5]%Z ∧
     ∀ c, c ∈ commits (process_overseerr_request request w).2 →
       ∃ best,
         accepted (process_overseerr_request request w).2 !! 1 = Some best ∧
         rank best = 30%Z ∧ c = (infohash best, parsed_title best))
  ∧
  (∀ request (w w2 w3 : World) media_type items head st loop best rest,
     reaches_the_loop network request w media_type items head w2 →
     rank_streams items initial_state w2 = (Ok st, w3, loop) →
     top_torrents (accepted loop) = best :: rest →
     (process_overseerr_request request w).2
     = head ++ loop
       ++ (add_torrent_and_select_files (infohash best) (parsed_title best)
             (JStr "1") media_type w3).2 ∧
     accepted (process_overseerr_request request w).2 = accepted loop ∧
     commits (process_overseerr_request request w).2
     = [(infohash best, parsed_title best)])
  ∧
  (∀ request (w w2 w3 : World) media_type items head st loop,
     reaches_the_loop network request w media_type items head w2 →
     rank_streams items initial_state w2 = (Ok st, w3, loop) →
     map rank (accepted loop) = [10; 30; 20; 5; 25]%Z →
     map rank (top_torrents (accepted loop)) = [30; 25; 20; 10; 5]%Z ∧
     ∃ best,
       accepted loop !! 1 = Some best ∧ rank best = 30%Z ∧
       commits (process_overseerr_request request w).2
       = [(infohash best, parsed_title best)]).
Proof.
  split_and!.
  - intros ranked. split_and!.
    + apply sorted_torrents_permutation.
    + apply sorted_torrents_sorted.
    + apply sorted_torrents_stable.
    + done.
    + unfold top_torrents. rewrite length_take. lia.
  - intros ranked best rest Htop.
    apply top_torrents_head in Htop as [rest' Hsorted].
    by eapply sorted_torrents_head.
  - intros request w.
    destruct (process_body request w) as [[r w'] tr] eqn:Hbody.
    destruct (process_overseerr_request_body _ _ _ _ _ Hbody) as [-> ->].
    apply poll_commit in Hbody as [Helig Hcommit]. split; [done|].
    destruct Hcommit as [(Hc & Hn1 & Hn2 & Hn3)|Hmade].
    + left. destruct r; split_and!; congruence.
    + right. destruct (top_torrents (accepted tr)); [|done].
      by destruct Hmade as [-> ->].
  - intros request w.
    destruct (process_body request w) as [[r w'] tr] eqn:Hbody.
    destruct (process_overseerr_request_body _ _ _ _ _ Hbody) as [-> _].
    intros Hranks.
    destruct (top_torrents_of_the_example _ Hranks)
      as (Htop & best & rest & Hbest & Hsecond & Hrank).
    split; [done|]. intros c Hin.
    apply poll_commit in Hbody as [_ [(Hc & _)|Hmade]].
    + rewrite Hc in Hin. by apply elem_of_nil in Hin.
    + rewrite Hbest in Hmade. rewrite Hmade in Hin.
      apply list_elem_of_singleton in Hin as ->. by exists best.
  - intros request w w2 w3 media_type items head st loop best rest.
    apply poll_run_commits_the_best.
  - intros request w w2 w3 media_type items head st loop Hreach Hloop Hranks.
    destruct (top_torrents_of_the_example _ Hranks)
      as (Htop & best & rest & Hbest & Hsecond & Hrank).
    split; [done|]. exists best. split_and!; [done|done|].
    by destruct (poll_run_commits_the_best _ _ _ _ _ _ _ _ _ _ _
                   Hreach Hloop Hbest) as (_ & _ & ?).
Qed.

(** *** Eligibility of what is committed, both paths *)

Lemma commits_nil_no_commit tr info_hash name o :
  commits tr = [] → EvHttp (PostAddMagnet info_hash name) o ∉ tr.
Proof.
  unfold commits. induction tr as [|e tr IH]; intros Hc Hin.
  - by apply elem_of_nil in Hin.
  - simpl in Hc. apply elem_of_cons in Hin as [<-|Hin]; [done|].
    destruct (committed e); [done|]. by apply IH.
Qed.

Lemma commits_eligible_none tr : commits tr = [] → commits_eligible tr.
Proof.
  intros Hc pre info_hash name o post ->. exfalso.
  apply (commits_nil_no_commit _ info_hash name o Hc).
  apply elem_of_app. right. by left.
Qed.

Lemma split_at_event (e : event) a b pre post :
  a ++ b = pre ++ e :: post →
  (∃ post1, a = pre ++ e :: post1 ∧ post = post1 ++ b)
  ∨ (∃ pre2, pre = a ++ pre2 ∧ b = pre2 ++ e :: post).
Proof.
  intros Heq. apply app_eq_app in Heq as [k [[-> Hk]|[-> ->]]].
  - destruct k as [|x k]; simpl in Hk.
    + right. exists []. rewrite !app_nil_r. by split.
    + injection Hk as He Hp. subst x post. left. by exists k.
  - right. by exists k.
Qed.

Lemma commits_eligible_app tr1 tr2 :
  commits_eligible tr1 → commits_eligible tr2 → commits_eligible (tr1 ++ tr2).
Proof.
  intros H1 H2 pre info_hash name o post Heq.
  apply split_at_event in Heq as [(post1 & -> & ->)|(pre2 & -> & ->)].
  - by eapply H1.
  - destruct (H2 _ _ _ _ _ eq_refl) as (t & Helig & ? & ?).
    exists t. split; [|done].
    apply (eligible_in_app tr1 pre2 []) in Helig. by rewrite app_nil_r in Helig.
Qed.

Lemma commits_eligible_single a b t o :
  commits a = [] → commits b = [] → eligible_in a t →
  commits_eligible
    (a ++ EvHttp (PostAddMagnet (infohash t) (parsed_title t)) o :: b).
Proof.
  intros Ha Hb Helig pre info_hash name o' post Heq.
  apply split_at_event in Heq as [(post1 & -> & _)|(pre2 & -> & Heq)].
  - exfalso. apply (commits_nil_no_commit _ info_hash name o' Ha).
    apply elem_of_app. right. by left.
  - destruct pre2 as [|x pre2]; simpl in Heq.
    + injection Heq as <- <- <- <-. exists t. by rewrite app_nil_r.
    + injection Heq as _ ->. exfalso.
      apply (commits_nil_no_commit _ info_hash name o' Hb).
      apply elem_of_app. right. by left.
Qed.

Lemma top_torrents_subset ranked t : t ∈ top_torrents ranked → t ∈ ranked.
Proof.
  unfold top_torrents. intros Hin%elem_of_take.
  destruct Hin as (i & Hi & _). apply list_elem_of_lookup_2 in Hi.
  by rewrite (sorted_torrents_permutation ranked) in Hi.
Qed.

Lemma poll_commits_eligible request (w w' : World) r tr :
  process_body request w = (r, w', tr) → commits_eligible tr.
Proof.
  intros Hbody. apply poll_run_shape in Hbody
    as (front & back & -> & (Hf1 & _) & _ & _ & _ & _ & Helig & _ & Hcases).
  destruct Hcases as [(-> & _)|Hmade].
  { rewrite app_nil_r. by apply commits_eligible_none. }
  unfold selection_made in Hmade.
  destruct (top_torrents (accepted front)) as [|best rest] eqn:Htop.
  { destruct Hmade as [-> _]. rewrite app_nil_r. by apply commits_eligible_none. }
  destruct Hmade as (o & rest' & -> & Hrest & _).
  apply commits_eligible_single; [done|done|].
  apply Helig. apply top_torrents_subset. rewrite Htop. by left.
Qed.

(** The calls of the [try] block of the push loop: the ranking, and after
    an accepting verdict the commit of that torrent. *)
Lemma rank_and_add_trace title h file_idx media_type (w w' : World) r tr :
  rank_and_add title h file_idx media_type w = (r, w', tr) →
  tr = [EvRank title h (rtn_rank title h)]
  ∨ ∃ t o rest,
      rtn_rank title h = Ok t ∧ fetch t = true ∧
      tr = EvRank title h (Ok t)
           :: EvHttp (PostAddMagnet (infohash t) (parsed_title t)) o :: rest ∧
      commits rest = [].
Proof.
  unfold rank_and_add. intros Hrun.
  assert (∀ (m : @M World (option reply)) (w0 w0' : World) r0 tr0,
            try_except m GarbageTorrent (ret None) w0 = (r0, w0', tr0) →
            ∃ r1 w1, m w0 = (r1, w1, tr0)) as Htry.
  { intros m w0 w0' r0 tr0 H.
    apply try_except_run in H as [[H _]|(w1 & t1 & t2 & H & Hh & ->)].
    - by do 2 eexists.
    - injection Hh as <- <- <-. rewrite app_nil_r. by do 2 eexists. }
  apply Htry in Hrun as (r1 & w1 & Hrun). clear Htry.
  unfold bind at 1, rtn_rank_call in Hrun.
  destruct (rtn_rank title h) as [t|e] eqn:Hrank;
    [|injection Hrun as <- <- <-; by left].
  destruct (fetch t) eqn:Hfetch;
    [|injection Hrun as <- <- <-; by left].
  destruct (bind (add_torrent_and_select_files (infohash t) (parsed_title t)
                    file_idx media_type) _ w) as [[r2 w2] t2] eqn:Hadd.
  injection Hrun as <- <- <-. right.
  assert (∃ o rest, t2 = EvHttp (PostAddMagnet (infohash t) (parsed_title t)) o
                         :: rest ∧ commits rest = []) as (o & rest & -> & Hrest).
  { apply bind_run in Hadd
      as [(result & w3 & t3 & t4 & Hadd & Hk & ->)|(e & Hadd & ->)];
      apply add_torrent_and_select_files_trace in Hadd
        as (o & rest & -> & Hfiles);
      apply file_calls_only in Hfiles as (_ & _ & _ & Hf4 & _).
    - exists o, (rest ++ t4). split; [done|].
      rewrite commits_app, Hf4. simpl.
      rewrite bind_lift_run in Hk.
      destruct (py_get result "success" JNull) as [flag|e];
        [destruct (truthy flag)|]; by injection Hk as <- <- <-.
    - by exists o, rest. }
  by exists t, o, rest.
Qed.

Lemma push_streams_commits_eligible media_type streams : ∀ (w w' : World) r tr,
  push_streams media_type streams w = (r, w', tr) → commits_eligible tr.
Proof.
  induction streams as [|stream rest IH]; intros w w' r tr.
  - intros [= <- <- <-]. by apply commits_eligible_none.
  - simpl. rewrite bind_lift_run.
    destruct (py_get stream "infoHash" JNull) as [info_hash|e];
      [|intros [= <- <- <-]; by apply commits_eligible_none].
    rewrite bind_lift_run.
    destruct (py_get stream "title" JNull) as [title|e];
      [|intros [= <- <- <-]; by apply commits_eligible_none].
    rewrite bind_lift_run.
    destruct (py_get stream "fileIdx" JNull) as [file_idx|e];
      [|intros [= <- <- <-]; by apply commits_eligible_none].
    destruct (_ && _); [|by apply IH].
    destruct info_hash as [| | |h| |];
      try (intros [= <- <- <-]; by apply commits_eligible_none).
    intros Hrun.
    apply bind_run in Hrun
      as [(rd & w1 & t1 & t2 & Hcheck & Hrun & ->)|(e & Hcheck & ->)];
      apply check_rd_availability_cases in Hcheck
        as (o & -> & [(e' & He & Hraise)|[[Hnone Hun]|(record & Hsome & Hav)]]);
      simplify_eq.
    + apply commits_eligible_app; [by apply commits_eligible_none|by eapply IH].
    + apply bind_run in Hrun
        as [(done & w2 & t3 & t4 & Hadd & Hrun & ->)|(e & Hadd & ->)];
        apply rank_and_add_trace in Hadd
          as [->|(t & o' & rest' & Hrank & Hfetch & -> & Hrest)].
      * apply commits_eligible_app; [by apply commits_eligible_none|].
        apply commits_eligible_app; [by apply commits_eligible_none|].
        destruct done; [|by eapply IH].
        injection Hrun as <- <- <-. by apply commits_eligible_none.
      * rewrite app_assoc. apply commits_eligible_app.
        -- apply (commits_eligible_single
                    [EvHttp (GetInstantAvailability [h]) o; EvRank title h (Ok t)]);
             [done|done|].
           by exists [], [], h, o, title.
        -- destruct done; [|by eapply IH].
           injection Hrun as <- <- <-. by apply commits_eligible_none.
      * apply commits_eligible_app; by apply commits_eligible_none.
      * apply (commits_eligible_single
                 [EvHttp (GetInstantAvailability [h]) o; EvRank title h (Ok t)]);
          [done|done|].
        by exists [], [], h, o, title.
    + by apply commits_eligible_none.
Qed.

Lemma head_no_commit tr :
  Forall (λ e, ∃ c o, e = EvHttp c o ∧ committed e = None) tr → commits tr = [].
Proof.
  unfold commits. induction 1 as [|e tr (c & o & -> & He) _ IH]; [done|].
  simpl in *. by rewrite He.
Qed.

Lemma webhook_body_commits_eligible req (w w' : World) r tr :
  webhook_body req w = (r, w', tr) → commits_eligible tr.
Proof.
  unfold webhook_body. intros Hrun.
  apply bind_run in Hrun
    as [(imdb_id & w1 & t1 & t2 & Himdb & Hrun & ->)|(e & Himdb & ->)];
    apply trakt_attempts_run in Himdb as [Htrakt _].
  2:{ apply commits_eligible_none, head_no_commit.
      eapply Forall_impl; [exact Htrakt|]. intros ? [o ->]. by do 2 eexists. }
  apply commits_eligible_app.
  { apply commits_eligible_none, head_no_commit.
    eapply Forall_impl; [exact Htrakt|]. intros ? [o ->]. by do 2 eexists. }
  destruct (truthy imdb_id); simpl in Hrun;
    [|injection Hrun as <- <- <-; by apply commits_eligible_none].
  apply bind_run in Hrun
    as [(results & w2 & t3 & t4 & Hdisc & Hrun & ->)|(e & Hdisc & ->)];
    apply torrentio_attempts_run in Hdisc.
  2:{ apply commits_eligible_none, head_no_commit.
      eapply Forall_impl; [exact Hdisc|]. intros ? [o ->]. by do 2 eexists. }
  apply commits_eligible_app.
  { apply commits_eligible_none, head_no_commit.
    eapply Forall_impl; [exact Hdisc|]. intros ? [o ->]. by do 2 eexists. }
  destruct (truthy results); simpl in Hrun;
    [|injection Hrun as <- <- <-; by apply commits_eligible_none].
  rewrite bind_lift_run in Hrun.
  destruct (py_get results "streams" JNull) as [streams|e];
    [|injection Hrun as <- <- <-; by apply commits_eligible_none].
  destruct (truthy streams); simpl in Hrun;
    [|injection Hrun as <- <- <-; by apply commits_eligible_none].
  rewrite bind_lift_run in Hrun.
  destruct (py_iter streams) as [items|e];
    [|injection Hrun as <- <- <-; by apply commits_eligible_none].
  by eapply push_streams_commits_eligible.
Qed.

Lemma jellyseer_webhook_commits_eligible response (w : World) :
  commits_eligible (jellyseer_webhook response w).2.
Proof.
  unfold jellyseer_webhook.
  destruct (py_get response "subject" JNull) as [subject|e];
    [|by apply commits_eligible_none].
  destruct (py_eq_str subject "Test Notification");
    [by apply commits_eligible_none|].
  destruct (model_validate response) as [req|];
    [|by apply commits_eligible_none].
  destruct (try_except_all _ _ w) as [[r w'] tr] eqn:Hrun. simpl.
  apply try_except_all_run in Hrun
    as [(a & Hrun & ->)|(e & w1 & t1 & t2 & Hrun & Hh & ->)].
  - by eapply webhook_body_commits_eligible.
  - injection Hh as <- <- <-. rewrite app_nil_r.
    by eapply webhook_body_commits_eligible.
Qed.

(** C7.  In both selection modes every commit call is for a torrent that
    was accepted before it: the call is preceded by an availability check
    that found a non-empty record for the candidate's hash, followed at
    once by a ranking of that candidate with [fetch] true, and it submits
    the hash and parsed title of that verdict. *)
Theorem commits_only_for_available_accepted_candidates :
  (∀ request (w : World) pre info_hash name o post,
     (process_overseerr_request request w).2
       = pre ++ EvHttp (PostAddMagnet info_hash name) o :: post →
     ∃ t, eligible_in pre t ∧ info_hash = infohash t ∧ name = parsed_title t)
  ∧
  (∀ response (w : World) pre info_hash name o post,
     (jellyseer_webhook response w).2
       = pre ++ EvHttp (PostAddMagnet info_hash name) o :: post →
     ∃ t, eligible_in pre t ∧ info_hash = infohash t ∧ name = parsed_title t)
  ∧
  (∀ tr t,
     eligible_in tr t →
     ∃ h o title availability record st body,
       EvHttp (GetInstantAvailability [h]) o ∈ tr ∧
       EvRank title h (Ok t) ∈ tr ∧
       o = Response st body ∧
       normalize_availability py_int [h] (st, body) = Ok availability ∧
       availability !! h = Some record ∧ size record ≠ 0 ∧
       rtn_rank title h = Ok t ∧ fetch t = true).
Proof.
  split_and!.
  - intros request w.
    destruct (process_body request w) as [[r w'] tr] eqn:Hbody.
    destruct (process_overseerr_request_body _ _ _ _ _ Hbody) as [-> _].
    by apply poll_commits_eligible in Hbody.
  - intros response w. apply jellyseer_webhook_commits_eligible.
  - intros tr t (pre & post & h & o & title & -> & Hav & Hrank & Hfetch).
    destruct Hav as (st & body & availability & record & -> & Hnorm & Hlook & Hsize).
    exists h, (Response st body), title, availability, record, st, body.
    split_and!; try done.
    + apply elem_of_app. right. by left.
    + apply elem_of_app. right. right. by left.
Qed.

End Properties.

(** * The properties on the scenarios *)

(** Six distinct hashes, all available and accepted: all six are checked. *)
Lemma poll_checks_six_hashes :
  checks (Scenario.poll_run Scenario.six_streams Scenario.all_accepted).2
    = ["h1"; "h2"; "h3"; "h4"; "h5"; "h6"] ∧
  ¬ length (checks (Scenario.poll_run Scenario.six_streams
                      Scenario.all_accepted).2) ≤ 5.
Proof. split; [by vm_compute|]. vm_compute. lia. Qed.

(** Five garbage verdicts in a row: the sixth stream is never checked. *)
Lemma five_rejections_witness :
  (Scenario.poll_run Scenario.six_streams []).2
    = (Scenario.poll_run Scenario.six_streams []).2 ++ [] ∧
  length (checks (Scenario.poll_run Scenario.six_streams []).2) = 5 ∧
  rejections (Scenario.poll_run Scenario.six_streams []).2 = 5 ∧
  (checks [] = [] ∧
   length (checks (Scenario.poll_run Scenario.six_streams []).2) = 5 ∧
   (Scenario.poll_run Scenario.six_streams []).1.1 = Ok NoValidTorrents ∧
   commits (Scenario.poll_run Scenario.six_streams []).2 = [] ∧
   acknowledgements (Scenario.poll_run Scenario.six_streams []).2 = 0).
Proof.
  split; [by rewrite app_nil_r|].
  split; [by vm_compute|]. split; [by vm_compute|].
  apply (five_rejections_end_the_request
           (Scenario.network Scenario.six_streams Scenario.six_hashes
              Scenario.episode_files)
           (Scenario.rank_by_table []) Scenario.guess_by_extension
           Scenario.int_of_digits (Scenario.request "movie") tt
           (Scenario.poll_run Scenario.six_streams []).2 []).
  - by rewrite app_nil_r.
  - by vm_compute.
  - by vm_compute.
Defined.



(** What the movie commits of the scenario select: index 0 the first
    file, index 2 the third; index 3 is out of range and selects nothing. *)
Example movie_commit_selections :
  selections (Scenario.commit_run "movie" 0).2 = [[JNum 1]] ∧
  selections (Scenario.commit_run "movie" 2).2 = [[JNum 3]] ∧
  selections (Scenario.commit_run "movie" 3).2 = [] ∧
  commit_succeeded (Scenario.commit_run "movie" 3).1.1 = false.
Proof. by vm_compute. Qed.

(** The listing has two video files, yet a series commit with index 5
    selects nothing and fails, while with index 0 it selects both: the
    selection depends on the index. *)
Lemma series_selection_depends_on_the_index :
  selections (Scenario.commit_run "tv" 0).2 = [[JNum 1; JNum 3]] ∧
  commit_succeeded (Scenario.commit_run "tv" 0).1.1 = true ∧
  selections (Scenario.commit_run "tv" 5).2 = [] ∧
  commit_succeeded (Scenario.commit_run "tv" 5).1.1 = false.
Proof. by vm_compute. Qed.

(** A series commit with index 1, inside the range of the three files:
    the submission, the listing, and one selection, of the two video files
    in the order of the listing; the selection is answered 204 and the
    commit succeeds. *)
Lemma series_commit_witness :
  Scenario.commit_run "tv" 1
    = ((Scenario.commit_run "tv" 1).1.1, tt, (Scenario.commit_run "tv" 1).2) ∧
  (Scenario.commit_run "tv" 1).2
    = [EvHttp (PostAddMagnet "h1" "A") (Response 201 (JDict [("id", JStr "JOB1")]));
       EvHttp (GetTorrentInfo (JStr "JOB1"))
         (Response 200 (JDict [("files", Scenario.episode_files)]));
       EvHttp (PostSelectFiles (JStr "JOB1") [JNum 1; JNum 3])
         (Response 204 JNull)] ∧
  selections (Scenario.commit_run "tv" 1).2 = [[JNum 1; JNum 3]] ∧
  commit_succeeded (Scenario.commit_run "tv" 1).1.1 = true.
Proof.
  split; [by vm_compute|].
  destruct (series_commit_selects_the_video_files
              (Scenario.network [] [] Scenario.episode_files)
              Scenario.guess_by_extension "h1" "A" 1 tt tt
              (Scenario.commit_run "tv" 1).1.1
              (Scenario.commit_run "tv" 1).2
              ltac:(vm_compute; reflexivity))
    as (_ & _ & _ & _ & _ & _ & Hselects).
  assert (listing_of
            [Scenario.file 1 "Show.S01E01.mkv"; Scenario.file 2 "readme.txt";
             Scenario.file 3 "Show.S01E02.mp4"]
            [(JNum 1, "Show.S01E01.mkv"); (JNum 2, "readme.txt");
             (JNum 3, "Show.S01E02.mp4")]) as Hlisting.
  { repeat constructor. }
  pose proof (Hselects (JDict [("id", JStr "JOB1")]) (JStr "JOB1") tt tt
                (JDict [("files", Scenario.episode_files)]) _ _
                eq_refl eq_refl eq_refl eq_refl eq_refl
                ltac:(simpl; lia) Hlisting) as Hsel.
  assert ((filter (λ d : json * string,
                     video_path Scenario.guess_by_extension d.2 = true)
             [(JNum 1, "Show.S01E01.mkv"); (JNum 2, "readme.txt");
              (JNum 3, "Show.S01E02.mp4")]).*1 = [JNum 1; JNum 3]) as Hvideo.
  { vm_compute. reflexivity. }
  rewrite Hvideo in Hsel. destruct Hsel as (o & Ho & Htr & Hsel & Hiff & _).
  injection Ho as <-.
  split; [exact Htr|]. split; [exact Hsel|]. apply Hiff. by eexists.
Defined.

(** A 200 whose body knows only [h2]: the requested [h1] is no key of the
    result, it maps to no record at all. *)
Lemma absent_hash_has_no_record :
  ∃ results,
    (get_instant_availability
       (Scenario.partial_availability [("h2", Scenario.cached_entry)])
       Scenario.int_of_digits ["h1"; "h2"] tt).1.1 = Ok results ∧
    results !! "h1" = None ∧
    ¬ (∀ h, h ∈ ["h1"; "h2"] → is_Some (results !! h)).
Proof.
  eexists. split; [by vm_compute|]. split; [by vm_compute|].
  intros Hall. destruct (Hall "h1") as [record Hrecord]; [by left|].
  by vm_compute in Hrecord.
Qed.

(** A 200 whose body has an entry without nested record for [h2] and no
    entry for the requested [h1]. *)
Lemma availability_witness :
  Scenario.partial_availability [("h2", Scenario.uncached_entry)]
    (GetInstantAvailability ["h1"; "h2"]) tt
  = (Response 200 (JDict [("h2", Scenario.uncached_entry)]), tt) ∧
  (((200 ≠ 200)%Z ∨ (∃ l, JDict [("h2", Scenario.uncached_entry)] = JList l) →
    ∃ results,
      (get_instant_availability
         (Scenario.partial_availability [("h2", Scenario.uncached_entry)])
         Scenario.int_of_digits ["h1"; "h2"] tt).1.1 = Ok results ∧
      ∀ h, h ∈ ["h1"; "h2"] →
        results !! h = Some ∅ ∧ available_record h results = None)
   ∧
   (∀ items results,
      200%Z = 200%Z → JDict [("h2", Scenario.uncached_entry)] = JDict items →
      (get_instant_availability
         (Scenario.partial_availability [("h2", Scenario.uncached_entry)])
         Scenario.int_of_digits ["h1"; "h2"] tt).1.1 = Ok results →
      (∀ h, h ∈ items.*1 → is_Some (results !! h)) ∧
      (∀ h, h ∉ items.*1 →
         results !! h = None ∧ available_record h results = None) ∧
      (∀ h values,
         NoDup items.*1 → (h, values) ∈ items → nested_record_empty values →
         results !! h = Some ∅ ∧ available_record h results = None))
   ∧
   (∀ h results,
      ["h1"; "h2"] = [h] →
      (get_instant_availability
         (Scenario.partial_availability [("h2", Scenario.uncached_entry)])
         Scenario.int_of_digits ["h1"; "h2"] tt).1.1 = Ok results →
      results !! h = None ∨ results !! h = Some ∅ →
      (check_rd_availability
         (Scenario.partial_availability [("h2", Scenario.uncached_entry)])
         Scenario.int_of_digits h tt).1.1 = Ok None)).
Proof.
  split; [reflexivity|].
  apply (availability_degrades_to_unavailable
           (Scenario.partial_availability [("h2", Scenario.uncached_entry)])
           Scenario.int_of_digits ["h1"; "h2"] tt tt 200
           (JDict [("h2", Scenario.uncached_entry)])).
  reflexivity.
Defined.

(** The records of the scenario: the uncached [h2] maps to an empty
    record, the absent [h1] to none; the single-hash check reads both as
    unavailable, and a failed call as unavailable too. *)
Example availability_records :
  (∃ results,
     (get_instant_availability
        (Scenario.partial_availability [("h2", Scenario.uncached_entry)])
        Scenario.int_of_digits ["h1"; "h2"] tt).1.1 = Ok results ∧
     results !! "h2" = Some ∅ ∧ results !! "h1" = None) ∧
  (check_rd_availability
     (Scenario.partial_availability [("h2", Scenario.uncached_entry)])
     Scenario.int_of_digits "h1" tt).1.1 = Ok None ∧
  (check_rd_availability
     (Scenario.partial_availability [("h2", Scenario.uncached_entry)])
     Scenario.int_of_digits "h2" tt).1.1 = Ok None ∧
  (∃ record,
     (check_rd_availability
        (Scenario.partial_availability [("h2", Scenario.cached_entry)])
        Scenario.int_of_digits "h2" tt).1.1 = Ok (Some record) ∧
     size record = 1).
Proof.
  split; [eexists; split; [by vm_compute|by vm_compute]|].
  split; [by vm_compute|]. split; [by vm_compute|].
  eexists. split; by vm_compute.
Qed.

(** The example of the best-of-batch selection: five streams, all
    available, accepted with ranks 10, 30, 20, 5, 25.  The torrent of rank
    30 is committed; on the poll path the commit then fails on its string
    index and nothing is acknowledged. *)
Example best_of_batch_scenario :
  map rank (accepted (Scenario.poll_run (take 5 Scenario.six_streams)
                        Scenario.five_ranks).2)
    = [10; 30; 20; 5; 25]%Z ∧
  map rank (top_torrents (accepted (Scenario.poll_run (take 5 Scenario.six_streams)
                                      Scenario.five_ranks).2))
    = [30; 25; 20; 10; 5]%Z ∧
  commits (Scenario.poll_run (take 5 Scenario.six_streams) Scenario.five_ranks).2
    = [("h2", "B")] ∧
  (Scenario.poll_run (take 5 Scenario.six_streams) Scenario.five_ranks).1.1
    = Ok (Errored TypeError) ∧
  acknowledgements
    (Scenario.poll_run (take 5 Scenario.six_streams) Scenario.five_ranks).2 = 0.
Proof. by vm_compute. Qed.

(** The same example through the theorem: the run gets through the
    resolution and the discovery, the loop ends with the five candidates
    accepted, and the torrent of rank 30 is committed. *)
Lemma best_of_batch_witness :
  reaches_the_loop Cases.batch_network (Scenario.request "movie") tt
    (JStr "movie") (take 5 Scenario.six_streams)
    ((get_imdb_id_from_trakt Cases.batch_network (JNum 278) (JStr "movie") tt).2
     ++ (query_torrentio Cases.batch_network (JStr "tt0111161") (JStr "movie")
           tt).2) tt ∧
  map rank (accepted Cases.batch_loop.2) = [10; 30; 20; 5; 25]%Z ∧
  map rank (top_torrents (accepted Cases.batch_loop.2)) = [30; 25; 20; 10; 5]%Z ∧
  commits (Scenario.poll_run (take 5 Scenario.six_streams) Scenario.five_ranks).2
    = [("h2", "B")].
Proof.
  assert (reaches_the_loop Cases.batch_network (Scenario.request "movie") tt
            (JStr "movie") (take 5 Scenario.six_streams)
            ((get_imdb_id_from_trakt Cases.batch_network (JNum 278)
                (JStr "movie") tt).2
             ++ (query_torrentio Cases.batch_network (JStr "tt0111161")
                   (JStr "movie") tt).2) tt) as Hreach.
  { exists (JDict [("id", JNum 42); ("tmdbId", JNum 278);
                   ("mediaType", JStr "movie")]),
      (JNum 42), (JNum 278), (JStr "tt0111161"), tt,
      (get_imdb_id_from_trakt Cases.batch_network (JNum 278) (JStr "movie") tt).2,
      (JDict [("streams", JList (take 5 Scenario.six_streams))]),
      (query_torrentio Cases.batch_network (JStr "tt0111161") (JStr "movie") tt).2,
      (JList (take 5 Scenario.six_streams)).
    repeat (split; [vm_compute; reflexivity|]). reflexivity. }
  assert (map rank (accepted Cases.batch_loop.2) = [10; 30; 20; 5; 25]%Z)
    as Hranks.
  { vm_compute. reflexivity. }
  split; [exact Hreach|]. split; [exact Hranks|].
  destruct (poll_commits_the_best_of_the_batch Cases.batch_network
              (Scenario.rank_by_table Scenario.five_ranks)
              Scenario.guess_by_extension Scenario.int_of_digits)
    as (_ & _ & _ & _ & _ & Hexample).
  destruct (Hexample (Scenario.request "movie") tt tt tt (JStr "movie")
              (take 5 Scenario.six_streams) _
              (match Cases.batch_loop.1.1 with
               | Ok st => st
               | Raise _ => initial_state
               end)
              Cases.batch_loop.2 Hreach ltac:(vm_compute; reflexivity) Hranks)
    as (Htop & best & Hsecond & _ & Hcommits).
  split; [exact Htop|].
  vm_compute in Hsecond. injection Hsecond as <-. exact Hcommits.
Defined.

(** Equal ranks: the earliest discovered torrent is the one committed. *)
Example ties_keep_discovery_order :
  commits (Scenario.poll_run Scenario.six_streams
             [("A", (true, 7%Z)); ("B", (true, 9%Z)); ("C", (true, 9%Z));
              ("D", (false, 50%Z)); ("E", (true, 9%Z)); ("F", (true, 8%Z))]).2
    = [("h2", "B")] ∧
  map parsed_title
    (top_torrents
       (accepted (Scenario.poll_run Scenario.six_streams
          [("A", (true, 7%Z)); ("B", (true, 9%Z)); ("C", (true, 9%Z));
           ("D", (false, 50%Z)); ("E", (true, 9%Z)); ("F", (true, 8%Z))]).2))
    = ["B"; "C"; "E"; "F"; "A"].
Proof. by vm_compute. Qed.

(** The resolver against a service that is unreachable twice and then
    answers 200 with an empty result set: three calls, the answer is
    [None]; unreachable five times: five calls, [None] again. *)
Example resolver_retries :
  get_imdb_id_from_trakt (Scenario.flaky_trakt 2) (JNum 278) (JStr "movie") 0
    = (Ok JNull, 3,
       [EvHttp (GetTraktSearch (JNum 278) "movie") NoResponse;
        EvHttp (GetTraktSearch (JNum 278) "movie") NoResponse;
        EvHttp (GetTraktSearch (JNum 278) "movie") (Response 200 (JList []))]) ∧
  (get_imdb_id_from_trakt (Scenario.flaky_trakt 9) (JNum 278) (JStr "tv") 0).1
    = (Ok JNull, 5) ∧
  (process_overseerr_request (Scenario.flaky_trakt 2)
     (Scenario.rank_by_table []) Scenario.guess_by_extension
     Scenario.int_of_digits (Scenario.request "movie") 0).1.1 = Ok ImdbNotFound.
Proof. by vm_compute. Qed.

(** The push path: [h1] is not available, [B] is garbage, [C] is not worth
    fetching, [D] is the first candidate both available and accepted: it is
    committed at once with its own file index, and [E], [F] are never
    checked.  A test notification is answered without any call. *)
Example push_commits_the_first_eligible :
  commits (Scenario.push_run Scenario.six_streams ["h2"; "h3"; "h4"; "h5"; "h6"]
             [("A", (true, 90%Z)); ("C", (false, 80%Z)); ("D", (true, 1%Z));
              ("E", (true, 70%Z)); ("F", (true, 60%Z))]
             (JDict [("subject", JStr "New Movie Request")])).2
    = [("h4", "D")] ∧
  checks (Scenario.push_run Scenario.six_streams ["h2"; "h3"; "h4"; "h5"; "h6"]
            [("A", (true, 90%Z)); ("C", (false, 80%Z)); ("D", (true, 1%Z));
             ("E", (true, 70%Z)); ("F", (true, 60%Z))]
            (JDict [("subject", JStr "New Movie Request")])).2
    = ["h1"; "h2"; "h3"; "h4"] ∧
  (Scenario.push_run Scenario.six_streams ["h2"; "h3"; "h4"; "h5"; "h6"]
     [("A", (true, 90%Z)); ("C", (false, 80%Z)); ("D", (true, 1%Z));
      ("E", (true, 70%Z)); ("F", (true, 60%Z))]
     (JDict [("subject", JStr "New Movie Request")])).1.1
    = Ok {| success := true; message := Text "Torrent added" |} ∧
  Scenario.push_run Scenario.six_streams [] []
    (JDict [("subject", JStr "Test Notification")])
    = (Ok {| success := true;
             message := Text "Test notification received successfully" |},
       tt, []).
Proof. by vm_compute. Qed.

(** * Further properties *)

Section Coverage.

Set Default Proof Using "Type".

Context {World : Type}.
Variable network : call → World → http_outcome * World.
Variable rtn_rank : json → string → result Torrent.
Variable guess_type : string → option string.
Variable py_int : string → option Z.
Variable model_validate : json → option Media.

Local Abbreviation session := (session network).
Local Abbreviation available := (available py_int).
Local Abbreviation unavailable := (unavailable py_int).
Local Abbreviation check_raises := (check_raises py_int).
Local Abbreviation iteration := (iteration rtn_rank py_int).
Local Abbreviation rank_follows_check := (rank_follows_check rtn_rank py_int).
Local Abbreviation rank_and_add := (rank_and_add network rtn_rank guess_type).
Local Abbreviation get_imdb_id_from_trakt := (get_imdb_id_from_trakt network).
Local Abbreviation trakt_attempts := (trakt_attempts network).
Local Abbreviation query_torrentio := (query_torrentio network).
Local Abbreviation torrentio_attempts := (torrentio_attempts network).
Local Abbreviation get_instant_availability := (get_instant_availability network py_int).
Local Abbreviation check_rd_availability := (check_rd_availability network py_int).
Local Abbreviation select_files_in_rd := (select_files_in_rd network guess_type).
Local Abbreviation add_torrent_and_select_files :=
  (add_torrent_and_select_files network guess_type).
Local Abbreviation mark_completed := (mark_completed network).
Local Abbreviation rank_checked := (rank_checked rtn_rank).
Local Abbreviation poll_iteration := (poll_iteration network rtn_rank py_int).
Local Abbreviation rank_streams := (rank_streams network rtn_rank py_int).
Local Abbreviation process_body := (process_body network rtn_rank guess_type py_int).
Local Abbreviation process_overseerr_request :=
  (process_overseerr_request network rtn_rank guess_type py_int).
Local Abbreviation push_streams := (push_streams network rtn_rank guess_type py_int).
Local Abbreviation webhook_body := (webhook_body network rtn_rank guess_type py_int).
Local Abbreviation jellyseer_webhook :=
  (jellyseer_webhook network rtn_rank guess_type py_int model_validate).

(** *** The retries of the resolver and of the discovery *)

(** X2.  The resolver calls the resolution service at most five times, and
    again only after a transport failure: its calls are up to four failed
    ones followed by a last one.  When that one fails too (the fifth) the
    answer is [None]; when it is answered, the status decides: anything
    but 200 gives [None], a 200 gives what the body holds.  A transport
    failure is never raised. *)
Theorem resolver_retries_transport_failures tmdb_id media_type (w : World) :
  ∃ failures o,
    (get_imdb_id_from_trakt tmdb_id media_type w).2
    = replicate failures
        (EvHttp (GetTraktSearch tmdb_id
                   (if py_eq_str media_type "tv" then "show" else "movie"))
           NoResponse)
      ++ [EvHttp (GetTraktSearch tmdb_id
                    (if py_eq_str media_type "tv" then "show" else "movie")) o] ∧
    failures ≤ 4 ∧
    (get_imdb_id_from_trakt tmdb_id media_type w).1.1 ≠ Raise RequestException ∧
    match o with
    | NoResponse =>
        failures = 4 ∧
        (get_imdb_id_from_trakt tmdb_id media_type w).1.1 = Ok JNull
    | Response st body =>
        (get_imdb_id_from_trakt tmdb_id media_type w).1.1
        = if (st =? 200)%Z then trakt_extract media_type body else Ok JNull
    end.
Proof.
  unfold get_imdb_id_from_trakt.
  set (c := GetTraktSearch tmdb_id _).
  assert (∀ remaining attempt (w0 : World),
    attempt + remaining = 5 → 0 < remaining →
    ∃ failures o,
      (trakt_attempts c media_type attempt remaining w0).2
      = replicate failures (EvHttp c NoResponse) ++ [EvHttp c o] ∧
      attempt + failures ≤ 4 ∧
      (trakt_attempts c media_type attempt remaining w0).1.1
        ≠ Raise RequestException ∧
      match o with
      | NoResponse =>
          attempt + failures = 4 ∧
          (trakt_attempts c media_type attempt remaining w0).1.1 = Ok JNull
      | Response st body =>
          (trakt_attempts c media_type attempt remaining w0).1.1
          = if (st =? 200)%Z then trakt_extract media_type body else Ok JNull
      end) as Hgen.
  { induction remaining as [|k IH]; intros attempt w0 Hsum Hpos; [lia|].
    rewrite trakt_attempts_step.
    destruct (network c w0) as [[st body|] w1].
    - exists 0, (Response st body). simpl. split_and!; [done|lia| |done].
      destruct (st =? 200)%Z; [|done].
      intros Hraise. by apply trakt_extract_raise in Hraise as [|].
    - destruct (attempt =? 4)%nat eqn:Hlast.
      + apply Nat.eqb_eq in Hlast. exists 0, NoResponse. simpl.
        split_and!; [done|lia|done|lia|done].
      + apply Nat.eqb_neq in Hlast.
        destruct (IH (S attempt) w1) as (failures & o & Htr & Hle & Hne & Ho);
          [lia|lia|].
        destruct (trakt_attempts c media_type (S attempt) k w1) as [[r2 w2] t2].
        simpl in *. exists (S failures), o. subst t2. simpl.
        split_and!; [done|lia|done|].
        destruct o; [done|]. split; [lia|by destruct Ho]. }
  destruct (Hgen 5 0 w) as (failures & o & Htr & Hle & Hne & Ho); [done|lia|].
  exists failures, o. split_and!; [done|lia|done|].
  destruct o; [done|]. split; [lia|by destruct Ho].
Qed.

(** X3.  The discovery never raises (a response is taken with its
    decoded body).  It calls the discovery service at most five times,
    again only after a transport failure; it returns the body of a 200
    and [None] for any other status and after five failures. *)
Theorem discovery_never_raises imdb_id media_type (w : World) :
  ∃ failures o,
    (query_torrentio imdb_id media_type w).2
    = replicate failures
        (EvHttp (GetTorrentio
                   (if py_eq_str media_type "tv" then "series" else "movie")
                   imdb_id) NoResponse)
      ++ [EvHttp (GetTorrentio
                    (if py_eq_str media_type "tv" then "series" else "movie")
                    imdb_id) o] ∧
    failures ≤ 4 ∧
    (o = NoResponse → failures = 4) ∧
    (query_torrentio imdb_id media_type w).1.1
    = Ok match o with
         | Response st body => if (st =? 200)%Z then body else JNull
         | NoResponse => JNull
         end.
Proof.
  unfold query_torrentio.
  set (c := GetTorrentio _ imdb_id).
  assert (∀ remaining attempt (w0 : World),
    attempt + remaining = 5 → 0 < remaining →
    ∃ failures o,
      (torrentio_attempts c attempt remaining w0).2
      = replicate failures (EvHttp c NoResponse) ++ [EvHttp c o] ∧
      attempt + failures ≤ 4 ∧
      (o = NoResponse → attempt + failures = 4) ∧
      (torrentio_attempts c attempt remaining w0).1.1
      = Ok match o with
           | Response st body => if (st =? 200)%Z then body else JNull
           | NoResponse => JNull
           end) as Hgen.
  { induction remaining as [|k IH]; intros attempt w0 Hsum Hpos; [lia|].
    simpl. unfold try_except, bind, session.
    destruct (network c w0) as [[st body|] w1]; simpl.
    - exists 0, (Response st body). simpl.
      split_and!; [by destruct (st =? 200)%Z|lia|done|by destruct (st =? 200)%Z].
    - destruct (attempt =? 4)%nat eqn:Hlast.
      + apply Nat.eqb_eq in Hlast. exists 0, NoResponse. simpl.
        split_and!; [done|lia|lia|done].
      + apply Nat.eqb_neq in Hlast.
        destruct (IH (S attempt) w1) as (failures & o & Htr & Hle & Hno & Hr);
          [lia|lia|].
        destruct (torrentio_attempts c (S attempt) k w1) as [[r2 w2] t2].
        simpl in *. exists (S failures), o. subst t2. simpl.
        split_and!; [done|lia|intros Ho; specialize (Hno Ho); lia|done]. }
  destruct (Hgen 5 0 w) as (failures & o & Htr & Hle & Hno & Hr); [done|lia|].
  exists failures, o. split_and!; [done|lia|intros Ho; specialize (Hno Ho); lia|done].
Qed.

(** *** The acknowledgement *)

(** X4.  [mark_completed] makes exactly one call, to mark that media
    available, and never raises: it answers [True] on a 200 and [False] on
    any other status and on a transport failure. *)
Theorem mark_completed_absorbs_failures media_id (w : World) :
  ∃ o,
    (mark_completed media_id w).2 = [EvHttp (PostMarkAvailable media_id) o] ∧
    (mark_completed media_id w).1.1
    = Ok match o with
         | Response st _ => (st =? 200)%Z
         | NoResponse => false
         end.
Proof.
  unfold mark_completed, try_except_all, bind, session, ret.
  destruct (network (PostMarkAvailable media_id) w) as [[st body|] w1];
    by eexists.
Qed.

(** *** The availability filter *)

Lemma container_entries_lookup kvs : ∀ acc record,
  container_entries py_int kvs acc = Ok record →
  (∀ i info, record !! i = Some info →
     acc !! i = Some info
     ∨ ∃ k v, (k, v) ∈ kvs ∧ py_int k = Some i ∧
              py_item v "filename" = Ok info.1 ∧
              py_item v "filesize" = Ok info.2) ∧
  (∀ i, is_Some (acc !! i) → is_Some (record !! i)) ∧
  (∀ k v i, (k, v) ∈ kvs → py_int k = Some i → is_Some (record !! i)).
Proof.
  induction kvs as [|[k v] kvs IH]; intros acc record; simpl.
  - intros [= <-]. split_and!; [by left|done|].
    intros ??? Hin. by apply elem_of_nil in Hin.
  - destruct (py_int k) as [i|] eqn:Hint; [|done].
    destruct (py_item v "filename") as [filename|e] eqn:Hname; simpl; [|done].
    destruct (py_item v "filesize") as [filesize|e] eqn:Hsize; simpl; [|done].
    intros Hrun. destruct (IH _ _ Hrun) as (Hfrom & Hkeep & Hkeys).
    split_and!.
    + intros j info Hlook. destruct (Hfrom _ _ Hlook) as [Hacc|Hentry].
      * destruct (decide (i = j)) as [->|Hne].
        -- rewrite lookup_insert_eq in Hacc. injection Hacc as <-.
           right. exists k, v. split_and!; [by left|done|done|done].
        -- rewrite lookup_insert_ne in Hacc by done. by left.
      * destruct Hentry as (k' & v' & Hin & ?). right. exists k', v'.
        split; [by right|done].
    + intros j Hj. apply Hkeep. destruct (decide (i = j)) as [->|Hne].
      * rewrite lookup_insert_eq. by eexists.
      * by rewrite lookup_insert_ne.
    + intros k' v' j [Heq|Hin]%elem_of_cons Hk'.
      * injection Heq as -> ->. apply Hkeep. rewrite Hint in Hk'.
        injection Hk' as ->. rewrite lookup_insert_eq. by eexists.
      * by eapply Hkeys.
Qed.

Lemma rd_entries_lookup containers : ∀ acc record,
  rd_entries py_int containers acc = Ok record →
  (∀ i info, record !! i = Some info →
     acc !! i = Some info
     ∨ ∃ kvs k v, JDict kvs ∈ containers ∧ (k, v) ∈ kvs ∧ py_int k = Some i ∧
                  py_item v "filename" = Ok info.1 ∧
                  py_item v "filesize" = Ok info.2) ∧
  (∀ i, is_Some (acc !! i) → is_Some (record !! i)) ∧
  (∀ kvs k v i, JDict kvs ∈ containers → (k, v) ∈ kvs → py_int k = Some i →
     is_Some (record !! i)).
Proof.
  induction containers as [|container containers IH]; intros acc record; simpl.
  - intros [= <-]. split_and!; [by left|done|].
    intros ???? Hin. by apply elem_of_nil in Hin.
  - destruct container as [| | | | |kvs]; try done.
    destruct (container_entries py_int kvs acc) as [acc'|e] eqn:Hfirst;
      simpl; [|done].
    intros Hrun.
    destruct (container_entries_lookup _ _ _ Hfirst) as (Hf1 & Hf2 & Hf3).
    destruct (IH _ _ Hrun) as (Hr1 & Hr2 & Hr3).
    split_and!.
    + intros i info Hlook. destruct (Hr1 _ _ Hlook) as [Hacc|Hentry].
      * destruct (Hf1 _ _ Hacc) as [?|(k & v & Hin & ?)]; [by left|].
        right. exists kvs, k, v. split; [by left|done].
      * destruct Hentry as (kvs' & k & v & Hin & ?). right.
        exists kvs', k, v. split; [by right|done].
    + intros i Hi. by apply Hr2, Hf2.
    + intros kvs' k v i [Heq|Hin]%elem_of_cons Hkv Hk.
      * injection Heq as ->. apply Hr2. by eapply Hf3.
      * by eapply Hr3.
Qed.

(** X5.  The record the availability filter stores for a hash has one
    entry per file key found in the containers of the entry's ["rd"] list:
    every entry of the record is the filename and filesize of such a file,
    under [int] of its key, and every such file key has an entry.  So the
    record is empty exactly when no container holds a file, as for
    ["rd": [{}]]. *)
Theorem availability_record_holds_the_cached_files values rd containers record :
  py_contains_str "rd" values = Ok true →
  py_item values "rd" = Ok rd →
  truthy rd = true →
  py_iter rd = Ok containers →
  rd_record py_int values = Ok record →
  (∀ i info, record !! i = Some info →
     ∃ kvs k v, JDict kvs ∈ containers ∧ (k, v) ∈ kvs ∧ py_int k = Some i ∧
                py_item v "filename" = Ok info.1 ∧
                py_item v "filesize" = Ok info.2) ∧
  (∀ kvs k v i, JDict kvs ∈ containers → (k, v) ∈ kvs → py_int k = Some i →
     is_Some (record !! i)) ∧
  (size record = 0 ↔ ∀ kvs, JDict kvs ∈ containers → kvs = []).
Proof.
  try clear network; try clear rtn_rank; try clear guess_type; try clear model_validate.
  intros Hhas Hrd Htruthy Hiter. unfold rd_record.
  rewrite Hhas. simpl. rewrite Hrd. simpl. rewrite Htruthy, Hiter. simpl.
  intros Hrun. destruct (rd_entries_lookup _ _ _ Hrun) as (H1 & _ & H3).
  assert (∀ container, container ∈ containers → ∃ kvs, container = JDict kvs)
    as Hdicts.
  { clear -Hrun. revert Hrun. generalize (∅ : gmap Z file_info).
    induction containers as [|c cs IH]; intros acc Hrun container Hin.
    - by apply elem_of_nil in Hin.
    - simpl in Hrun. destruct c as [| | | | |kvs]; try done.
      destruct (container_entries py_int kvs acc) as [acc'|e]; simpl in Hrun;
        [|done].
      apply elem_of_cons in Hin as [->|Hin]; [by eexists|by eapply IH]. }
  split_and!.
  - intros i info Hlook. destruct (H1 _ _ Hlook) as [Hempty|Hentry]; [|done].
    by rewrite lookup_empty in Hempty.
  - done.
  - rewrite map_size_empty_iff. split.
    + intros Hzero kvs Hin. destruct kvs as [|[k v] kvs]; [done|]. exfalso.
      assert (∃ i, py_int k = Some i) as [i Hi].
      { clear -Hrun Hin. revert Hrun. generalize (∅ : gmap Z file_info).
        induction containers as [|c cs IH]; intros acc Hrun.
        - by apply elem_of_nil in Hin.
        - simpl in Hrun. destruct c as [| | | | |kvs']; try done.
          destruct (container_entries py_int kvs' acc) as [acc'|e] eqn:Hce;
            simpl in Hrun; [|done].
          apply elem_of_cons in Hin as [Heq|Hin]; [|by eapply IH].
          injection Heq as <-. simpl in Hce.
          destruct (py_int k) as [i|]; [by eexists|done]. }
      destruct (H3 _ k v i Hin) as [info Hinfo]; [by left|done|].
      rewrite Hzero in Hinfo. by rewrite lookup_empty in Hinfo.
    + intros Hall. apply map_eq. intros i. rewrite lookup_empty.
      destruct (record !! i) as [info|] eqn:Hlook; [|done]. exfalso.
      destruct (H1 _ _ Hlook) as [Hempty|(kvs & k & v & Hin & Hkv & _)].
      * by rewrite lookup_empty in Hempty.
      * rewrite (Hall _ Hin) in Hkv. by apply elem_of_nil in Hkv.
Qed.

(** X6.  The single-hash check makes exactly one availability call, for
    that hash alone.  It answers a record only when the call was answered
    with a non-empty record for the hash, it answers [None] when the
    answer is read as unavailable, and it raises what the call or the
    normalization of its body raises. *)
Theorem single_hash_check info_hash (w : World) :
  ∃ o,
    (check_rd_availability info_hash w).2
      = [EvHttp (GetInstantAvailability [info_hash]) o] ∧
    match (check_rd_availability info_hash w).1.1 with
    | Ok (Some record) => available info_hash o ∧ size record ≠ 0
    | Ok None => unavailable info_hash o
    | Raise e => check_raises info_hash o e
    end.
Proof.
  destruct (check_rd_availability info_hash w) as [[r w'] tr] eqn:Hrun.
  destruct (network (GetInstantAvailability [info_hash]) w)
    as [[code body|] w1] eqn:Hnet.
  - rewrite (check_rd_availability_run _ _ _ _ _ _ _ Hnet) in Hrun.
    exists (Response code body). injection Hrun as <- <- <-. split; [done|].
    simpl.
    destruct (normalize_availability py_int [info_hash] (code, body))
      as [availability|e] eqn:Hnorm; simpl.
    + destruct (available_record info_hash availability) as [record|] eqn:Hrec.
      * apply available_record_some in Hrec as [Hlook Hsize]. split; [|done].
        by exists code, body, availability, record.
      * by exists code, body, availability.
    + right. by exists code, body.
  - unfold check_rd_availability, get_instant_availability, bind, session in Hrun.
    rewrite Hnet in Hrun. injection Hrun as <- <- <-.
    exists NoResponse. split; [done|]. by left.
Qed.

(** *** The intake *)



(** *** The commit stage *)

Lemma select_files_in_rd_shape torrent_id file_idx media_type (w : World) :
  ∃ o rest,
    (select_files_in_rd torrent_id file_idx media_type w).2
      = EvHttp (GetTorrentInfo torrent_id) o :: rest ∧
    (rest = [] → (select_files_in_rd torrent_id file_idx media_type w).1.1 ≠ Ok true) ∧
    (rest ≠ [] →
       ∃ body files ids o3,
         o = Response 200 body ∧
         py_get body "files" (JList []) = Ok files ∧
         index_out_of_range file_idx files = Ok false ∧
         files_to_select guess_type file_idx media_type files = Ok (Some ids) ∧
         rest = [EvHttp (PostSelectFiles torrent_id ids) o3] ∧
         (select_files_in_rd torrent_id file_idx media_type w).1.1
         = match o3 with
           | Response st _ => Ok (st =? 204)%Z
           | NoResponse => Raise RequestException
           end).
Proof.
  rewrite select_files_in_rd_run.
  destruct (network (GetTorrentInfo torrent_id) w) as [[st body|] w1];
    [|by eexists _, []].
  destruct (negb (st =? 200)%Z) eqn:Hst; [by eexists _, []|].
  apply negb_false_iff, Z.eqb_eq in Hst as ->.
  destruct (py_get body "files" (JList [])) as [files|e] eqn:Hfiles;
    [|by eexists _, []].
  destruct (index_out_of_range file_idx files) as [[|]|e] eqn:Hrange;
    [by eexists _, []| |by eexists _, []].
  destruct (files_to_select guess_type file_idx media_type files)
    as [[ids|]|e] eqn:Hsel; [|by eexists _, []|by eexists _, []].
  destruct (network (PostSelectFiles torrent_id ids) w1) as [[st2 body2|] w2];
    (eexists _, _; split; [done|]; split; [done|]; intros _;
     by eexists body, files, ids, _).
Qed.

(** X7.  For a media type that is neither ["movie"] nor ["tv"] the file
    selection reads the file listing and stops there: it posts no
    selection and never answers [True], so the commit of such a request
    cannot report success. *)
Theorem unknown_media_type_selects_nothing
    info_hash name torrent_id file_idx media_type (w : World) :
  py_eq_str media_type "movie" = false →
  py_eq_str media_type "tv" = false →
  (∃ o, (select_files_in_rd torrent_id file_idx media_type w).2
        = [EvHttp (GetTorrentInfo torrent_id) o]) ∧
  (select_files_in_rd torrent_id file_idx media_type w).1.1 ≠ Ok true ∧
  selections (add_torrent_and_select_files info_hash name file_idx media_type w).2
    = [] ∧
  commit_succeeded
    (add_torrent_and_select_files info_hash name file_idx media_type w).1.1
    = false.
Proof.
  intros Hmovie Htv.
  assert (∀ files, files_to_select guess_type file_idx media_type files
                   = Ok None) as Hnone.
  { intros files. unfold files_to_select. by rewrite Hmovie, Htv. }
  assert (∀ tid (w0 : World),
            (∃ o, (select_files_in_rd tid file_idx media_type w0).2
                  = [EvHttp (GetTorrentInfo tid) o]) ∧
            (select_files_in_rd tid file_idx media_type w0).1.1 ≠ Ok true)
    as Hselect.
  { intros tid w0.
    destruct (select_files_in_rd_shape tid file_idx media_type w0)
      as (o & rest & Htr & Hshort & Hlong).
    destruct rest as [|e rest].
    - split; [by exists o|by apply Hshort].
    - destruct Hlong as (body & files & ids & o3 & _ & _ & _ & Hsel & _);
        [done|]. by rewrite Hnone in Hsel. }
  split; [apply Hselect|]. split; [apply Hselect|].
  rewrite add_torrent_and_select_files_run.
  destruct (network (PostAddMagnet info_hash name) w) as [[st body|] w1];
    [|done].
  simpl. destruct (st =? 201)%Z; [|done].
  destruct (py_get body "id" JNull) as [tid|e]; [|done].
  destruct (truthy tid); [|done].
  destruct (Hselect tid w1) as [[o Htr] Hno].
  destruct (select_files_in_rd tid file_idx media_type w1) as [[r w2] t2].
  simpl in Htr, Hno. subst t2. by destruct r as [[|]|e].
Qed.

(** X8.  The commit stage calls in a fixed order, each call only after
    the one before went through: the magnet submission first; the file
    listing only after a 201 that carries a torrent id; the selection only
    after a 200 listing for which the requested index is in range and
    there is something to select.  The commit reports success exactly when
    its last call is a selection answered with 204.  A submission answered
    with another status than 201 yields [None] and nothing else is
    called; a submission that gets no answer raises. *)
Theorem commit_calls_follow_in_order
    info_hash name file_idx media_type (w : World) :
  ∃ o rest,
    (add_torrent_and_select_files info_hash name file_idx media_type w).2
      = EvHttp (PostAddMagnet info_hash name) o :: rest ∧
    match o with
    | NoResponse =>
        rest = [] ∧
        (add_torrent_and_select_files info_hash name file_idx media_type w).1.1
        = Raise RequestException
    | Response st body =>
        if (st =? 201)%Z then
          match py_get body "id" JNull with
          | Ok torrent_id =>
              if truthy torrent_id then
                ∃ o2 rest2,
                  rest = EvHttp (GetTorrentInfo torrent_id) o2 :: rest2 ∧
                  (rest2 ≠ [] →
                     ∃ body2 files ids o3,
                       o2 = Response 200 body2 ∧
                       py_get body2 "files" (JList []) = Ok files ∧
                       index_out_of_range file_idx files = Ok false ∧
                       files_to_select guess_type file_idx media_type files
                       = Ok (Some ids) ∧
                       rest2 = [EvHttp (PostSelectFiles torrent_id ids) o3]) ∧
                  (commit_succeeded
                     (add_torrent_and_select_files info_hash name file_idx
                        media_type w).1.1 = true
                   ↔ ∃ ids body3,
                       rest2 = [EvHttp (PostSelectFiles torrent_id ids)
                                  (Response 204 body3)])
              else
                rest = [] ∧
                commit_succeeded
                  (add_torrent_and_select_files info_hash name file_idx
                     media_type w).1.1 = false
          | Raise e =>
              rest = [] ∧
              (add_torrent_and_select_files info_hash name file_idx
                 media_type w).1.1 = Raise e
          end
        else
          rest = [] ∧
          (add_torrent_and_select_files info_hash name file_idx media_type w).1.1
          = Ok JNull
    end.
Proof.
  rewrite add_torrent_and_select_files_run.
  destruct (network (PostAddMagnet info_hash name) w) as [[st body|] w1];
    [|by eexists _, []].
  simpl. destruct (st =? 201)%Z eqn:Hst;
    [|exists (Response st body), []; by rewrite Hst].
  destruct (py_get body "id" JNull) as [tid|e] eqn:Hid;
    [|exists (Response st body), []; by rewrite Hst, Hid].
  destruct (truthy tid) eqn:Htid;
    [|exists (Response st body), []; by rewrite Hst, Hid, Htid].
  destruct (select_files_in_rd_shape tid file_idx media_type w1)
    as (o2 & rest2 & Htr & Hshort & Hlong).
  destruct (select_files_in_rd tid file_idx media_type w1) as [[r w2] t2].
  simpl in Htr, Hshort, Hlong. subst t2.
  exists (Response st body), (EvHttp (GetTorrentInfo tid) o2 :: rest2).
  split; [by destruct r as [[|]|e]|].
  rewrite Hst, Hid, Htid. exists o2, rest2. split; [done|]. split.
  - intros Hne. destruct (Hlong Hne) as (b2 & files & ids & o3 & ? & ? & ? & ? & ? & _).
    by exists b2, files, ids, o3.
  - destruct rest2 as [|e2 rest2].
    + split.
      * intros Hok. exfalso. apply Hshort; [done|].
        by destruct r as [[|]|e].
      * by intros (? & ? & ?).
    + destruct Hlong as (b2 & files & ids & o3 & -> & _ & _ & _ & Hrest & Hr);
        [done|]. injection Hrest as -> ->. subst r.
      destruct o3 as [st3 body3|]; simpl.
      * destruct (st3 =? 204)%Z eqn:Hst3; simpl.
        -- apply Z.eqb_eq in Hst3 as ->. split; [by eexists _, _|done].
        -- split; [done|]. intros (? & ? & [= _ Heq _]). subst st3. done.
      * split; [done|]. by intros (? & ? & ?).
Qed.

(** *** The candidate loop of the poll path *)

Lemma iteration_unreachable st r tr pre hs post :
  iteration st r tr →
  tr = pre ++ EvHttp (GetInstantAvailability hs) NoResponse :: post →
  post = [] ∧ r = Raise RequestException.
Proof.
  try clear network; try clear guess_type; try clear model_validate.
  intros Hit Htr.
  destruct Hit as [| |h o Hnew Hun|h o e Hnew Hraise|h o title Hnew Hav _
                   |h o title t Hnew Hav _ _|h o title e Hnew Hav _ _].
  - by destruct pre.
  - by destruct pre.
  - destruct Hun as (st0 & body & ? & -> & _).
    destruct pre as [|? [|??]]; simplify_eq/=.
  - destruct pre as [|? [|??]]; simplify_eq/=.
    destruct Hraise as [[_ ->]|(st0 & body & ? & _)]; [done|simplify_eq/=].
  - destruct Hav as (st0 & body & ? & ? & -> & _).
    destruct pre as [|? [|? [|??]]]; simplify_eq/=.
  - destruct Hav as (st0 & body & ? & ? & -> & _).
    destruct pre as [|? [|? [|??]]]; simplify_eq/=.
  - destruct Hav as (st0 & body & ? & ? & -> & _).
    destruct pre as [|? [|? [|??]]]; simplify_eq/=.
Qed.

Lemma rank_streams_unreachable streams : ∀ st (w w' : World) r tr pre hs post,
  rank_streams streams st w = (r, w', tr) →
  tr = pre ++ EvHttp (GetInstantAvailability hs) NoResponse :: post →
  post = [] ∧ r = Raise RequestException.
Proof.
  induction streams as [|stream streams IH]; intros st w w' r tr pre hs post.
  - intros [= <- <- <-] Htr. by destruct pre.
  - simpl. intros Hrun Htr.
    apply bind_run in Hrun
      as [([brk st1] & w1 & t1 & t2 & Hstep & Hrest & ->)|(e & Hstep & ->)].
    + apply poll_iteration_cases in Hstep.
      apply split_at_event in Htr
        as [(post1 & -> & ->)|(pre2 & -> & ->)].
      * by destruct (iteration_unreachable _ _ _ _ _ _ Hstep eq_refl).
      * simpl in Hrest. destruct brk.
        -- injection Hrest as <- <- Hnil. by destruct pre2.
        -- by eapply IH.
    + apply poll_iteration_cases in Hstep. subst tr.
      by destruct (iteration_unreachable _ _ _ _ _ _ Hstep eq_refl)
        as [-> [= ->]].
Qed.

(** X9.  When an availability check of a poll request gets no answer, the
    request ends there: that check is its last call, the outcome is the
    logged [RequestException], and nothing is committed or acknowledged,
    whatever candidates were accepted before. *)
Theorem unreachable_availability_aborts_the_request
    request (w : World) pre hs post :
  (process_overseerr_request request w).2
    = pre ++ EvHttp (GetInstantAvailability hs) NoResponse :: post →
  post = [] ∧
  (process_overseerr_request request w).1.1 = Ok (Errored RequestException) ∧
  commits (process_overseerr_request request w).2 = [] ∧
  acknowledgements (process_overseerr_request request w).2 = 0.
Proof.
  destruct (process_body request w) as [[r w'] tr] eqn:Hbody.
  destruct (process_overseerr_request_body _ _ _ _ _ _ _ _ _ Hbody)
    as [Htrace Hout].
  rewrite Htrace, Hout. clear Htrace Hout. intros Htr.
  apply process_body_run in Hbody
    as (head & loop & tail & -> & Hhead & Hcases).
  apply split_at_event in Htr as [(post1 & -> & _)|(pre2 & -> & Htr)].
  { apply Forall_app in Hhead as [_ Hhead].
    apply Forall_cons in Hhead as [[Hbad|Hbad] _]; done. }
  destruct Hcases as [(-> & -> & _)
                     |(items & w1 & w2 & rl & media_id & media_type & Hloop & Htail)].
  { by destruct pre2. }
  assert (∀ e, e ∈ tail → is_check e = false) as Hnocheck.
  { destruct rl as [st|e0]; [|destruct Htail as [_ ->]; by intros ? ?%elem_of_nil].
    destruct (top_torrents (ranked_torrents st)) as [|best ?];
      [destruct Htail as [_ ->]; by intros ? ?%elem_of_nil|].
    destruct Htail as (ra & w3 & t_add & t_ack & Hadd & -> & Hack).
    apply add_torrent_and_select_files_trace in Hadd
      as (o & rest & -> & Hfiles).
    intros e [[->|He]%elem_of_cons|He]%elem_of_app; [done| |].
    - rewrite Forall_forall in Hfiles. specialize (Hfiles _ He).
      by destruct e as [[]|].
    - destruct (commit_succeeded ra).
      + destruct Hack as (_ & o' & ->).
        by apply list_elem_of_singleton in He as ->.
      + destruct Hack as (-> & _). by apply elem_of_nil in He. }
  apply split_at_event in Htr as [(post1 & -> & ->)|(pre3 & _ & Htail')].
  - destruct (rank_streams_unreachable _ _ _ _ _ _ _ _ _ Hloop eq_refl)
      as [-> ->].
    destruct Htail as [-> ->]. split; [done|]. split; [done|].
    pose proof Hloop as Hfacts.
    apply rank_streams_facts in Hfacts as (Hchecks & _);
      [|simpl; lia|simpl; lia].
    apply check_only in Hchecks as (_ & Hc & _ & Ha).
    apply head_only in Hhead as (_ & _ & _ & Hc' & _ & Ha').
    rewrite app_nil_r, commits_app, acknowledgements_app, Hc, Hc', Ha, Ha'.
    done.
  - exfalso. assert (is_check (EvHttp (GetInstantAvailability hs) NoResponse)
                     = false) as Habs; [|done].
    apply Hnocheck. rewrite Htail'. apply elem_of_app. right. by left.
Qed.

(** *** The stages of a poll request *)

(** How the outcome of a poll request follows from its stages: the
    resolution and discovery calls [head], the candidate loop [loop], the
    commit of the best torrent and the acknowledgement [tail]. *)
Lemma process_body_stages request (w w' : World) r tr :
  process_body request w = (r, w', tr) →
  ∃ head loop tail,
    tr = head ++ loop ++ tail ∧
    Forall (λ e, is_resolution e = true ∨ is_discovery e = true) head ∧
    ((loop = [] ∧ tail = [] ∧
      (r = Ok ImdbNotFound ∨ r = Ok NoTorrentsFound ∨ ∃ e, r = Raise e))
     ∨ ∃ items w1 w2 rl media_id media_type,
         rank_streams items initial_state w1 = (rl, w2, loop) ∧
         match rl with
         | Raise e => r = Raise e ∧ tail = []
         | Ok st =>
             match top_torrents (ranked_torrents st) with
             | [] => r = Ok NoValidTorrents ∧ tail = []
             | best :: _ =>
                 ∃ ra w3 t_add t_ack,
                   add_torrent_and_select_files (infohash best)
                     (parsed_title best) (JStr "1") media_type w2
                   = (ra, w3, t_add) ∧
                   tail = t_add ++ t_ack ∧
                   match ra with
                   | Raise e => r = Raise e ∧ t_ack = []
                   | Ok result =>
                       match py_get result "success" JNull with
                       | Raise e => r = Raise e ∧ t_ack = []
                       | Ok flag =>
                           if truthy flag then
                             r = Ok Completed ∧
                             ∃ o, t_ack = [EvHttp (PostMarkAvailable media_id) o]
                           else r = Ok AddFailed ∧ t_ack = []
                       end
                   end
             end
         end).
Proof.
  unfold process_body. rewrite bind_lift_run.
  destruct (py_item request "media") as [media|e];
    [|intros [= <- <- <-]; exists [], [], []; split_and!;
      [done|constructor|left; split_and!; eauto]].
  rewrite bind_lift_run.
  destruct (py_item media "id") as [media_id|e];
    [|intros [= <- <- <-]; exists [], [], []; split_and!;
      [done|constructor|left; split_and!; eauto]].
  rewrite bind_lift_run.
  destruct (py_item media "tmdbId") as [tmdb_id|e];
    [|intros [= <- <- <-]; exists [], [], []; split_and!;
      [done|constructor|left; split_and!; eauto]].
  rewrite bind_lift_run.
  destruct (py_item media "mediaType") as [media_type|e];
    [|intros [= <- <- <-]; exists [], [], []; split_and!;
      [done|constructor|left; split_and!; eauto]].
  intros Hrun.
  apply bind_run in Hrun
    as [(imdb_id & w1 & t1 & t2 & Himdb & Hrun & ->)|(e & Himdb & ->)];
    apply trakt_attempts_run in Himdb as [Htrakt _].
  2:{ exists tr, [], []. split_and!; [by rewrite !app_nil_r| |].
      - eapply Forall_impl; [exact Htrakt|]. intros ? [o ->]. by left.
      - left. split_and!; eauto. }
  assert (Forall (λ e, is_resolution e = true ∨ is_discovery e = true) t1) as Hhead1.
  { eapply Forall_impl; [exact Htrakt|]. intros ? [o ->]. by left. }
  destruct (truthy imdb_id); simpl in Hrun.
  2:{ injection Hrun as <- <- <-. exists t1, [], [].
      split_and!; [done|done|]. left. split_and!; eauto. }
  apply bind_run in Hrun
    as [(results & w2 & t3 & t4 & Hdisc & Hrun & ->)|(e & Hdisc & ->)];
    apply torrentio_attempts_run in Hdisc.
  2:{ exists (t1 ++ t2), [], []. split_and!; [by rewrite !app_nil_r| |].
      - apply Forall_app. split; [done|].
        eapply Forall_impl; [exact Hdisc|]. intros ? [o ->]. by right.
      - left. split_and!; eauto. }
  assert (Forall (λ e, is_resolution e = true ∨ is_discovery e = true) (t1 ++ t3))
    as Hhead.
  { apply Forall_app. split; [done|].
    eapply Forall_impl; [exact Hdisc|]. intros ? [o ->]. by right. }
  destruct (truthy results); simpl in Hrun.
  2:{ injection Hrun as <- <- <-. exists (t1 ++ t3), [], [].
      split_and!; [by rewrite !app_nil_r|done|]. left. split_and!; eauto. }
  rewrite bind_lift_run in Hrun.
  destruct (py_get results "streams" JNull) as [streams|e].
  2:{ injection Hrun as <- <- <-. exists (t1 ++ t3), [], [].
      split_and!; [by rewrite !app_nil_r|done|]. left. split_and!; eauto. }
  destruct (truthy streams); simpl in Hrun.
  2:{ injection Hrun as <- <- <-. exists (t1 ++ t3), [], [].
      split_and!; [by rewrite !app_nil_r|done|]. left. split_and!; eauto. }
  rewrite bind_lift_run in Hrun.
  destruct (py_iter streams) as [items|e].
  2:{ injection Hrun as <- <- <-. exists (t1 ++ t3), [], [].
      split_and!; [by rewrite !app_nil_r|done|]. left. split_and!; eauto. }
  apply bind_run in Hrun
    as [(st & w3 & t5 & t6 & Hloop & Hrun & ->)|(e & Hloop & ->)].
  2:{ exists (t1 ++ t3), t4, []. split_and!; [by rewrite !app_nil_r, app_assoc|done|].
      right. exists items, w2, w', (Raise e), media_id, media_type. by split. }
  exists (t1 ++ t3), t5, t6. split_and!; [by rewrite !app_assoc|done|].
  right. exists items, w2, w3, (Ok st), media_id, media_type. split; [done|].
  destruct (top_torrents (ranked_torrents st)) as [|best rest].
  { by injection Hrun as <- <- <-. }
  apply bind_run in Hrun
    as [(result & w4 & t7 & t8 & Hadd & Hrun & ->)|(e & Hadd & ->)].
  2:{ exists (Raise e), w', t6, []. by rewrite app_nil_r. }
  exists (Ok result), w4, t7, t8. split_and!; [done|done|].
  rewrite bind_lift_run in Hrun.
  destruct (py_get result "success" JNull) as [flag|e].
  2:{ by injection Hrun as <- <- <-. }
  destruct (truthy flag).
  - apply bind_run in Hrun
      as [(ok & w5 & t9 & t10 & Hmark & Hrun & ->)|(e & Hmark & ->)];
      apply mark_completed_run in Hmark as (o & ok' & -> & Hok); [|done].
    injection Hrun as <- <- <-. split; [done|]. by exists o.
  - by injection Hrun as <- <- <-.
Qed.

Lemma commit_tail_events info_hash name file_idx media_type (w w' : World)
    ra t_add t_ack media_id :
  add_torrent_and_select_files info_hash name file_idx media_type w
    = (ra, w', t_add) →
  (t_ack = [] ∨ ∃ o, t_ack = [EvHttp (PostMarkAvailable media_id) o]) →
  ∀ pre h n o post,
    t_add ++ t_ack = pre ++ EvHttp (PostAddMagnet h n) o :: post →
    pre = [] ∧ ∃ rest, t_add = EvHttp (PostAddMagnet h n) o :: rest ∧
                       post = rest ++ t_ack.
Proof.
  intros Hadd Hack pre h n o post Heq.
  apply add_torrent_and_select_files_trace in Hadd
    as (o0 & rest & -> & Hfiles).
  destruct pre as [|e pre].
  - simpl in Heq. injection Heq as <- <- <- <-. split; [done|]. by exists rest.
  - exfalso. simpl in Heq. injection Heq as <- Heq.
    assert (EvHttp (PostAddMagnet h n) o ∈ rest ++ t_ack) as Hin.
    { rewrite Heq. apply elem_of_app. right. by left. }
    apply elem_of_app in Hin as [Hin|Hin].
    + rewrite Forall_forall in Hfiles. by specialize (Hfiles _ Hin).
    + destruct Hack as [->|[o' ->]]; [by apply elem_of_nil in Hin|].
      by apply list_elem_of_singleton in Hin.
Qed.

(** X10.  A magnet submission of a poll request answered with another
    status than 201 ends the request at that call: the commit stage
    answers [None], reading its ["success"] raises, and the request is
    logged as an [AttributeError] rather than as a failed addition;
    nothing is acknowledged. *)
Theorem refused_submission_is_logged_as_an_error
    request (w : World) pre info_hash name st body post :
  (process_overseerr_request request w).2
    = pre ++ EvHttp (PostAddMagnet info_hash name) (Response st body) :: post →
  st ≠ 201%Z →
  post = [] ∧
  (process_overseerr_request request w).1.1 = Ok (Errored AttributeError) ∧
  acknowledgements (process_overseerr_request request w).2 = 0.
Proof.
  destruct (process_body request w) as [[r w'] tr] eqn:Hbody.
  destruct (process_overseerr_request_body _ _ _ _ _ _ _ _ _ Hbody)
    as [Htrace Hout].
  rewrite Htrace, Hout. clear Htrace Hout. intros Htr Hst.
  apply process_body_stages in Hbody
    as (head & loop & tail & -> & Hhead & Hcases).
  apply split_at_event in Htr as [(post1 & -> & _)|(pre2 & -> & Htr)].
  { exfalso. eapply commit_not_in_head; [exact Hhead|].
    apply elem_of_app. right. by left. }
  destruct Hcases as [(-> & -> & _)
                     |(items & w1 & w2 & rl & media_id & media_type & Hloop & Htail)].
  { by destruct pre2. }
  pose proof Hloop as Hfacts.
  apply rank_streams_facts in Hfacts as (Hchecks & _); [|simpl; lia|simpl; lia].
  apply split_at_event in Htr as [(post1 & -> & _)|(pre3 & -> & Htail')].
  { exfalso. eapply commit_not_in_loop; [exact Hchecks|].
    apply elem_of_app. right. by left. }
  destruct rl as [st0|e0]; [|destruct Htail as [_ ->]; by destruct pre3].
  destruct (top_torrents (ranked_torrents st0)) as [|best ?];
    [destruct Htail as [_ ->]; by destruct pre3|].
  destruct Htail as (ra & w3 & t_add & t_ack & Hadd & -> & Hr).
  assert (t_ack = [] ∨ ∃ o, t_ack = [EvHttp (PostMarkAvailable media_id) o])
    as Hack.
  { destruct ra as [result|e]; [|left; apply Hr].
    destruct (py_get result "success" JNull) as [flag|e]; [|left; apply Hr].
    destruct (truthy flag); [right; apply Hr|left; apply Hr]. }
  destruct (commit_tail_events _ _ _ _ _ _ _ _ _ _ Hadd Hack _ _ _ _ _ Htail')
    as (-> & rest & -> & ->).
  rewrite add_torrent_and_select_files_run in Hadd.
  destruct (network (PostAddMagnet (infohash best) (parsed_title best)) w2)
    as [[st1 body1|] w4]; [|by injection Hadd].
  simpl in Hadd. destruct (st1 =? 201)%Z eqn:Hst1.
  { apply Z.eqb_eq in Hst1. exfalso.
    destruct (py_get body1 "id" JNull) as [tid|e]; [|by simplify_eq].
    destruct (truthy tid); [|by simplify_eq].
    destruct (select_files_in_rd tid (JStr "1") media_type w4)
      as [[[[|]|e] ?] ?]; by simplify_eq. }
  simplify_eq. simpl in Hr. destruct Hr as [-> ->].
  split; [done|]. split; [done|].
  apply check_only in Hchecks as (_ & _ & _ & Ha).
  apply head_only in Hhead as (_ & _ & _ & _ & _ & Ha').
  rewrite !acknowledgements_app, Ha, Ha'. done.
Qed.

(** X11.  A poll request never raises: every exception of its stages is
    caught and becomes the logged outcome.  The outcome tells what was
    called: after "IMDb ID not found" only the resolver was called; after
    "No torrents found" only the resolver and the discovery; after "No
    valid torrents" no candidate was accepted and nothing was committed;
    a failed addition comes after exactly one commit; the request is never
    completed and nothing is ever acknowledged. *)
Theorem poll_outcome_reflects_the_calls request (w : World) :
  ∃ outcome,
    (process_overseerr_request request w).1.1 = Ok outcome ∧
    match outcome with
    | ImdbNotFound | NoTorrentsFound =>
        Forall (λ e, is_resolution e = true ∨ is_discovery e = true)
          (process_overseerr_request request w).2
    | NoValidTorrents =>
        accepted (process_overseerr_request request w).2 = [] ∧
        commits (process_overseerr_request request w).2 = [] ∧
        acknowledgements (process_overseerr_request request w).2 = 0
    | AddFailed =>
        length (commits (process_overseerr_request request w).2) = 1 ∧
        acknowledgements (process_overseerr_request request w).2 = 0
    | Completed => False
    | Errored _ =>
        length (commits (process_overseerr_request request w).2) ≤ 1 ∧
        acknowledgements (process_overseerr_request request w).2 = 0
    end.
Proof.
  destruct (process_body request w) as [[r w'] tr] eqn:Hbody.
  destruct (process_overseerr_request_body _ _ _ _ _ _ _ _ _ Hbody)
    as [Htrace Hout].
  rewrite Htrace, Hout. clear Htrace Hout. eexists. split; [done|].
  apply process_body_stages in Hbody
    as (head & loop & tail & -> & Hhead & Hcases).
  pose proof (head_only _ Hhead) as (_ & _ & Hah & Hch & _ & Hkh).
  destruct Hcases as [(-> & -> & Hr)
                     |(items & w1 & w2 & rl & media_id & media_type & Hloop & Htail)].
  { rewrite !app_nil_r.
    destruct Hr as [->|[->|[e ->]]]; [done|done|].
    rewrite Hch, Hkh. simpl. split; [lia|done]. }
  pose proof Hloop as Hfacts.
  apply rank_streams_facts in Hfacts as (Hchecks & _ & _ & _ & _ & _ & _ & Hst);
    [|simpl; lia|simpl; lia].
  pose proof (check_only _ Hchecks) as (_ & Hcl & _ & Hkl).
  rewrite !commits_app, !acknowledgements_app, !accepted_app, Hch, Hkh, Hah,
    Hcl, Hkl. simpl.
  destruct rl as [st|e].
  2:{ destruct Htail as [-> ->]. simpl. split; [lia|done]. }
  destruct (Hst st eq_refl) as (Hranked & _). simpl in Hranked.
  destruct (top_torrents (ranked_torrents st)) as [|best ?] eqn:Htop.
  { destruct Htail as [-> ->]. simpl. rewrite app_nil_r. split; [|done].
    rewrite <- Hranked. clear -Htop. unfold top_torrents in Htop.
    pose proof (sorted_torrents_permutation (ranked_torrents st)) as Hperm.
    destruct (sorted_torrents (ranked_torrents st)) as [|t l]; [|done].
    by apply Permutation_nil in Hperm. }
  destruct Htail as (ra & w3 & t_add & t_ack & Hadd & -> & Hr).
  pose proof Hadd as Hshape.
  apply add_torrent_and_select_files_trace in Hshape.
  apply add_trace_readings in Hshape as (_ & _ & _ & Hca & Hka).
  apply string_index_commit in Hadd as (Hfailed & _).
  rewrite commits_app, acknowledgements_app, Hca, Hka. simpl.
  destruct ra as [result|e]; [|destruct Hr as [-> ->]; simpl; split; [lia|done]].
  simpl in Hfailed.
  destruct (py_get result "success" JNull) as [flag|e];
    [|destruct Hr as [-> ->]; simpl; split; [lia|done]].
  rewrite Hfailed in Hr. by destruct Hr as [-> ->].
Qed.

(** *** Which streams the poll loop checks *)

Lemma truthy_str h : truthy (JStr h) = true ↔ h ≠ "".
Proof. by destruct h. Qed.

Lemma poll_iteration_candidates stream st (w w' : World) r tr :
  poll_iteration stream st w = (r, w', tr) →
  garbage_count st < 5 →
  garbage_count st ≤ size (checked_hashes st) →
  (∀ h, h ∈ checks tr → poll_candidate stream h) ∧
  (∀ h, poll_candidate stream h → (∃ step, r = Ok step) →
        h ∈ checks tr ∨ h ∈ checked_hashes st).
Proof.
  intros Hrun Hlt Hle.
  pose proof Hrun as Hit. apply poll_iteration_cases in Hit.
  apply iteration_facts in Hit as (_ & _ & Hone & _); [|done|done].
  revert Hrun. unfold poll_iteration. rewrite bind_lift_run.
  destruct (py_get stream "infoHash" JNull) as [info_hash|e] eqn:Hhash.
  2:{ intros [= <- <- <-]. split; [by intros ? ?%elem_of_nil|].
      by intros ? _ [? ?]. }
  rewrite bind_lift_run.
  destruct (py_get stream "title" JNull) as [title|e] eqn:Htitle.
  2:{ intros [= <- <- <-]. split; [by intros ? ?%elem_of_nil|].
      by intros ? _ [? ?]. }
  destruct (truthy info_hash && truthy title) eqn:Htruthy.
  2:{ intros [= <- <- <-]. split; [by intros ? ?%elem_of_nil|].
      intros h (Hh & Hne & title' & Ht & Htt) _. exfalso.
      rewrite Hhash in Hh. injection Hh as ->.
      rewrite Ht in Htitle. injection Htitle as ->.
      apply truthy_str in Hne. by rewrite Hne, Htt in Htruthy. }
  apply andb_true_iff in Htruthy as [Hth Htt].
  destruct info_hash as [| | |h0| |];
    try (intros [= <- <- <-]; split; [by intros ? ?%elem_of_nil|];
         by intros ? _ [? ?]).
  assert (poll_candidate stream h0) as Hcand.
  { split; [done|]. split; [by apply truthy_str|]. by exists title. }
  case_bool_decide as Hchecked.
  { intros [= <- <- <-]. split; [by intros ? ?%elem_of_nil|].
    intros h (Hh & _) _. rewrite Hhash in Hh. injection Hh as <-. by right. }
  intros Hrun.
  assert (∃ o rest, tr = EvHttp (GetInstantAvailability [h0]) o :: rest)
    as (o & rest & ->).
  { apply bind_run in Hrun
      as [(rd & w1 & t1 & t2 & Hcheck & _ & ->)|(e & Hcheck & _)];
      apply check_rd_availability_cases in Hcheck as (o & -> & _);
      by eexists _, _. }
  assert (checks (EvHttp (GetInstantAvailability [h0]) o :: rest) = [h0])
    as Hchecks.
  { change (checks (EvHttp (GetInstantAvailability [h0]) o :: rest))
      with (h0 :: checks rest) in *.
    simpl in Hone. destruct (checks rest); [done|simpl in Hone; lia]. }
  rewrite Hchecks. split.
  - by intros h ->%list_elem_of_singleton.
  - intros h (Hh & _) _. rewrite Hhash in Hh. injection Hh as <-.
    left. by left.
Qed.

Lemma rank_streams_candidates streams : ∀ st (w w' : World) r tr,
  rank_streams streams st w = (r, w', tr) →
  garbage_count st < 5 →
  garbage_count st ≤ size (checked_hashes st) →
  (∀ h, h ∈ checks tr → ∃ stream, stream ∈ streams ∧ poll_candidate stream h) ∧
  length (checks tr) ≤ length streams ∧
  ∀ st', r = Ok st' →
    (∀ h, h ∈ checked_hashes st' ↔ h ∈ checks tr ∨ h ∈ checked_hashes st) ∧
    garbage_count st' = garbage_count st + rejections tr ∧
    (garbage_count st' < 5 →
     ∀ stream h, stream ∈ streams → poll_candidate stream h →
                 h ∈ checked_hashes st').
Proof.
  try clear guess_type; try clear model_validate.
  induction streams as [|stream streams IH]; intros st w w' r tr.
  - intros [= <- <- <-] _ _. split; [by intros ? ?%elem_of_nil|].
    split; [done|]. intros st' [= <-]. split_and!.
    + intros h. split; [by right|]. by intros [?%elem_of_nil|?].
    + unfold rejections. simpl. lia.
    + by intros _ ? ? ?%elem_of_nil.
  - simpl. intros Hrun Hlt Hle.
    apply bind_run in Hrun
      as [([brk st1] & w1 & t1 & t2 & Hstep & Hrest & ->)|(e & Hstep & ->)].
    + pose proof (poll_iteration_candidates _ _ _ _ _ _ Hstep Hlt Hle)
        as [Hfrom Hall].
      apply poll_iteration_cases in Hstep.
      apply iteration_facts in Hstep
        as (_ & Hcount & Hone & _ & _ & _ & _ & Hg & Hle1 & _ & Hmem & Hbrk);
        [|done|done].
      simpl in Hrest. destruct brk.
      * injection Hrest as <- <- <-. rewrite app_nil_r. split_and!.
        -- intros h Hh. exists stream. split; [by left|by apply Hfrom].
        -- simpl. lia.
        -- intros st' [= <-]. split_and!; [done|done|].
           intros Hlt'. assert (garbage_count st1 = 5) by by apply Hbrk. lia.
      * assert (garbage_count st1 ≠ 5) as Hno.
        { intros Hfive. apply Hbrk in Hfive. done. }
        apply IH in Hrest as (Hfrom' & Hlen & Hok); [|lia|done].
        rewrite checks_app, rejections_app, length_app. split_and!.
        -- intros h [Hh|Hh]%elem_of_app.
           ++ exists stream. split; [by left|by apply Hfrom].
           ++ destruct (Hfrom' _ Hh) as (s & Hs & Hc). exists s.
              split; [by right|done].
        -- simpl. lia.
        -- intros st' Hst'. destruct (Hok _ Hst') as (Hmem' & Hg' & Hcomplete).
           split_and!.
           ++ intros h. rewrite Hmem', Hmem, elem_of_app. tauto.
           ++ lia.
           ++ intros Hlt' s h [->|Hs]%elem_of_cons Hc.
              ** apply Hmem'. right. apply Hmem. apply Hall; [done|by eexists].
              ** by eapply Hcomplete.
    + pose proof (poll_iteration_candidates _ _ _ _ _ _ Hstep Hlt Hle)
        as [Hfrom _].
      apply poll_iteration_cases in Hstep.
      apply iteration_facts in Hstep as (_ & _ & Hone & _); [|done|done].
      split_and!.
      * intros h Hh. exists stream. split; [by left|by apply Hfrom].
      * simpl. lia.
      * by intros st' [=].
Qed.

(** X12.  The candidate loop of a poll request checks only streams whose
    ["infoHash"] is a non-empty string and whose ["title"] is truthy, each
    hash at most once, so it makes at most one check per stream.  When the
    loop runs to its end without stopping at the fifth rejection, every
    such stream has had its hash checked. *)
Theorem poll_loop_checks_each_candidate_once streams (w : World) :
  (∀ h, h ∈ checks (rank_streams streams initial_state w).2 →
        ∃ stream, stream ∈ streams ∧ poll_candidate stream h) ∧
  NoDup (checks (rank_streams streams initial_state w).2) ∧
  length (checks (rank_streams streams initial_state w).2) ≤ length streams ∧
  (∀ st', (rank_streams streams initial_state w).1.1 = Ok st' →
     rejections (rank_streams streams initial_state w).2 < 5 →
     ∀ stream h, stream ∈ streams → poll_candidate stream h →
       h ∈ checks (rank_streams streams initial_state w).2).
Proof.
  destruct (rank_streams streams initial_state w) as [[r w'] tr] eqn:Hrun.
  simpl.
  pose proof Hrun as Hfacts.
  apply rank_streams_facts in Hfacts as (_ & _ & _ & Hnodup & _);
    [|simpl; lia|simpl; lia].
  apply rank_streams_candidates in Hrun as (Hfrom & Hlen & Hok);
    [|simpl; lia|simpl; lia].
  split_and!; [done|done|done|].
  intros st' -> Hlt stream h Hin Hc.
  destruct (Hok st' eq_refl) as (Hmem & Hg & Hcomplete).
  simpl in Hg. specialize (Hcomplete ltac:(lia) stream h Hin Hc).
  apply Hmem in Hcomplete as [?|Hempty]; [done|].
  simpl in Hempty. by apply elem_of_empty in Hempty.
Qed.

(** *** The exceptions of the commit stage *)

Lemma result_bind_not_garbage {A B} (x : result A) (f : A → result B) :
  x ≠ Raise GarbageTorrent → (∀ a, f a ≠ Raise GarbageTorrent) →
  result_bind x f ≠ Raise GarbageTorrent.
Proof.
  destruct x as [a|e]; simpl; [by intros _ Hf|].
  intros Hx _ [= ->]. by destruct Hx.
Qed.

Lemma py_get_not_garbage d k default : py_get d k default ≠ Raise GarbageTorrent.
Proof. by destruct d. Qed.

Lemma py_item_not_garbage d k : py_item d k ≠ Raise GarbageTorrent.
Proof. destruct d; simpl; try done. by destruct (assoc k items). Qed.

Lemma index_out_of_range_not_garbage file_idx files :
  index_out_of_range file_idx files ≠ Raise GarbageTorrent.
Proof.
  unfold index_out_of_range. apply result_bind_not_garbage.
  - by destruct file_idx.
  - intros i. destruct (i <? 0)%Z; [done|].
    apply result_bind_not_garbage; [by destruct files|done].
Qed.

Lemma playable_files_not_garbage files :
  playable_files guess_type files ≠ Raise GarbageTorrent.
Proof.
  induction files as [|file files IH]; simpl; [done|].
  apply result_bind_not_garbage; [apply py_get_not_garbage|]. intros path.
  apply result_bind_not_garbage.
  - destruct path; simpl; try done. by destruct (guess_type s).
  - intros [|]; [|done].
    apply result_bind_not_garbage; [apply py_item_not_garbage|]. intros id.
    by apply result_bind_not_garbage.
Qed.

Lemma files_to_select_not_garbage file_idx media_type files :
  files_to_select guess_type file_idx media_type files ≠ Raise GarbageTorrent.
Proof.
  unfold files_to_select. destruct (py_eq_str media_type "movie").
  - apply result_bind_not_garbage; [by destruct file_idx|]. intros i.
    apply result_bind_not_garbage.
    + destruct files; simpl; try done.
      * by destruct (chars s !! Z.to_nat i).
      * by destruct (items !! Z.to_nat i).
    + intros file.
      apply result_bind_not_garbage; [apply py_item_not_garbage|done].
  - destruct (py_eq_str media_type "tv"); [|done].
    apply result_bind_not_garbage; [by destruct files|]. intros items.
    apply result_bind_not_garbage; [apply playable_files_not_garbage|].
    by intros [|??].
Qed.

Lemma select_files_in_rd_not_garbage torrent_id file_idx media_type (w : World) :
  (select_files_in_rd torrent_id file_idx media_type w).1.1
  ≠ Raise GarbageTorrent.
Proof.
  rewrite select_files_in_rd_run.
  destruct (network (GetTorrentInfo torrent_id) w) as [[st body|] w1]; [|done].
  simpl. destruct (negb (st =? 200)%Z); [done|].
  pose proof (py_get_not_garbage body "files" (JList [])) as Hfiles.
  destruct (py_get body "files" (JList [])) as [files|e]; [|simpl; congruence].
  pose proof (index_out_of_range_not_garbage file_idx files) as Hrange.
  destruct (index_out_of_range file_idx files) as [[|]|e];
    [done| |simpl; congruence].
  pose proof (files_to_select_not_garbage file_idx media_type files) as Hsel.
  destruct (files_to_select guess_type file_idx media_type files)
    as [[ids|]|e]; [|done|simpl; congruence].
  by destruct (network (PostSelectFiles torrent_id ids) w1) as [[st2 body2|] w2].
Qed.

Lemma add_torrent_and_select_files_not_garbage
    info_hash name file_idx media_type (w : World) :
  (add_torrent_and_select_files info_hash name file_idx media_type w).1.1
  ≠ Raise GarbageTorrent.
Proof.
  rewrite add_torrent_and_select_files_run.
  destruct (network (PostAddMagnet info_hash name) w) as [[st body|] w1];
    [|done].
  simpl. destruct (st =? 201)%Z; [|done].
  pose proof (py_get_not_garbage body "id" JNull) as Hid.
  destruct (py_get body "id" JNull) as [tid|e]; [|simpl; congruence].
  destruct (truthy tid); [|done].
  pose proof (select_files_in_rd_not_garbage tid file_idx media_type w1) as Hsel.
  destruct (select_files_in_rd tid file_idx media_type w1) as [[[[|]|e] w2] t2];
    simpl in *; congruence.
Qed.

(** *** The candidate loop of the push path *)

(** One run of the [try] block of the push loop: a verdict that rejects
    ([continue]) or raises, or an accepting verdict followed by the commit
    of that torrent, whose result decides the reply. *)
Lemma rank_and_add_run title h file_idx media_type (w w' : World) r tr :
  rank_and_add title h file_idx media_type w = (r, w', tr) →
  (tr = [EvRank title h (rtn_rank title h)] ∧
   accepted tr = [] ∧
   (r = Ok None ∨ ∃ e, r = Raise e))
  ∨ ∃ t ra t_add,
      rtn_rank title h = Ok t ∧ fetch t = true ∧
      add_torrent_and_select_files (infohash t) (parsed_title t)
        file_idx media_type w = (ra, w', t_add) ∧
      tr = EvRank title h (Ok t) :: t_add ∧
      r = match ra with
          | Raise e => Raise e
          | Ok result =>
              match py_get result "success" JNull with
              | Raise e => Raise e
              | Ok flag =>
                  Ok (Some (if truthy flag
                            then {| success := true;
                                    message := Text "Torrent added" |}
                            else {| success := false;
                                    message :=
                                      Text "Failed to add torrent to Real-Debrid" |}))
              end
          end.
Proof.
  unfold rank_and_add, try_except, bind at 1, rtn_rank_call.
  destruct (rtn_rank title h) as [t|e] eqn:Hrank.
  2:{ destruct (decide (e = GarbageTorrent)) as [->|Hne];
        intros [= <- <- <-]; left; (split; [done|]); split; eauto. }
  destruct (fetch t) eqn:Hfetch.
  2:{ intros [= <- <- <-]. left. split; [done|]. split; [|by left].
      unfold accepted. simpl. by rewrite Hfetch. }
  unfold bind.
  pose proof (add_torrent_and_select_files_not_garbage (infohash t)
                (parsed_title t) file_idx media_type w) as Hnot.
  destruct (add_torrent_and_select_files (infohash t) (parsed_title t)
              file_idx media_type w) as [[ra w1] t_add] eqn:Hadd.
  simpl in Hnot. intros Hrun. right. exists t, ra, t_add.
  destruct ra as [result|e].
  - unfold lift in Hrun.
    pose proof (py_get_not_garbage result "success" JNull) as Hflag.
    destruct (py_get result "success" JNull) as [flag|e].
    + destruct (truthy flag); injection Hrun as <- <- <-;
        by rewrite app_nil_r.
    + destruct (decide (e = GarbageTorrent)) as [->|Hne]; [done|].
      injection Hrun as <- <- <-. by rewrite app_nil_r.
  - destruct (decide (e = GarbageTorrent)) as [->|Hne]; [done|].
    by injection Hrun as <- <- <-.
Qed.

Lemma rank_follows_check_http tr :
  Forall (λ e, ∃ c o, e = EvHttp c o) tr → rank_follows_check tr.
Proof.
  intros Hall pre title h r post ->. apply Forall_app in Hall as [_ Hall].
  by apply Forall_cons in Hall as [(c & o & ?) _].
Qed.

Lemma rank_follows_check_app tr1 tr2 :
  rank_follows_check tr1 → rank_follows_check tr2 →
  rank_follows_check (tr1 ++ tr2).
Proof.
  intros H1 H2 pre title h r post Heq.
  apply split_at_event in Heq as [(post1 & -> & ->)|(pre2 & -> & ->)].
  - by eapply H1.
  - destruct (H2 pre2 title h r post eq_refl) as (Hr & pre' & o & -> & Hav).
    split; [done|]. exists (tr1 ++ pre'), o. by rewrite app_assoc.
Qed.

Lemma rank_follows_check_pair h o title :
  available h o →
  rank_follows_check
    [EvHttp (GetInstantAvailability [h]) o; EvRank title h (rtn_rank title h)].
Proof.
  intros Hav pre title' h' r post Heq.
  destruct pre as [|e1 [|e2 [|??]]]; simplify_eq/=.
  split; [done|]. by exists [], o.
Qed.

Lemma push_streams_run media_type streams : ∀ (w w' : World) r tr,
  push_streams media_type streams w = (r, w', tr) →
  ∃ scan last,
    tr = scan ++ last ∧
    Forall (λ e, is_check e = true) scan ∧
    accepted scan = [] ∧
    rank_follows_check scan ∧
    (∀ h, h ∈ checks scan →
          ∃ stream, stream ∈ streams ∧ push_candidate stream h) ∧
    ((last = [] ∧
      (r = Ok {| success := false;
                 message := Text "No torrents available on Real-Debrid" |}
       ∨ ∃ e, r = Raise e))
     ∨ ∃ stream h o title file_idx t ra w1 t_add,
         stream ∈ streams ∧ push_candidate stream h ∧
         py_get stream "title" JNull = Ok title ∧
         py_get stream "fileIdx" JNull = Ok file_idx ∧
         available h o ∧ rtn_rank title h = Ok t ∧ fetch t = true ∧
         add_torrent_and_select_files (infohash t) (parsed_title t)
           file_idx media_type w1 = (ra, w', t_add) ∧
         last = EvHttp (GetInstantAvailability [h]) o
                :: EvRank title h (Ok t) :: t_add ∧
         r = match ra with
             | Raise e => Raise e
             | Ok result =>
                 match py_get result "success" JNull with
                 | Raise e => Raise e
                 | Ok flag =>
                     Ok (if truthy flag
                         then {| success := true;
                                 message := Text "Torrent added" |}
                         else {| success := false;
                                 message :=
                                   Text "Failed to add torrent to Real-Debrid" |})
                 end
             end).
Proof.
  induction streams as [|stream rest IH]; intros w w' r tr.
  { intros [= <- <- <-]. exists [], []. split_and!; try done.
    - apply rank_follows_check_http. constructor.
    - by intros ? ?%elem_of_nil.
    - left. split; [done|by left]. }
  assert (∀ t0 (w0 : World) t2,
            Forall (λ e, is_check e = true) t0 → accepted t0 = [] →
            rank_follows_check t0 →
            (∀ h, h ∈ checks t0 → push_candidate stream h) →
            push_streams media_type rest w0 = (r, w', t2) →
            ∃ scan last,
              t0 ++ t2 = scan ++ last ∧
              Forall (λ e, is_check e = true) scan ∧
              accepted scan = [] ∧
              rank_follows_check scan ∧
              (∀ h, h ∈ checks scan →
                    ∃ s, s ∈ stream :: rest ∧ push_candidate s h) ∧
              ((last = [] ∧
                (r = Ok {| success := false;
                           message := Text "No torrents available on Real-Debrid" |}
                 ∨ ∃ e, r = Raise e))
               ∨ ∃ s h o title file_idx t ra w1 t_add,
                   s ∈ stream :: rest ∧ push_candidate s h ∧
                   py_get s "title" JNull = Ok title ∧
                   py_get s "fileIdx" JNull = Ok file_idx ∧
                   available h o ∧ rtn_rank title h = Ok t ∧ fetch t = true ∧
                   add_torrent_and_select_files (infohash t) (parsed_title t)
                     file_idx media_type w1 = (ra, w', t_add) ∧
                   last = EvHttp (GetInstantAvailability [h]) o
                          :: EvRank title h (Ok t) :: t_add ∧
                   r = match ra with
                       | Raise e => Raise e
                       | Ok result =>
                           match py_get result "success" JNull with
                           | Raise e => Raise e
                           | Ok flag =>
                               Ok (if truthy flag
                                   then {| success := true;
                                           message := Text "Torrent added" |}
                                   else {| success := false;
                                           message :=
                                             Text "Failed to add torrent to Real-Debrid" |})
                           end
                       end)) as Hcontinue.
  { intros t0 w0 t2 Hc0 Ha0 Hf0 Hcand0 Hrun.
    apply IH in Hrun as (scan & last & -> & Hc & Ha & Hf & Hcand & Hlast).
    exists (t0 ++ scan), last. split; [by rewrite app_assoc|]. split_and!.
    - by apply Forall_app.
    - by rewrite accepted_app, Ha0, Ha.
    - by apply rank_follows_check_app.
    - intros h. rewrite checks_app. intros [Hh|Hh]%elem_of_app.
      + exists stream. split; [by left|by apply Hcand0].
      + destruct (Hcand _ Hh) as (s & Hs & Hp). exists s. split; [by right|done].
    - destruct Hlast as [Hend|(s & h & o & title & file_idx & t & ra & w1 & t_add
                               & Hs & Hrest)]; [by left|].
      right. exists s, h, o, title, file_idx, t, ra, w1, t_add.
      split; [by right|done]. }
  assert (∀ t0 e,
            Forall (λ e, is_check e = true) t0 → accepted t0 = [] →
            rank_follows_check t0 →
            (∀ h, h ∈ checks t0 → push_candidate stream h) →
            ∃ scan last,
              t0 = scan ++ last ∧
              Forall (λ e, is_check e = true) scan ∧
              accepted scan = [] ∧
              rank_follows_check scan ∧
              (∀ h, h ∈ checks scan →
                    ∃ s, s ∈ stream :: rest ∧ push_candidate s h) ∧
              ((last = [] ∧
                (@Raise reply e
                 = Ok {| success := false;
                         message := Text "No torrents available on Real-Debrid" |}
                 ∨ ∃ e', @Raise reply e = Raise e'))
               ∨ ∃ s h o title file_idx t ra w1 t_add,
                   s ∈ stream :: rest ∧ push_candidate s h ∧
                   py_get s "title" JNull = Ok title ∧
                   py_get s "fileIdx" JNull = Ok file_idx ∧
                   available h o ∧ rtn_rank title h = Ok t ∧ fetch t = true ∧
                   add_torrent_and_select_files (infohash t) (parsed_title t)
                     file_idx media_type w1 = (ra, w', t_add) ∧
                   last = EvHttp (GetInstantAvailability [h]) o
                          :: EvRank title h (Ok t) :: t_add ∧
                   @Raise reply e
                   = match ra with
                     | Raise e => Raise e
                     | Ok result =>
                         match py_get result "success" JNull with
                         | Raise e => Raise e
                         | Ok flag =>
                             Ok (if truthy flag
                                 then {| success := true;
                                         message := Text "Torrent added" |}
                                 else {| success := false;
                                         message :=
                                           Text "Failed to add torrent to Real-Debrid" |})
                         end
                     end)) as Hstop.
  { intros t0 e Hc0 Ha0 Hf0 Hcand0. exists t0, [].
    split; [by rewrite app_nil_r|]. split_and!; try done.
    - intros h Hh. exists stream. split; [by left|by apply Hcand0].
    - left. split; [done|]. right. by exists e. }
  assert (rank_follows_check []) as Hnil.
  { apply rank_follows_check_http. constructor. }
  assert (∀ h, h ∈ checks [] → push_candidate stream h) as Hnone.
  { by intros ? ?%elem_of_nil. }
  simpl. rewrite bind_lift_run.
  destruct (py_get stream "infoHash" JNull) as [info_hash|e] eqn:Hhash;
    [|intros [= <- <- <-]; by apply Hstop].
  rewrite bind_lift_run.
  destruct (py_get stream "title" JNull) as [title|e] eqn:Htitle;
    [|intros [= <- <- <-]; by apply Hstop].
  rewrite bind_lift_run.
  destruct (py_get stream "fileIdx" JNull) as [file_idx|e] eqn:Hidx;
    [|intros [= <- <- <-]; by apply Hstop].
  destruct (truthy info_hash && truthy title
            && negb match file_idx with JNull => true | _ => false end)
    eqn:Hcond; [|by apply (Hcontinue [])].
  apply andb_true_iff in Hcond as [Hcond Hfile].
  apply andb_true_iff in Hcond as [Hth Htt].
  destruct info_hash as [| | |h| |];
    try (intros [= <- <- <-]; by apply Hstop).
  assert (push_candidate stream h) as Hcand.
  { split.
    - split; [done|]. split; [by apply truthy_str|]. by exists title.
    - exists file_idx. split; [done|]. by destruct file_idx. }
  assert (∀ o t0 h', h' ∈ checks (EvHttp (GetInstantAvailability [h]) o :: t0) →
                     checks t0 = [] → push_candidate stream h') as Hone.
  { intros o t0 h'. change (checks (EvHttp (GetInstantAvailability [h]) o :: t0))
      with (h :: checks t0). intros Hin Hrest. rewrite Hrest in Hin.
    by apply list_elem_of_singleton in Hin as ->. }
  assert (∀ o, rank_follows_check [EvHttp (GetInstantAvailability [h]) o])
    as Hhttp.
  { intros o. apply rank_follows_check_http. constructor; [by eexists _, _|].
    constructor. }
  intros Hrun.
  apply bind_run in Hrun
    as [(rd & w1 & t1 & t2 & Hcheck & Hrun & ->)|(e & Hcheck & ->)];
    apply check_rd_availability_cases in Hcheck
      as (o & -> & [(e' & He & Hraise)|[[Hun Hnot]|(record & Hsome & Hav)]]);
    simplify_eq.
  - (* not available: next stream *)
    apply (Hcontinue [EvHttp (GetInstantAvailability [h]) o] w1 t2); try done.
    + by repeat constructor.
    + intros h' Hin. by apply (Hone o []).
  - (* available: rank, and commit on an accepting verdict *)
    apply bind_run in Hrun
      as [(done & w2 & t3 & t4 & Hadd & Hrun & ->)|(e & Hadd & ->)];
      apply rank_and_add_run in Hadd
        as [(-> & Hacc & Hr)|(t & ra & t_add & Hrank & Hfetch & Hadd & -> & Hr)].
    + destruct Hr as [[= ->]|[e [=]]].
      rewrite app_assoc.
      apply (Hcontinue ([EvHttp (GetInstantAvailability [h]) o]
                        ++ [EvRank title h (rtn_rank title h)]) w2 t4); try done.
      * by repeat constructor.
      * by apply rank_follows_check_pair.
      * intros h' Hin. by apply (Hone o [EvRank title h (rtn_rank title h)]).
    + exists [], (EvHttp (GetInstantAvailability [h]) o
                  :: EvRank title h (Ok t) :: t_add ++ t4).
      split; [done|]. split; [done|]. split; [done|]. split; [done|].
      split; [by intros ? ?%elem_of_nil|].
      right. exists stream, h, o, title, file_idx, t, ra, w1, t_add.
      destruct ra as [result|e]; [|done].
      destruct (py_get result "success" JNull) as [flag|e]; [|done].
      injection Hr as ->. injection Hrun as <- <- <-. rewrite app_nil_r.
      split_and!; try done. by left.
    + destruct Hr as [[=]|[e' [= <-]]].
      apply (Hstop ([EvHttp (GetInstantAvailability [h]) o]
                    ++ [EvRank title h (rtn_rank title h)])); try done.
      * by repeat constructor.
      * by apply rank_follows_check_pair.
      * intros h' Hin. by apply (Hone o [EvRank title h (rtn_rank title h)]).
    + exists [], (EvHttp (GetInstantAvailability [h]) o
                  :: EvRank title h (Ok t) :: t_add).
      split; [done|]. split; [done|]. split; [done|]. split; [done|].
      split; [by intros ? ?%elem_of_nil|].
      right. exists stream, h, o, title, file_idx, t, ra, w1, t_add.
      split_and!; try done; [by left|].
      destruct ra as [result|e0]; [|by injection Hr as ->].
      destruct (py_get result "success" JNull) as [flag|e0]; [done|].
      by injection Hr as ->.
  - (* the check raises *)
    apply (Hstop [EvHttp (GetInstantAvailability [h]) o]); try done.
    + by repeat constructor.
    + intros h' Hin. by apply (Hone o []).
Qed.

Lemma webhook_body_run req (w w' : World) r tr :
  webhook_body req w = (r, w', tr) →
  ∃ head rest,
    tr = head ++ rest ∧
    Forall (λ e, is_resolution e = true ∨ is_discovery e = true) head ∧
    ((rest = [] ∧
      (r = Ok {| success := false; message := Text "IMDb ID not found" |}
       ∨ r = Ok {| success := false; message := Text "No torrents found" |}
       ∨ ∃ e, r = Raise e))
     ∨ ∃ items w1,
         push_streams (JStr (media_media_type req)) items w1 = (r, w', rest)).
Proof.
  unfold webhook_body. intros Hrun.
  apply bind_run in Hrun
    as [(imdb_id & w1 & t1 & t2 & Himdb & Hrun & ->)|(e & Himdb & ->)];
    apply trakt_attempts_run in Himdb as [Htrakt _].
  2:{ exists tr, []. split_and!; [by rewrite app_nil_r| |].
      - eapply Forall_impl; [exact Htrakt|]. intros ? [o ->]. by left.
      - left. split; [done|]. right. right. by exists e. }
  assert (Forall (λ e, is_resolution e = true ∨ is_discovery e = true) t1) as Hhead1.
  { eapply Forall_impl; [exact Htrakt|]. intros ? [o ->]. by left. }
  destruct (truthy imdb_id); simpl in Hrun.
  2:{ injection Hrun as <- <- <-. exists t1, [].
      split_and!; [done|done|]. left. split; [done|by left]. }
  apply bind_run in Hrun
    as [(results & w2 & t3 & t4 & Hdisc & Hrun & ->)|(e & Hdisc & ->)];
    apply torrentio_attempts_run in Hdisc.
  2:{ exists (t1 ++ t2), []. split_and!; [by rewrite app_nil_r| |].
      - apply Forall_app. split; [done|].
        eapply Forall_impl; [exact Hdisc|]. intros ? [o ->]. by right.
      - left. split; [done|]. right. right. by exists e. }
  assert (Forall (λ e, is_resolution e = true ∨ is_discovery e = true) (t1 ++ t3))
    as Hhead.
  { apply Forall_app. split; [done|].
    eapply Forall_impl; [exact Hdisc|]. intros ? [o ->]. by right. }
  destruct (truthy results); simpl in Hrun.
  2:{ injection Hrun as <- <- <-. exists (t1 ++ t3), [].
      split_and!; [by rewrite !app_nil_r|done|]. left. split; [done|]. right. by left. }
  rewrite bind_lift_run in Hrun.
  destruct (py_get results "streams" JNull) as [streams|e].
  2:{ injection Hrun as <- <- <-. exists (t1 ++ t3), [].
      split_and!; [by rewrite !app_nil_r|done|]. left. split; [done|]. right. right. by exists e. }
  destruct (truthy streams); simpl in Hrun.
  2:{ injection Hrun as <- <- <-. exists (t1 ++ t3), [].
      split_and!; [by rewrite !app_nil_r|done|]. left. split; [done|]. right. by left. }
  rewrite bind_lift_run in Hrun.
  destruct (py_iter streams) as [items|e].
  2:{ injection Hrun as <- <- <-. exists (t1 ++ t3), [].
      split_and!; [by rewrite !app_nil_r|done|]. left. split; [done|]. right. right. by exists e. }
  exists (t1 ++ t3), t4. split_and!; [by rewrite app_assoc|done|].
  right. by exists items, w2.
Qed.

Lemma jellyseer_webhook_run response (w : World) :
  ((jellyseer_webhook response w).2 = [] ∧
   ∃ reply, (jellyseer_webhook response w).1.1 = Ok reply ∧
            (success reply = true →
             message reply = Text "Test notification received successfully" ∧
             ∃ subject, py_get response "subject" JNull = Ok subject ∧
                        py_eq_str subject "Test Notification" = true))
  ∨ ∃ req w' r,
      webhook_body req w = (r, w', (jellyseer_webhook response w).2) ∧
      (jellyseer_webhook response w).1.1
      = Ok match r with
           | Ok reply => reply
           | Raise e => {| success := false; message := ExceptionText (Some e) |}
           end.
Proof.
  unfold jellyseer_webhook.
  destruct (py_get response "subject" JNull) as [subject|e];
    [|left; split; [done|]; by eexists].
  destruct (py_eq_str subject "Test Notification") eqn:Htest.
  { left. split; [done|]. eexists. split; [done|]. intros _.
    split; [done|]. by exists subject. }
  destruct (model_validate response) as [req|];
    [|left; split; [done|]; by eexists].
  right. unfold try_except_all, ret.
  destruct (webhook_body req w) as [[[reply|e] w'] tr] eqn:Hrun.
  - by exists req, w', (Ok reply).
  - exists req, w', (Raise e). simpl. by rewrite app_nil_r.
Qed.

Lemma http_of_head tr :
  Forall (λ e, is_resolution e = true ∨ is_discovery e = true) tr →
  Forall (λ e, ∃ c o, e = EvHttp c o) tr.
Proof.
  intros Hall. eapply Forall_impl; [exact Hall|].
  intros [c o|???] [?|?]; try done; by eexists _, _.
Qed.

Lemma http_of_commit info_hash name file_idx media_type (w w' : World) r tr :
  add_torrent_and_select_files info_hash name file_idx media_type w
    = (r, w', tr) →
  Forall (λ e, ∃ c o, e = EvHttp c o) tr.
Proof.
  intros Hadd. apply add_torrent_and_select_files_trace in Hadd
    as (o & rest & -> & Hfiles).
  constructor; [by eexists _, _|].
  eapply Forall_impl; [exact Hfiles|].
  intros [c o'|???] ?; [by eexists _, _|done].
Qed.

Lemma iteration_rank_follows_check st r tr :
  iteration st r tr → rank_follows_check tr.
Proof.
  intros [| |h o _ _|h o e _ _|h o title _ Hav _
          |h o title t _ Hav Hrank _|h o title e _ Hav Hrank _].
  - apply rank_follows_check_http. constructor.
  - apply rank_follows_check_http. constructor.
  - apply rank_follows_check_http. by repeat (constructor; [by eexists _, _|]).
  - apply rank_follows_check_http. by repeat (constructor; [by eexists _, _|]).
  - by apply rank_follows_check_pair.
  - rewrite <- Hrank. by apply rank_follows_check_pair.
  - rewrite <- Hrank. by apply rank_follows_check_pair.
Qed.

Lemma rank_streams_rank_follows_check streams : ∀ st (w w' : World) r tr,
  rank_streams streams st w = (r, w', tr) → rank_follows_check tr.
Proof.
  induction streams as [|stream streams IH]; intros st w w' r tr.
  - intros [= <- <- <-]. apply rank_follows_check_http. constructor.
  - simpl. intros Hrun.
    apply bind_run in Hrun
      as [([brk st1] & w1 & t1 & t2 & Hstep & Hrest & ->)|(e & Hstep & ->)];
      apply poll_iteration_cases, iteration_rank_follows_check in Hstep;
      [|done].
    apply rank_follows_check_app; [done|]. simpl in Hrest. destruct brk.
    + injection Hrest as <- <- <-. apply rank_follows_check_http. constructor.
    + by eapply IH.
Qed.

(** X13.  On both paths the ranking library is consulted only right after
    an availability check of the same hash that found a non-empty record:
    a candidate that is not instantly available is never ranked. *)
Theorem rankings_follow_successful_checks :
  (∀ request (w : World),
     rank_follows_check (process_overseerr_request request w).2)
  ∧
  (∀ response (w : World),
     rank_follows_check (jellyseer_webhook response w).2).
Proof.
  split.
  - intros request w.
    destruct (process_body request w) as [[r w'] tr] eqn:Hbody.
    destruct (process_overseerr_request_body _ _ _ _ _ _ _ _ _ Hbody)
      as [-> _].
    apply process_body_stages in Hbody
      as (head & loop & tail & -> & Hhead & Hcases).
    apply rank_follows_check_app;
      [by apply rank_follows_check_http, http_of_head|].
    destruct Hcases as [(-> & -> & _)
                       |(items & w1 & w2 & rl & media_id & media_type & Hloop & Htail)].
    { apply rank_follows_check_http. constructor. }
    apply rank_follows_check_app; [by eapply rank_streams_rank_follows_check|].
    apply rank_follows_check_http.
    destruct rl as [st|e]; [|destruct Htail as [_ ->]; constructor].
    destruct (top_torrents (ranked_torrents st)) as [|best ?];
      [destruct Htail as [_ ->]; constructor|].
    destruct Htail as (ra & w3 & t_add & t_ack & Hadd & -> & Hr).
    apply Forall_app. split; [by eapply http_of_commit|].
    destruct ra as [result|e]; [|destruct Hr as [_ ->]; constructor].
    destruct (py_get result "success" JNull) as [flag|e];
      [|destruct Hr as [_ ->]; constructor].
    destruct (truthy flag).
    + destruct Hr as (_ & o & ->). constructor; [by eexists _, _|constructor].
    + destruct Hr as [_ ->]. constructor.
  - intros response w.
    destruct (jellyseer_webhook_run response w)
      as [[-> _]|(req & w' & r & Hbody & _)].
    { apply rank_follows_check_http. constructor. }
    apply webhook_body_run in Hbody as (head & rest & -> & Hhead & Hrest).
    apply rank_follows_check_app;
      [by apply rank_follows_check_http, http_of_head|].
    destruct Hrest as [[-> _]|(items & w1 & Hpush)].
    { apply rank_follows_check_http. constructor. }
    apply push_streams_run in Hpush
      as (scan & last & -> & _ & _ & Hscan & _ & Hlast).
    apply rank_follows_check_app; [done|].
    destruct Hlast as [[-> _]
                      |(stream & h & o & title & file_idx & t & ra & w2 & t_add
                        & _ & _ & _ & _ & Hav & Hrank & _ & Hadd & -> & _)].
    { apply rank_follows_check_http. constructor. }
    apply (rank_follows_check_app
             [EvHttp (GetInstantAvailability [h]) o; EvRank title h (Ok t)]).
    + rewrite <- Hrank. by apply rank_follows_check_pair.
    + apply rank_follows_check_http. by eapply http_of_commit.
Qed.

Lemma successful_commit_trace
    info_hash name file_idx media_type (w w' : World) r tr :
  add_torrent_and_select_files info_hash name file_idx media_type w
    = (r, w', tr) →
  commit_succeeded r = true →
  ∃ body torrent_id body2 ids body3,
    tr = [EvHttp (PostAddMagnet info_hash name) (Response 201 body);
          EvHttp (GetTorrentInfo torrent_id) (Response 200 body2);
          EvHttp (PostSelectFiles torrent_id ids) (Response 204 body3)].
Proof.
  rewrite add_torrent_and_select_files_run.
  destruct (network (PostAddMagnet info_hash name) w) as [[st body|] w1];
    [|by intros [= <- <- <-]].
  simpl. destruct (st =? 201)%Z eqn:Hst; [|by intros [= <- <- <-]].
  apply Z.eqb_eq in Hst as ->.
  destruct (py_get body "id" JNull) as [tid|e]; [|by intros [= <- <- <-]].
  destruct (truthy tid); [|by intros [= <- <- <-]].
  destruct (select_files_in_rd_shape tid file_idx media_type w1)
    as (o2 & rest2 & Htr & Hshort & Hlong).
  destruct (select_files_in_rd tid file_idx media_type w1) as [[rs w2] t2].
  simpl in Htr, Hshort, Hlong. subst t2.
  destruct rs as [[|]|e]; intros [= <- <- <-] Hok; try done.
  destruct rest2 as [|e2 rest2]; [by destruct Hshort|].
  destruct Hlong as (body2 & files & ids & o3 & -> & _ & _ & _ & Hrest & Hrs);
    [done|].
  injection Hrest as -> ->. destruct o3 as [st3 body3|]; [|done].
  injection Hrs as Hst3. symmetry in Hst3. apply Z.eqb_eq in Hst3 as ->.
  by exists body, tid, body2, ids, body3.
Qed.

(** X14.  The webhook handler always answers with a reply, never with an
    exception.  It commits at most one torrent and never acknowledges.  A
    reply with [success] true is either the answer to a test notification,
    given without any outbound call, or "Torrent added", given right after
    a file selection that was answered with 204. *)
Theorem webhook_reply_reflects_the_calls response (w : World) :
  ∃ reply,
    (jellyseer_webhook response w).1.1 = Ok reply ∧
    length (commits (jellyseer_webhook response w).2) ≤ 1 ∧
    acknowledgements (jellyseer_webhook response w).2 = 0 ∧
    (success reply = true →
     ((jellyseer_webhook response w).2 = [] ∧
      message reply = Text "Test notification received successfully")
     ∨ (message reply = Text "Torrent added" ∧
        ∃ pre torrent_id ids body,
          (jellyseer_webhook response w).2
          = pre ++ [EvHttp (PostSelectFiles torrent_id ids)
                      (Response 204 body)])).
Proof.
  destruct (jellyseer_webhook_run response w)
    as [(Htr & reply & Hreply & Htest)|(req & w' & r & Hbody & Hreply)].
  { exists reply. rewrite Htr. split; [done|]. split; [simpl; lia|].
    split; [done|]. intros Hok. left. split; [done|]. by apply Htest. }
  rewrite Hreply. eexists. split; [done|].
  apply webhook_body_run in Hbody as (head & rest & -> & Hhead & Hrest).
  pose proof (head_only _ Hhead) as (_ & _ & _ & Hch & _ & Hkh).
  rewrite commits_app, acknowledgements_app, Hch, Hkh. simpl.
  destruct Hrest as [[-> Hr]|(items & w1 & Hpush)].
  { split; [simpl; lia|]. split; [done|].
    by destruct Hr as [->|[->|[e ->]]]. }
  apply push_streams_run in Hpush
    as (scan & last & -> & Hscan & _ & _ & _ & Hlast).
  pose proof (check_only _ Hscan) as (_ & Hcs & _ & Hks).
  rewrite commits_app, acknowledgements_app, Hcs, Hks. simpl.
  destruct Hlast as [[-> Hr]
                    |(stream & h & o & title & file_idx & t & ra & w2 & t_add
                      & _ & _ & _ & _ & _ & _ & _ & Hadd & -> & ->)].
  { split; [simpl; lia|]. split; [done|]. by destruct Hr as [->|[e ->]]. }
  pose proof Hadd as Hshape.
  apply add_torrent_and_select_files_trace, add_trace_readings in Hshape
    as (_ & _ & _ & Hca & Hka).
  change (commits (EvHttp (GetInstantAvailability [h]) o
                   :: EvRank title h (Ok t) :: t_add)) with (commits t_add).
  change (acknowledgements (EvHttp (GetInstantAvailability [h]) o
                            :: EvRank title h (Ok t) :: t_add))
    with (acknowledgements t_add).
  rewrite Hca, Hka. split; [simpl; lia|]. split; [done|].
  intros Hok. right.
  assert (commit_succeeded ra = true ∧
          message match match ra with
                        | Ok result =>
                            match py_get result "success" JNull with
                            | Ok flag =>
                                Ok (if truthy flag
                                    then {| success := true;
                                            message := Text "Torrent added" |}
                                    else {| success := false;
                                            message :=
                                              Text "Failed to add torrent to Real-Debrid" |})
                            | Raise e => Raise e
                            end
                        | Raise e => Raise e
                        end with
                  | Ok reply => reply
                  | Raise e =>
                      {| success := false; message := ExceptionText (Some e) |}
                  end = Text "Torrent added") as [Hsucc Hmsg].
  { destruct ra as [result|e]; [|done]. simpl.
    destruct (py_get result "success" JNull) as [flag|e]; [|done].
    by destruct (truthy flag). }
  split; [done|].
  destruct (successful_commit_trace _ _ _ _ _ _ _ _ Hadd Hsucc)
    as (b1 & tid & b2 & ids & b3 & ->).
  exists (head ++ scan ++ [EvHttp (GetInstantAvailability [h]) o;
                           EvRank title h (Ok t);
                           EvHttp (PostAddMagnet (infohash t) (parsed_title t))
                             (Response 201 b1);
                           EvHttp (GetTorrentInfo tid) (Response 200 b2)]),
    tid, ids, b3.
  by rewrite <- !app_assoc.
Qed.

(** X15.  The push loop checks only streams with a non-empty string
    ["infoHash"], a truthy ["title"] and a ["fileIdx"] that is not [None].
    It stops at the first candidate the ranking accepts: that torrent is
    committed at once, nothing is checked or ranked after it, and so at
    most one candidate is ever accepted.  When the loop ends without an
    accepted candidate the reply is "No torrents available on
    Real-Debrid". *)
Theorem push_loop_commits_the_first_accepted media_type streams (w : World) :
  (∀ h, h ∈ checks (push_streams media_type streams w).2 →
        ∃ stream, stream ∈ streams ∧ push_candidate stream h) ∧
  length (accepted (push_streams media_type streams w).2) ≤ 1 ∧
  (∀ pre title h t post,
     (push_streams media_type streams w).2
       = pre ++ EvRank title h (Ok t) :: post →
     fetch t = true →
     accepted pre = [] ∧
     ∃ o rest,
       post = EvHttp (PostAddMagnet (infohash t) (parsed_title t)) o :: rest ∧
       Forall (λ e, is_file_call e = true) rest) ∧
  (∀ reply,
     accepted (push_streams media_type streams w).2 = [] →
     (push_streams media_type streams w).1.1 = Ok reply →
     reply = {| success := false;
                message := Text "No torrents available on Real-Debrid" |}).
Proof.
  destruct (push_streams media_type streams w) as [[r w'] tr] eqn:Hrun.
  simpl.
  apply push_streams_run in Hrun
    as (scan & last & -> & Hscan & Hnone & _ & Hcand & Hlast).
  destruct Hlast as [[-> Hr]
                    |(stream & h0 & o & title0 & file_idx & t0 & ra & w2 & t_add
                      & Hin & Hc & _ & _ & _ & Hrank & Hfetch & Hadd & -> & Hr)].
  { rewrite app_nil_r. split; [done|]. rewrite Hnone.
    split; [simpl; lia|]. split.
    - intros pre title h t post -> Hfetch. exfalso.
      rewrite accepted_app, accepted_cons in Hnone. simpl in Hnone.
      rewrite Hfetch in Hnone. by destruct (accepted pre).
    - intros reply _ ->. by destruct Hr as [[= <-]|[e ?]]. }
  pose proof Hadd as Hshape.
  apply add_torrent_and_select_files_trace in Hshape
    as (o1 & rest & -> & Hfiles).
  pose proof (file_calls_only _ Hfiles) as (Hck & _ & Hac & _).
  assert (accepted (scan ++ EvHttp (GetInstantAvailability [h0]) o
                      :: EvRank title0 h0 (Ok t0)
                      :: EvHttp (PostAddMagnet (infohash t0) (parsed_title t0)) o1
                      :: rest) = [t0]) as Haccepted.
  { rewrite accepted_app, Hnone, !accepted_cons, Hac. simpl.
    by rewrite Hfetch. }
  split_and!.
  - intros h. rewrite checks_app. intros [Hh|Hh]%elem_of_app; [by apply Hcand|].
    change (h ∈ h0 :: checks rest) in Hh. rewrite Hck in Hh.
    apply list_elem_of_singleton in Hh as ->. by exists stream.
  - rewrite Haccepted. simpl. lia.
  - intros pre title h t post Heq Hfetch'.
    apply split_at_event in Heq as [(post1 & -> & _)|(pre2 & -> & Heq)].
    { exfalso. rewrite accepted_app, accepted_cons in Hnone. simpl in Hnone.
      rewrite Hfetch' in Hnone. by destruct (accepted pre). }
    destruct pre2 as [|e1 [|e2 pre3]]; simplify_eq/=.
    + split; [by rewrite accepted_app, Hnone|]. by exists o1, rest.
    + exfalso. destruct pre3 as [|e3 pre3]; simplify_eq/=.
      rewrite Forall_forall in Hfiles.
      assert (is_file_call (EvRank title h (Ok t)) = true) as Habs; [|done].
      apply Hfiles. apply elem_of_app. right. by left.
  - intros reply Hnil. by rewrite Haccepted in Hnil.
Qed.

End Coverage.

(** ** Payload validation *)

(** X16.  The "before" validator of the numeric ids is idempotent: a value
    it returns is returned unchanged when validated again, and it never
    returns the empty string (the empty string and [None] both become
    [None]). *)
Theorem validate_ids_is_idempotent
    (py_isdigit : string → bool) (py_int : string → option Z) value value' :
  validate_ids py_isdigit py_int value = Ok value' →
  validate_ids py_isdigit py_int value' = Ok value' ∧
  value' ≠ JStr "" ∧
  (value = JNull ∨ value = JStr "" → value' = JNull).
Proof.
  unfold validate_ids. destruct value as [|b|n|s|l|kvs].
  - intros [= <-]. split_and!; [done|done|]. by intros _.
  - intros [= <-]. split_and!; [done|done|]. by intros [?|?].
  - intros [= <-]. split_and!; [done|done|]. by intros [?|?].
  - destruct (String.eqb s "") eqn:Hempty.
    + intros [= <-]. split_and!; [done|done|]. by intros _.
    + assert (s ≠ "") as Hne.
      { intros ->. by rewrite String.eqb_refl in Hempty. }
      destruct (py_isdigit s) eqn:Hdigit.
      * destruct (py_int s) as [n|]; [|done]. intros [= <-].
        split_and!; [done|done|]. intros [?|[= ?]]; done.
      * intros [= <-]. rewrite Hempty, Hdigit. split_and!; [done| |].
        -- by intros [= ?].
        -- intros [?|[= ?]]; done.
  - intros [= <-]. split_and!; [done|done|]. by intros [?|?].
  - intros [= <-]. split_and!; [done|done|]. by intros [?|?].
Qed.

(** ** The further properties on the scenarios *)


Example intake_keeps_two_of_four :
  (get_overseerr_media_requests Cases.overseerr tt).1
  = Ok [Cases.tracked 2 3 1; Cases.tracked 2 3 4].
Proof. by vm_compute. Qed.

(** The record of a cached entry with one file under key ["1"]. *)
Lemma availability_record_witness :
  py_contains_str "rd" Scenario.cached_entry = Ok true ∧
  py_item Scenario.cached_entry "rd" = Ok (JList Cases.cached_containers) ∧
  truthy (JList Cases.cached_containers) = true ∧
  py_iter (JList Cases.cached_containers) = Ok Cases.cached_containers ∧
  rd_record Scenario.int_of_digits Scenario.cached_entry
    = Ok Cases.cached_record ∧
  ((∀ i info, Cases.cached_record !! i = Some info →
      ∃ kvs k v, JDict kvs ∈ Cases.cached_containers ∧ (k, v) ∈ kvs ∧
                 Scenario.int_of_digits k = Some i ∧
                 py_item v "filename" = Ok info.1 ∧
                 py_item v "filesize" = Ok info.2) ∧
   (∀ kvs k v i, JDict kvs ∈ Cases.cached_containers → (k, v) ∈ kvs →
      Scenario.int_of_digits k = Some i →
      is_Some (Cases.cached_record !! i)) ∧
   (size Cases.cached_record = 0
    ↔ ∀ kvs, JDict kvs ∈ Cases.cached_containers → kvs = [])).
Proof.
  split; [reflexivity|]. split; [reflexivity|]. split; [reflexivity|].
  split; [reflexivity|]. split; [vm_compute; reflexivity|].
  apply (availability_record_holds_the_cached_files Scenario.int_of_digits
           Scenario.cached_entry (JList Cases.cached_containers)
           Cases.cached_containers Cases.cached_record);
    vm_compute; reflexivity.
Defined.

Example hollow_entry_has_no_record :
  rd_record Scenario.int_of_digits Cases.hollow_entry = Ok ∅.
Proof. by vm_compute. Qed.

(** A commit for the media type "music" on a job with three files. *)
Lemma unknown_media_type_witness :
  py_eq_str (JStr "music") "movie" = false ∧
  py_eq_str (JStr "music") "tv" = false ∧
  ((∃ o,
      (select_files_in_rd (Scenario.network [] [] Scenario.episode_files)
         Scenario.guess_by_extension (JStr "JOB1") (JNum 0) (JStr "music")
         tt).2
      = [EvHttp (GetTorrentInfo (JStr "JOB1")) o]) ∧
   (select_files_in_rd (Scenario.network [] [] Scenario.episode_files)
      Scenario.guess_by_extension (JStr "JOB1") (JNum 0) (JStr "music")
      tt).1.1 ≠ Ok true ∧
   selections (Scenario.commit_run "music" 0).2 = [] ∧
   commit_succeeded (Scenario.commit_run "music" 0).1.1 = false).
Proof.
  split; [reflexivity|]. split; [reflexivity|].
  apply (unknown_media_type_selects_nothing
           (Scenario.network [] [] Scenario.episode_files)
           Scenario.guess_by_extension "h1" "A" (JStr "JOB1") (JNum 0)
           (JStr "music") tt); reflexivity.
Defined.

(** The first candidate is accepted, the check of the second gets no
    answer: the request is dropped. *)
Lemma unreachable_availability_witness :
  Cases.unreachable_run.2
    = take 4 Cases.unreachable_run.2
      ++ EvHttp (GetInstantAvailability ["h2"]) NoResponse :: [] ∧
  ((@nil event) = [] ∧
   Cases.unreachable_run.1.1 = Ok (Errored RequestException) ∧
   commits Cases.unreachable_run.2 = [] ∧
   acknowledgements Cases.unreachable_run.2 = 0).
Proof.
  split; [vm_compute; reflexivity|].
  apply (unreachable_availability_aborts_the_request
           (Cases.failing_availability Scenario.six_streams 3)
           (Scenario.rank_by_table Scenario.all_accepted)
           Scenario.guess_by_extension Scenario.int_of_digits
           (Scenario.request "movie") 0%nat
           (take 4 Cases.unreachable_run.2) ["h2"] []).
  vm_compute; reflexivity.
Defined.

Example unreachable_availability_drops_an_accepted_candidate :
  map infohash (accepted Cases.unreachable_run.2) = ["h1"].
Proof. by vm_compute. Qed.

(** Six candidates accepted, the magnet of the best one refused with a
    503. *)
Lemma refused_submission_witness :
  Cases.refused_run.2
    = take 14 Cases.refused_run.2
      ++ EvHttp (PostAddMagnet "h2" "B") (Response 503 JNull) :: [] ∧
  503%Z ≠ 201%Z ∧
  ((@nil event) = [] ∧
   Cases.refused_run.1.1 = Ok (Errored AttributeError) ∧
   acknowledgements Cases.refused_run.2 = 0).
Proof.
  split; [vm_compute; reflexivity|]. split; [discriminate|].
  apply (refused_submission_is_logged_as_an_error
           (Cases.refusing Scenario.six_streams)
           (Scenario.rank_by_table Scenario.all_accepted)
           Scenario.guess_by_extension Scenario.int_of_digits
           (Scenario.request "movie") tt
           (take 14 Cases.refused_run.2) "h2" "B" 503%Z JNull []).
  - vm_compute; reflexivity.
  - discriminate.
Defined.

(** The identifier "278" sent as a string becomes the integer 278. *)
Lemma validate_ids_witness :
  validate_ids Cases.ascii_isdigit Scenario.int_of_digits (JStr "278")
    = Ok (JNum 278) ∧
  (validate_ids Cases.ascii_isdigit Scenario.int_of_digits (JNum 278)
     = Ok (JNum 278) ∧
   JNum 278 ≠ JStr "" ∧
   (JStr "278" = JNull ∨ JStr "278" = JStr "" → JNum 278 = JNull)).
Proof.
  split; [reflexivity|].
  apply (validate_ids_is_idempotent Cases.ascii_isdigit Scenario.int_of_digits
           (JStr "278") (JNum 278)).
  reflexivity.
Defined.
